(** * Collaborative whiteboard server: session, presence and broadcast engine

    A shallow embedding of [server/main.py]: the [ConnectionManager] class
    (board registry, identity allocation, broadcast) and the
    [websocket_endpoint] coroutine (handshake, event loop, teardown),
    followed by the properties of the design document that concern them.

    Conventions of the embedding.
    - Python dictionaries keyed by board id are [gmap string _]; the
      per-board dictionaries keyed by user id, which the code iterates,
      are insertion-ordered association lists ([odict]).
    - JSON scalars are [value]s; [VNone] is Python's [None] (JSON null
      and the result of [dict.get] on a missing key).
    - User ids, names and the message discriminator are strings; an
      absent or null field is [None].
    - The coroutine is a computation in a state-and-exception monad [M]
      over the shared manager, the wire (everything successfully sent,
      in order) and the coroutine's two mutable locals.
    - Calls to [uuid.uuid4], [random] and [datetime.now] read an
      [Entropy] record handed to the step; whether a [send_json]
      succeeds is decided by the oracle [send_ok].
    - A handler activation runs without interleaving: the suspension
      points inside one activation are not modelled. *)

From stdpp Require Import gmap strings list fin_maps.
From Stdlib Require Import ZArith.

Open Scope string_scope.
Open Scope list_scope.
Open Scope nat_scope.

(** ** JSON scalars and Python's view of them *)

Inductive value :=
| VNone
| VBool (b : bool)
| VNum (z : Z)
| VStr (s : string).

#[global] Instance value_eq_dec : EqDecision value.
Proof. solve_decision. Defined.

(** [bool(v)] *)
Definition truthy (v : value) : bool :=
  match v with
  | VNone => false
  | VBool b => b
  | VNum z => negb (z =? 0)%Z
  | VStr s => negb (String.eqb s EmptyString)
  end.

(** [a or b] *)
Definition py_or (a b : value) : value := if truthy a then a else b.

(** [a == b]; booleans compare equal to the integers 0 and 1. *)
Definition py_eq (a b : value) : bool :=
  match a, b with
  | VNone, VNone => true
  | VBool x, VBool y => Bool.eqb x y
  | VNum x, VNum y => (x =? y)%Z
  | VStr x, VStr y => String.eqb x y
  | VBool x, VNum y | VNum y, VBool x => ((if x then 1 else 0) =? y)%Z
  | _, _ => false
  end.

(** Truthiness of an optional string ([None] and the empty string are falsy). *)
Definition str_truthy (s : option string) : bool :=
  match s with
  | Some s => negb (String.eqb s EmptyString)
  | None => false
  end.

Definition opt_str_value (s : option string) : value :=
  match s with Some s => VStr s | None => VNone end.

(** A drawable object: a client-defined dictionary. *)
Abbreviation obj := (gmap string value).

(** [d.get(k)] *)
Definition dict_get (d : obj) (k : string) : value := default VNone (d !! k).

(** ** Insertion-ordered dictionaries *)

Definition odict (V : Type) : Type := list (string * V).

Section odict.
Context {V : Type}.

Fixpoint od_get (k : string) (d : odict V) : option V :=
  match d with
  | [] => None
  | (k', v) :: d' => if decide (k = k') then Some v else od_get k d'
  end.

(** [d[k] = v]: an existing key keeps its position. *)
Fixpoint od_set (k : string) (v : V) (d : odict V) : odict V :=
  match d with
  | [] => [(k, v)]
  | (k', v') :: d' =>
      if decide (k = k') then (k, v) :: d' else (k', v') :: od_set k v d'
  end.

(** [del d[k]] *)
Fixpoint od_del (k : string) (d : odict V) : odict V :=
  match d with
  | [] => []
  | (k', v') :: d' =>
      if decide (k = k') then od_del k d' else (k', v') :: od_del k d'
  end.

Definition od_keys (d : odict V) : list string := fst <$> d.
Definition od_values (d : odict V) : list V := snd <$> d.
End odict.

(** ** Data model *)

Definition WebSocket := nat.

Record UserInfo := {
  ui_id : string;
  ui_name : option string;
  ui_color : string;
  ui_session_id : option string;
  ui_joined_at : string;
  ui_cursor : value
}.

Record UserEntry := {
  ue_id : string;
  ue_name : option string;
  ue_color : string;
  ue_joined_at : string
}.

Record Board := {
  objects : list obj;
  background : string;
  users : list UserEntry
}.

Record ConnectionManager := {
  active_connections : gmap string (odict WebSocket);
  board_data : gmap string Board;
  user_info : gmap string (odict UserInfo)
}.

(** [ConnectionManager.__init__] *)
Definition new_manager : ConnectionManager :=
  {| active_connections := ∅; board_data := ∅; user_info := ∅ |}.

(** [active_connections.get(board_id, {})] and [user_info.get(board_id, {})] *)
Definition conns_of (m : ConnectionManager) (b : string) : odict WebSocket :=
  match active_connections m !! b with Some c => c | None => [] end.
Definition infos_of (m : ConnectionManager) (b : string) : odict UserInfo :=
  match user_info m !! b with Some u => u | None => [] end.

(** Outbound envelopes, one constructor per [type]. *)
Inductive message :=
| Init (uid : string) (uname : option string) (color : string)
       (session : option string) (snapshot : Board) (roster : list UserEntry)
| UserJoined (uid : string) (uname : option string) (color : string)
             (joined_at : string)
| ObjectAdded (o : obj)
| ObjectModified (o : obj) (object_id : value)
| ObjectRemoved (object_id : value)
| ClearBoard (uid uname board : value)
| UserUpdated (uid old_name new_name : option string)
| CursorMoved (uid : option string) (uname : option string) (color : string)
              (position : value)
| UserLeft (uid : string) (uname : option string)
| Pong.

Definition msg_type (m : message) : string :=
  match m with
  | Init _ _ _ _ _ _ => "init"
  | UserJoined _ _ _ _ => "user_joined"
  | ObjectAdded _ => "object_added"
  | ObjectModified _ _ => "object_modified"
  | ObjectRemoved _ => "object_removed"
  | ClearBoard _ _ _ => "clear_board"
  | UserUpdated _ _ _ => "user_updated"
  | CursorMoved _ _ _ _ => "cursor_moved"
  | UserLeft _ _ => "user_left"
  | Pong => "pong"
  end.

(** An inbound envelope.  [None] stands for a missing key. *)
Record Data := {
  d_type : option string;
  d_userId : option string;
  d_userName : option string;
  d_sessionId : option string;
  d_object : option obj;
  d_object_id : value;
  d_position : option value;
  d_oldName : option string;
  d_newName : option string;
  d_user_id : option value;
  d_user_name : option value;
  d_boardId : option value
}.

(** What the process draws from its environment while serving one frame. *)
Record Entropy := {
  uuid_a : string;
  uuid_b : string;
  adjective_ix : nat;
  noun_ix : nat;
  now : string;
  now_b : string;
  now_c : string;
  synthetic_suffix : string
}.

(** What leaves the process. *)
Inductive output :=
| Sent (ws : WebSocket) (msg : message)
| Closed (ws : WebSocket).

(** ** The state-and-exception monad *)

(** [SendFailure] stands for whatever [send_json] raises. *)
Inductive exn :=
| KeyError (k : string)
| SendFailure
| DecodeError
| WebSocketDisconnect.

Inductive result (A : Type) :=
| Ok (a : A)
| Raise (e : exn).
Arguments Ok {A} a.
Arguments Raise {A} e.

Record St := {
  manager : ConnectionManager;
  wire : list output;
  var_user_id : option string;
  var_user_name : option string
}.

Definition M (A : Type) : Type := St → result A * St.

#[global] Instance M_ret : MRet M := λ A a s, (Ok a, s).
#[global] Instance M_bind : MBind M := λ A B f m s,
  match m s with
  | (Ok a, s') => f a s'
  | (Raise e, s') => (Raise e, s')
  end.

(** State updates. *)
Definition st_manager (m : ConnectionManager) (s : St) : St :=
  {| manager := m; wire := wire s;
     var_user_id := var_user_id s; var_user_name := var_user_name s |}.
Definition st_emit (os : list output) (s : St) : St :=
  {| manager := manager s; wire := wire s ++ os;
     var_user_id := var_user_id s; var_user_name := var_user_name s |}.
Definition st_user_id (u : option string) (s : St) : St :=
  {| manager := manager s; wire := wire s;
     var_user_id := u; var_user_name := var_user_name s |}.
Definition st_user_name (u : option string) (s : St) : St :=
  {| manager := manager s; wire := wire s;
     var_user_id := var_user_id s; var_user_name := u |}.

Definition raise {A} (e : exn) : M A := λ s, (Raise e, s).
Definition get_manager : M ConnectionManager := λ s, (Ok (manager s), s).
Definition set_manager (m : ConnectionManager) : M unit := λ s, (Ok (), st_manager m s).
Definition emit (o : output) : M unit := λ s, (Ok (), st_emit [o] s).
Definition get_user_id : M (option string) := λ s, (Ok (var_user_id s), s).
Definition get_user_name : M (option string) := λ s, (Ok (var_user_name s), s).
Definition set_user_id (u : option string) : M unit := λ s, (Ok (), st_user_id u s).
Definition set_user_name (u : option string) : M unit := λ s, (Ok (), st_user_name u s).

(** [d[k]] on a dictionary keyed by board id. *)
Definition subscript {A} (d : gmap string A) (k : string) : M A :=
  match d !! k with
  | Some a => mret a
  | None => raise (KeyError k)
  end.

(** [try: body except Exception: handler] *)
Definition try_except {A} (body : M A) (handler : exn → M A) : M A := λ s,
  match body s with
  | (Ok a, s') => (Ok a, s')
  | (Raise e, s') => handler e s'
  end.

(** [try: body finally: final] *)
Definition try_finally {A} (body : M A) (final : M unit) : M A := λ s,
  match body s with
  | (r, s') =>
      match final s' with
      | (Ok _, s'') => (r, s'')
      | (Raise e, s'') => (Raise e, s'')
      end
  end.

(** Field updates on the manager. *)
Definition with_active (f : gmap string (odict WebSocket) → gmap string (odict WebSocket))
    (m : ConnectionManager) : ConnectionManager :=
  {| active_connections := f (active_connections m);
     board_data := board_data m; user_info := user_info m |}.
Definition with_board_data (f : gmap string Board → gmap string Board)
    (m : ConnectionManager) : ConnectionManager :=
  {| active_connections := active_connections m;
     board_data := f (board_data m); user_info := user_info m |}.
Definition with_user_info (f : gmap string (odict UserInfo) → gmap string (odict UserInfo))
    (m : ConnectionManager) : ConnectionManager :=
  {| active_connections := active_connections m;
     board_data := board_data m; user_info := f (user_info m) |}.

Definition modify_manager (f : ConnectionManager → ConnectionManager) : M unit :=
  m ← get_manager; set_manager (f m).

Definition set_objects (os : list obj) (b : Board) : Board :=
  {| objects := os; background := background b; users := users b |}.
Definition set_users (us : list UserEntry) (b : Board) : Board :=
  {| objects := objects b; background := background b; users := us |}.
Definition set_name (n : option string) (u : UserInfo) : UserInfo :=
  {| ui_id := ui_id u; ui_name := n; ui_color := ui_color u;
     ui_session_id := ui_session_id u; ui_joined_at := ui_joined_at u;
     ui_cursor := ui_cursor u |}.
Definition set_cursor (c : value) (u : UserInfo) : UserInfo :=
  {| ui_id := ui_id u; ui_name := ui_name u; ui_color := ui_color u;
     ui_session_id := ui_session_id u; ui_joined_at := ui_joined_at u;
     ui_cursor := c |}.
Definition set_entry_name (n : option string) (u : UserEntry) : UserEntry :=
  {| ue_id := ue_id u; ue_name := n; ue_color := ue_color u;
     ue_joined_at := ue_joined_at u |}.

(** ** ConnectionManager *)

Definition adjectives : list string :=
  ["Creative"; "Artistic"; "Clever"; "Bright"; "Quick"; "Witty"; "Sharp"; "Smart"].
Definition nouns : list string :=
  ["Artist"; "Designer"; "Creator"; "Thinker"; "Drafter"; "Sketch"; "Drawer"; "Planner"].

(** [random.choice(xs)], the draw being index [i]. *)
Definition choice (xs : list string) (i : nat) : string :=
  nth (i mod length xs) xs EmptyString.

Definition colors : list string :=
  ["#FF6B6B"; "#4ECDC4"; "#FFD166"; "#06D6A0"; "#118AB2";
   "#EF476F"; "#7209B7"; "#3A86FF"; "#FB5607"; "#8338EC"].

Definition empty_board : Board :=
  {| objects := []; background := "#FFFFFF"; users := [] |}.

(** Lines 58-63: the color handed to the next registrant of a board whose
    identity records are [ui]. *)
Definition used_colors (ui : odict UserInfo) : list string :=
  ui_color <$> od_values ui.
Definition available_colors (ui : odict UserInfo) : list string :=
  filter (λ c, c ∉ used_colors ui) colors.
Definition assign_color (ui : odict UserInfo) : string :=
  match available_colors ui with
  | c :: _ => c
  | [] => nth (length ui mod length colors) colors EmptyString
  end.

(** Lines 34-46: identity resolution. *)
Definition resolve_identity (data : Data) (rnd : Entropy)
    : string * option string * option string :=
  if str_truthy (d_userId data)
  then (default EmptyString (d_userId data), d_userName data, d_sessionId data)
  else (uuid_a rnd,
        (if str_truthy (d_userName data) then d_userName data
         else Some (String.append (choice adjectives (adjective_ix rnd))
                      (String.append " " (choice nouns (noun_ix rnd))))),
        Some (uuid_b rnd)).

(** [next((u for u in users if u["id"] == user_id), None)] *)
Definition existing_user (uid : string) (us : list UserEntry) : option UserEntry :=
  head (filter (λ u, ue_id u = uid) us).

Definition register_user (websocket : WebSocket) (board_id : string)
    (user_data : Data) (rnd : Entropy)
    : M (string * option string * string * option string) :=
  let '(user_id, user_name, session_id) := resolve_identity user_data rnd in
  m ← get_manager;
  (if bool_decide (is_Some (active_connections m !! board_id)) then mret ()
   else
     modify_manager (with_active <[board_id := []]>);;
     modify_manager (with_board_data <[board_id := empty_board]>);;
     modify_manager (with_user_info <[board_id := []]>));;
  m ← get_manager;
  ui ← subscript (user_info m) board_id;
  let color := assign_color ui in
  modify_manager (with_user_info <[board_id :=
    od_set user_id {| ui_id := user_id; ui_name := user_name; ui_color := color;
                      ui_session_id := session_id; ui_joined_at := now rnd;
                      ui_cursor := VNone |} ui]>);;
  m ← get_manager;
  conns ← subscript (active_connections m) board_id;
  modify_manager (with_active <[board_id := od_set user_id websocket conns]>);;
  let user_list_entry :=
    {| ue_id := user_id; ue_name := user_name; ue_color := color;
       ue_joined_at := now_b rnd |} in
  m ← get_manager;
  bd ← subscript (board_data m) board_id;
  (match existing_user user_id (users bd) with
   | Some _ => mret ()
   | None =>
       modify_manager
         (with_board_data <[board_id := set_users (users bd ++ [user_list_entry]) bd]>)
   end);;
  mret (user_id, user_name, color, session_id).

(** The name returned is the stored one, or ["User"]. *)
Definition disconnect (board_id : string) (user_id : string) : M (option string) :=
  m ← get_manager;
  match active_connections m !! board_id with
  | None => mret (Some "User")
  | Some conns =>
      (if bool_decide (is_Some (od_get user_id conns))
       then modify_manager (with_active <[board_id := od_del user_id conns]>)
       else mret ());;
      m ← get_manager;
      match user_info m !! board_id with
      | None => mret (Some "User")
      | Some ui =>
          match od_get user_id ui with
          | None => mret (Some "User")
          | Some info =>
              let user_name := ui_name info in
              modify_manager (with_user_info <[board_id := od_del user_id ui]>);;
              m ← get_manager;
              (match board_data m !! board_id with
               | Some bd =>
                   modify_manager (with_board_data <[board_id :=
                     set_users (filter (λ u, ue_id u ≠ user_id) (users bd)) bd]>)
               | None => mret ()
               end);;
              m ← get_manager;
              conns ← subscript (active_connections m) board_id;
              (match conns with
               | [] =>
                   modify_manager (with_active (delete board_id));;
                   m ← get_manager;
                   _ ← subscript (board_data m) board_id;
                   modify_manager (with_board_data (delete board_id));;
                   m ← get_manager;
                   _ ← subscript (user_info m) board_id;
                   modify_manager (with_user_info (delete board_id))
               | _ :: _ => mret ()
               end);;
              mret user_name
          end
      end
  end.

Section network.
(** Whether [connection.send_json(message)] goes through. *)
Variable send_ok : WebSocket → message → bool.

Definition send_json (ws : WebSocket) (msg : message) : M unit :=
  if send_ok ws msg then emit (Sent ws msg) else raise SendFailure.

Definition send_to_user (websocket : WebSocket) (msg : message) : M unit :=
  send_json websocket msg.

(** The [for] loop of [broadcast] (lines 119-126): one attempt per
    member, failures collected in [disconnected]. *)
Fixpoint broadcast_pass (items : odict WebSocket) (msg : message)
    (disconnected : list string) : M (list string) :=
  match items with
  | [] => mret disconnected
  | (user_id, connection) :: rest =>
      disconnected' ← try_except
        (send_json connection msg;; mret disconnected)
        (λ _, mret (disconnected ++ [user_id]));
      broadcast_pass rest msg disconnected'
  end.

Fixpoint disconnect_all (board_id : string) (disconnected : list string) : M unit :=
  match disconnected with
  | [] => mret ()
  | user_id :: rest => disconnect board_id user_id;; disconnect_all board_id rest
  end.

(** [exclude_user_id] is accepted and never consulted (line 120). *)
Definition broadcast (board_id : string) (msg : message)
    (exclude_user_id : option string) : M unit :=
  m ← get_manager;
  match active_connections m !! board_id with
  | None => mret ()
  | Some conns =>
      disconnected ← broadcast_pass conns msg [];
      disconnect_all board_id disconnected
  end.
End network.

(** [ConnectionManager.add_object] (lines 134-142); no caller in the
    module.  [drop (n - 1000)] is the slice [[-1000:]]. *)
Definition add_object (board_id : string) (obj_data : obj) (rnd : Entropy) : M unit :=
  m ← get_manager;
  match board_data m !! board_id with
  | None => mret ()
  | Some bd =>
      let obj_data := <["timestamp" := VStr (now rnd)]>
                        (<["id" := VStr (uuid_a rnd)]> obj_data) in
      let os := objects bd ++ [obj_data] in
      modify_manager (with_board_data <[board_id := set_objects os bd]>);;
      (if bool_decide (1000 < length os)
       then modify_manager (with_board_data <[board_id :=
              set_objects (drop (length os - 1000) os) bd]>)
       else mret ())
  end.

(** ** The connection handler *)

(** An inbound frame: a parsed envelope with the draws made while it is
    served, or bytes that [receive_json] cannot parse. *)
Inductive frame :=
| Json (data : Data) (rnd : Entropy)
| Garbage.

(** [data[k]] on the envelope. *)
Definition require {A} (k : string) (o : option A) : M A :=
  match o with
  | Some a => mret a
  | None => raise (KeyError k)
  end.

(** Lines 251-256: the first object whose id equals [object_id] is
    replaced, the scan stops there. *)
Fixpoint replace_first (object_id : value) (new : obj) (os : list obj) : list obj :=
  match os with
  | [] => []
  | o :: rest =>
      if py_eq (dict_get o "id") object_id then new :: rest
      else o :: replace_first object_id new rest
  end.

(** Lines 230-233: the first roster entry of that id is renamed. *)
Fixpoint rename_first (user_id : option string) (new_name : option string)
    (us : list UserEntry) : list UserEntry :=
  match us with
  | [] => []
  | u :: rest =>
      if bool_decide (Some (ue_id u) = user_id)
      then set_entry_name new_name u :: rest
      else u :: rename_first user_id new_name rest
  end.

(** Lines 261-262: [if 'id' not in obj_data and object_id: obj_data['id'] = object_id] *)
Definition ensure_id (object_id : value) (obj_data : obj) : obj :=
  if negb (bool_decide (is_Some (obj_data !! "id"))) && truthy object_id
  then <["id" := object_id]> obj_data else obj_data.

(** [manager.user_info.get(board_id, {}).get(user_id, {})] *)
Definition find_info (m : ConnectionManager) (board_id : string)
    (user_id : option string) : option UserInfo :=
  match user_id with
  | Some u => od_get u (infos_of m board_id)
  | None => None
  end.

Section endpoint.
Variable send_ok : WebSocket → message → bool.

(** One pass through the body of [while True] (lines 197-333).  The
    second [update_user] branch (lines 309-330) is unreachable. *)
Definition handle_event (websocket : WebSocket) (board_id : string)
    (data : Data) (rnd : Entropy) : M unit :=
  ty ← require "type" (d_type data);
  if bool_decide (ty = "add_object") then
    obj_data ← require "object" (d_object data);
    let obj_data :=
      if truthy (dict_get obj_data "id") then obj_data
      else <["id" := VStr (String.append "obj_" (synthetic_suffix rnd))]> obj_data in
    let obj_data := <["timestamp" := VStr (now rnd)]> obj_data in
    m ← get_manager;
    (match board_data m !! board_id with
     | Some bd =>
         modify_manager (with_board_data <[board_id :=
           set_objects (objects bd ++ [obj_data]) bd]>)
     | None => mret ()
     end);;
    broadcast send_ok board_id (ObjectAdded obj_data) None
  else if bool_decide (ty = "update_user") then
    let old_name := d_oldName data in
    let new_name := d_newName data in
    set_user_id (d_userId data);;
    user_id ← get_user_id;
    m ← get_manager;
    (match user_id, user_info m !! board_id with
     | Some u, Some ui =>
         match od_get u ui with
         | Some info =>
             modify_manager (with_user_info <[board_id :=
               od_set u (set_name new_name info) ui]>)
         | None => mret ()
         end
     | _, _ => mret ()
     end);;
    m ← get_manager;
    (match board_data m !! board_id with
     | Some bd =>
         modify_manager (with_board_data <[board_id :=
           set_users (rename_first user_id new_name (users bd)) bd]>)
     | None => mret ()
     end);;
    broadcast send_ok board_id (UserUpdated user_id old_name new_name) user_id
  else if bool_decide (ty = "modify_object") then
    obj_data ← require "object" (d_object data);
    let object_id := py_or (d_object_id data) (dict_get obj_data "id") in
    (* The dictionary stored at line 254 is the one line 262 writes to:
       the store sees the id added after the scan. *)
    let obj_data := ensure_id object_id obj_data in
    m ← get_manager;
    (match board_data m !! board_id with
     | Some bd =>
         modify_manager (with_board_data <[board_id :=
           set_objects (replace_first object_id obj_data (objects bd)) bd]>)
     | None => mret ()
     end);;
    broadcast send_ok board_id (ObjectModified obj_data object_id) None
  else if bool_decide (ty = "remove_object") then
    let obj_id :=
      py_or (d_object_id data) (dict_get (default ∅ (d_object data)) "id") in
    m ← get_manager;
    (match board_data m !! board_id with
     | Some bd =>
         if truthy obj_id then
           modify_manager (with_board_data <[board_id :=
             set_objects
               (filter (λ o, py_eq (dict_get o "id") obj_id = false) (objects bd))
               bd]>)
         else mret ()
     | None => mret ()
     end);;
    broadcast send_ok board_id (ObjectRemoved obj_id) None
  else if bool_decide (ty = "clear_board") then
    m ← get_manager;
    (match board_data m !! board_id with
     | Some bd =>
         modify_manager (with_board_data <[board_id := set_objects [] bd]>)
     | None => mret ()
     end);;
    user_id ← get_user_id;
    user_name ← get_user_name;
    broadcast send_ok board_id
      (ClearBoard (default (opt_str_value user_id) (d_user_id data))
                  (default (opt_str_value user_name) (d_user_name data))
                  (default VNone (d_boardId data)))
      None
  else if bool_decide (ty = "cursor_move") then
    user_id ← get_user_id;
    m ← get_manager;
    (match user_id, user_info m !! board_id with
     | Some u, Some ui =>
         match od_get u ui with
         | Some info =>
             position ← require "position" (d_position data);
             modify_manager (with_user_info <[board_id :=
               od_set u (set_cursor position info) ui]>)
         | None => mret ()
         end
     | _, _ => mret ()
     end);;
    m ← get_manager;
    let info := find_info m board_id user_id in
    position ← require "position" (d_position data);
    broadcast send_ok board_id
      (CursorMoved user_id
         (from_option ui_name (Some "User") info)
         (from_option ui_color "#999999" info)
         position)
      user_id
  else if bool_decide (ty = "ping") then
    send_to_user send_ok websocket Pong
  else mret ().

(** [while True: data = await websocket.receive_json(); ...]: the
    peer sends [inbound] and then goes away. *)
Fixpoint event_loop (websocket : WebSocket) (board_id : string)
    (inbound : list frame) : M unit :=
  match inbound with
  | [] => raise WebSocketDisconnect
  | Garbage :: _ => raise DecodeError
  | Json data rnd :: rest =>
      handle_event websocket board_id data rnd;;
      event_loop websocket board_id rest
  end.

(** The [finally] block (lines 338-345). *)
Definition teardown (board_id : string) : M unit :=
  user_id ← get_user_id;
  if str_truthy user_id then
    let uid := default EmptyString user_id in
    disconnected_name ← disconnect board_id uid;
    user_name ← get_user_name;
    broadcast send_ok board_id
      (UserLeft uid (if str_truthy disconnected_name then disconnected_name
                     else user_name))
      None
  else mret ().

(** [except WebSocketDisconnect: pass] *)
Definition except_disconnect (body : M unit) : M unit :=
  try_except body
    (λ e, match e with WebSocketDisconnect => mret () | _ => raise e end).

(** Lines 157-192: the first frame. *)
Definition join (websocket : WebSocket) (board_id : string)
    (data : Data) (rnd : Entropy) : M unit :=
  '(user_id, user_name, color, session_id) ←
    register_user websocket board_id data rnd;
  set_user_id (Some user_id);;
  set_user_name user_name;;
  m ← get_manager;
  send_to_user send_ok websocket
    (Init user_id user_name color session_id
       (default empty_board (board_data m !! board_id))
       (default [] (users <$> board_data m !! board_id)));;
  broadcast send_ok board_id
    (UserJoined user_id user_name color (now_c rnd)) (Some user_id).

(** Lines 195-345: the loop inside its [try ... except ... finally]. *)
Definition session (websocket : WebSocket) (board_id : string)
    (inbound : list frame) : M unit :=
  try_finally
    (except_disconnect (event_loop websocket board_id inbound))
    (teardown board_id).

Definition websocket_endpoint (websocket : WebSocket) (board_id : string)
    (inbound : list frame) : M unit :=
  set_user_id None;;
  set_user_name None;;
  try_except
    (match inbound with
     | [] => raise WebSocketDisconnect
     | Garbage :: _ => raise DecodeError
     | Json data rnd :: rest =>
         ty ← require "type" (d_type data);
         if bool_decide (ty = "user_join") then
           join websocket board_id data rnd;;
           session websocket board_id rest
         else mret ()
     end)
    (λ _, emit (Closed websocket)).
End endpoint.

(** ** Derived notions used in the statements *)

(** What the three dictionaries hold for one board id: all three have
    the board or none has; a board that is there has at least one
    connection, and its connections and identity records have the same
    user ids, each once. *)
Definition slot_wf (c : option (odict WebSocket)) (bd : option Board)
    (ui : option (odict UserInfo)) : Prop :=
  match c, bd, ui with
  | Some conns, Some _, Some ui =>
      conns ≠ [] ∧ od_keys conns = od_keys ui ∧ NoDup (od_keys conns)
  | None, None, None => True
  | _, _, _ => False
  end.

Definition registry_wf (m : ConnectionManager) : Prop :=
  ∀ b, slot_wf (active_connections m !! b) (board_data m !! b) (user_info m !! b).

(** What [disconnect] returns and does on a well-formed registry. *)
Definition leaver_name (b uid : string) (m : ConnectionManager) : option string :=
  match active_connections m !! b, user_info m !! b with
  | Some _, Some ui => from_option ui_name (Some "User") (od_get uid ui)
  | _, _ => Some "User"
  end.

Definition drop_user (b uid : string) (m : ConnectionManager) : ConnectionManager :=
  match active_connections m !! b, user_info m !! b, board_data m !! b with
  | Some conns, Some ui, Some bd =>
      match od_get uid ui with
      | None => m
      | Some _ =>
          match od_del uid conns with
          | [] =>
              {| active_connections := delete b (active_connections m);
                 board_data := delete b (board_data m);
                 user_info := delete b (user_info m) |}
          | conns' =>
              {| active_connections := <[b := conns']> (active_connections m);
                 board_data :=
                   <[b := set_users (filter (λ u, ue_id u ≠ uid) (users bd)) bd]>
                     (board_data m);
                 user_info := <[b := od_del uid ui]> (user_info m) |}
          end
      end
  | _, _, _ => m
  end.

(** No user id occurs twice on a roster. *)
Definition roster_unique (m : ConnectionManager) : Prop :=
  ∀ b bd, board_data m !! b = Some bd → NoDup (ue_id <$> users bd).

Definition Inv (m : ConnectionManager) : Prop := registry_wf m ∧ roster_unique m.

(** Agreement of two registries away from one board. *)
Definition same_off (b : string) (m m' : ConnectionManager) : Prop :=
  ∀ b', b' ≠ b →
    active_connections m' !! b' = active_connections m !! b' ∧
    board_data m' !! b' = board_data m !! b' ∧
    user_info m' !! b' = user_info m !! b'.

(** What [register_user] returns and does on a well-formed registry:
    lines 48-56, 34-63 and 65-88. *)
Definition ensure_board (b : string) (m : ConnectionManager) : ConnectionManager :=
  match active_connections m !! b with
  | Some _ => m
  | None =>
      {| active_connections := <[b := []]> (active_connections m);
         board_data := <[b := empty_board]> (board_data m);
         user_info := <[b := []]> (user_info m) |}
  end.

Definition identity (b : string) (data : Data) (rnd : Entropy) (m : ConnectionManager)
    : string * option string * string * option string :=
  let '(uid, uname, sid) := resolve_identity data rnd in
  (uid, uname, assign_color (infos_of m b), sid).

Definition enrol (ws : WebSocket) (b : string) (data : Data) (rnd : Entropy)
    (m : ConnectionManager) : ConnectionManager :=
  let '(uid, uname, color, sid) := identity b data rnd m in
  let m1 := ensure_board b m in
  let conns := conns_of m1 b in
  let bd := default empty_board (board_data m1 !! b) in
  let ui := infos_of m1 b in
  {| active_connections := <[b := od_set uid ws conns]> (active_connections m1);
     board_data :=
       match existing_user uid (users bd) with
       | Some _ => board_data m1
       | None =>
           <[b := set_users (users bd ++ [{| ue_id := uid; ue_name := uname;
                                              ue_color := color;
                                              ue_joined_at := now_b rnd |}]) bd]>
             (board_data m1)
       end;
     user_info :=
       <[b := od_set uid {| ui_id := uid; ui_name := uname; ui_color := color;
                            ui_session_id := sid; ui_joined_at := now rnd;
                            ui_cursor := VNone |} ui]> (user_info m1) |}.

(** What one pass of [broadcast] over [items] puts on the wire, the
    ids it collects, and the registry once these are torn down. *)
Definition delivered (send_ok : WebSocket → message → bool) (msg : message)
    (items : odict WebSocket) : list output :=
  (λ kv, Sent kv.2 msg) <$> filter (λ kv, send_ok kv.2 msg = true) items.

Definition failed (send_ok : WebSocket → message → bool) (msg : message)
    (items : odict WebSocket) : list string :=
  fst <$> filter (λ kv, send_ok kv.2 msg = false) items.

Definition prune (b : string) (uids : list string) (m : ConnectionManager)
    : ConnectionManager :=
  foldl (λ m uid, drop_user b uid m) m uids.

(** [board_data.get(board_id, {}).get("users", [])] *)
Definition roster_of (m : ConnectionManager) (b : string) : list UserEntry :=
  match board_data m !! b with Some bd => users bd | None => [] end.

(** No trace of [uid] on board [b]: no connection, no identity record,
    no roster entry. *)
Definition absent_from (b uid : string) (m : ConnectionManager) : Prop :=
  od_get uid (conns_of m b) = None ∧
  od_get uid (infos_of m b) = None ∧
  uid ∉ ue_id <$> roster_of m b.

(** A computation keeps the registry invariant, however it ends. *)
Definition preserves {A} (c : M A) : Prop :=
  ∀ s, Inv (manager s) → Inv (manager (c s).2).

(** States the process can be in: any interleaving of endpoint runs, of
    their phases taken one activation at a time (each with the locals of
    the coroutine it belongs to), and of direct manager calls, under any
    behaviour of the network. *)
Inductive reachable : St → Prop :=
| reachable_start w u n :
    reachable {| manager := new_manager; wire := w;
                 var_user_id := u; var_user_name := n |}
| reachable_locals u n s :
    reachable s → reachable (st_user_name n (st_user_id u s))
| reachable_endpoint send_ok ws b inbound s :
    reachable s → reachable (websocket_endpoint send_ok ws b inbound s).2
| reachable_join send_ok ws b data rnd s :
    reachable s → reachable (join send_ok ws b data rnd s).2
| reachable_event send_ok ws b data rnd s :
    reachable s → reachable (handle_event send_ok ws b data rnd s).2
| reachable_teardown send_ok b s :
    reachable s → reachable (teardown send_ok b s).2
| reachable_register ws b data rnd s :
    reachable s → reachable (register_user ws b data rnd s).2
| reachable_disconnect b uid s :
    reachable s → reachable (disconnect b uid s).2
| reachable_broadcast send_ok b msg exclude s :
    reachable s → reachable (broadcast send_ok b msg exclude s).2.

(** Lines 203-210: the object as stored and broadcast by the [add_object]
    branch, and the registry after the append. *)
Definition store_object (b : string) (o : obj) (m : ConnectionManager) : ConnectionManager :=
  match board_data m !! b with
  | Some bd => with_board_data <[b := set_objects (objects bd ++ [o]) bd]> m
  | None => m
  end.

Definition stamped (o : obj) (rnd : Entropy) : obj :=
  <["timestamp" := VStr (now rnd)]>
    (if truthy (dict_get o "id") then o
     else <["id" := VStr (String.append "obj_" (synthetic_suffix rnd))]> o).

(** Where the first frame is a [user_join] envelope. *)
Definition first_is_join (inbound : list frame) : bool :=
  match inbound with
  | Json data _ :: _ => bool_decide (d_type data = Some "user_join")
  | _ => false
  end.

(** The key whose subscript fails while the event is served, if any
    (lines 159/199, 200, 244, 297 and 306). *)
Definition missing_required (data : Data) : option string :=
  match d_type data with
  | None => Some "type"
  | Some ty =>
      if bool_decide (ty = "add_object") || bool_decide (ty = "modify_object")
      then (match d_object data with Some _ => None | None => Some "object" end)
      else if bool_decide (ty = "cursor_move")
      then (match d_position data with Some _ => None | None => Some "position" end)
      else None
  end.

(** Events all of whose payload fields are read with [dict.get]. *)
Definition reads_with_defaults (data : Data) : Prop :=
  d_type data = Some "update_user" ∨ d_type data = Some "remove_object" ∨
  d_type data = Some "clear_board".

(** The handler returns normally, so that [while True] reads the next frame. *)
Definition event_survives (send_ok : WebSocket → message → bool) (ws : WebSocket)
    (b : string) (data : Data) (rnd : Entropy) (s : St) : Prop :=
  ∃ s', handle_event send_ok ws b data rnd s = (Ok (), s').

(** ** Concrete scenarios *)

(** An envelope with no key at all, and the setters used to build the
    others. *)
Definition blank : Data :=
  {| d_type := None; d_userId := None; d_userName := None; d_sessionId := None;
     d_object := None; d_object_id := VNone; d_position := None;
     d_oldName := None; d_newName := None;
     d_user_id := None; d_user_name := None; d_boardId := None |}.

Definition with_type (ty : string) (d : Data) : Data :=
  {| d_type := Some ty; d_userId := d_userId d; d_userName := d_userName d;
     d_sessionId := d_sessionId d; d_object := d_object d;
     d_object_id := d_object_id d; d_position := d_position d;
     d_oldName := d_oldName d; d_newName := d_newName d;
     d_user_id := d_user_id d; d_user_name := d_user_name d;
     d_boardId := d_boardId d |}.

Definition with_userId (u : string) (d : Data) : Data :=
  {| d_type := d_type d; d_userId := Some u; d_userName := d_userName d;
     d_sessionId := d_sessionId d; d_object := d_object d;
     d_object_id := d_object_id d; d_position := d_position d;
     d_oldName := d_oldName d; d_newName := d_newName d;
     d_user_id := d_user_id d; d_user_name := d_user_name d;
     d_boardId := d_boardId d |}.

Definition with_object (o : obj) (d : Data) : Data :=
  {| d_type := d_type d; d_userId := d_userId d; d_userName := d_userName d;
     d_sessionId := d_sessionId d; d_object := Some o;
     d_object_id := d_object_id d; d_position := d_position d;
     d_oldName := d_oldName d; d_newName := d_newName d;
     d_user_id := d_user_id d; d_user_name := d_user_name d;
     d_boardId := d_boardId d |}.

Definition with_position (p : value) (d : Data) : Data :=
  {| d_type := d_type d; d_userId := d_userId d; d_userName := d_userName d;
     d_sessionId := d_sessionId d; d_object := d_object d;
     d_object_id := d_object_id d; d_position := Some p;
     d_oldName := d_oldName d; d_newName := d_newName d;
     d_user_id := d_user_id d; d_user_name := d_user_name d;
     d_boardId := d_boardId d |}.

Definition join_as (uid : string) : Data := with_userId uid (with_type "user_join" blank).

(** Some draws, a network that never fails, and the process at start. *)
Definition rnd0 : Entropy :=
  {| uuid_a := "7d0a"; uuid_b := "51c2"; adjective_ix := 0; noun_ix := 0;
     now := "t0"; now_b := "t0"; now_c := "t0"; synthetic_suffix := "17_4242" |}.

Definition all_ok : WebSocket → message → bool := λ _ _, true.

Definition st0 : St :=
  {| manager := new_manager; wire := []; var_user_id := None; var_user_name := None |}.

(** Board ["b1"] with ["a"] on socket 1. *)
Definition st_a : St := (join all_ok 1 "b1" (join_as "a") rnd0 st0).2.

(** Board ["b1"] with ["a"] on socket 1 and ["bb"] on socket 2; the
    locals are those of ["a"]'s coroutine. *)
Definition st_ab : St :=
  st_user_id (Some "a") (join all_ok 2 "b1" (join_as "bb") rnd0 st_a).2.

(** ** Presence traces on one board *)

Inductive presence :=
| Arrive (ws : WebSocket) (data : Data) (rnd : Entropy)
| Leave (uid : string).

Fixpoint run_presence (b : string) (ops : list presence) (s : St) : St :=
  match ops with
  | [] => s
  | Arrive ws data rnd :: rest =>
      run_presence b rest (register_user ws b data rnd s).2
  | Leave uid :: rest => run_presence b rest (disconnect b uid s).2
  end.

(** Every registration of the trace finds fewer than ten users present. *)
Fixpoint joins_below_ten (b : string) (ops : list presence) (s : St) : Prop :=
  match ops with
  | [] => True
  | Arrive ws data rnd :: rest =>
      length (infos_of (manager s) b) < 10 ∧
      joins_below_ten b rest (register_user ws b data rnd s).2
  | Leave uid :: rest => joins_below_ten b rest (disconnect b uid s).2
  end.

(** The colors on a board are pairwise distinct and from the palette. *)
Definition colors_ok (b : string) (m : ConnectionManager) : Prop :=
  NoDup (used_colors (infos_of m b)) ∧
  ∀ c, c ∈ used_colors (infos_of m b) → c ∈ colors.

(** Whenever at most ten users are present on a board, their colors
    are pairwise distinct. *)
Definition colors_distinct_upto_ten (s : St) : Prop :=
  ∀ b, length (infos_of (manager s) b) ≤ 10 →
       NoDup (used_colors (infos_of (manager s) b)).

Definition ten_users : list (string * WebSocket) :=
  [("u0", 20); ("u1", 21); ("u2", 22); ("u3", 23); ("u4", 24);
   ("u5", 25); ("u6", 26); ("u7", 27); ("u8", 28); ("u9", 29)].

(** Ten users on board ["b1"], each on a socket of its own. *)
Definition st_ten : St :=
  foldl (λ s u, (register_user u.2 "b1" (join_as u.1) rnd0 s).2) st0 ten_users.

(** ...and then ["u5"] joins again, on a new socket. *)
Definition st_rejoin : St := (register_user 35 "b1" (join_as "u5") rnd0 st_ten).2.

(** The [user_left] envelope the [finally] block sends from state [s]
    (lines 340-345). *)
Definition user_left_message (b : string) (s : St) : message :=
  let uid := default EmptyString (var_user_id s) in
  let disconnected_name := leaver_name b uid (manager s) in
  UserLeft uid (if str_truthy disconnected_name then disconnected_name
                else var_user_name s).

(** The entry registered under [orig] on board [b] (its connection and
    its roster entries) is the same after the teardown as before. *)
Definition teardown_keeps_entry (send_ok : WebSocket → message → bool)
    (b orig : string) (s : St) : Prop :=
  let m' := manager (teardown send_ok b s).2 in
  od_get orig (conns_of m' b) = od_get orig (conns_of (manager s) b) ∧
  filter (λ u, ue_id u = orig) (roster_of m' b)
  = filter (λ u, ue_id u = orig) (roster_of (manager s) b).

(** A network on which socket 1 is dead. *)
Definition socket_1_dead : WebSocket → message → bool :=
  λ ws _, bool_decide (ws ≠ 1).

(** ["a"]'s coroutine after ["a"] has sent [update_user] with
    [userId = "x"]. *)
Definition st_rebound : St :=
  (handle_event all_ok 1 "b1" (with_userId "x" (with_type "update_user" blank))
     rnd0 st_ab).2.

(** Python's [==] on JSON scalars, as a relation: the same value, or a
    boolean and the integer 0 or 1 it equals. *)
Definition same_scalar (v w : value) : Prop :=
  v = w ∨
  ∃ x : bool, (v = VBool x ∧ w = VNum (if x then 1 else 0)%Z) ∨
              (v = VNum (if x then 1 else 0)%Z ∧ w = VBool x).

(** The object's [id] field equals [oid]; an object without the field
    reads as [None]. *)
Definition has_id (oid : value) (o : obj) : Prop := same_scalar (dict_get o "id") oid.

(** Board ["b1"] of [st_ab] once ["a"] has added the objects ["o1"] and
    ["o2"], and the [modify_object] event that recolors ["o2"]. *)
Definition st_drawn : St :=
  (handle_event all_ok 1 "b1"
     (with_object {["id" := VStr "o2"]} (with_type "add_object" blank)) rnd0
     (handle_event all_ok 1 "b1"
        (with_object {["id" := VStr "o1"]} (with_type "add_object" blank)) rnd0
        st_ab).2).2.

Definition recolor_o2 : Data :=
  with_object (<["color" := VStr "red"]> {["id" := VStr "o2"]})
    (with_type "modify_object" blank).

(** The connection map of board [b] gains no key. *)
Definition members_shrink (b : string) : relation ConnectionManager :=
  λ m m', ∀ u, u ∈ od_keys (conns_of m' b) → u ∈ od_keys (conns_of m b).



(** ** Notions used by the further properties *)

(** A computation relates the registry it starts from, when that one
    satisfies the invariant, to the registry it leaves. *)
Definition steps (Rm : relation ConnectionManager) {A} (c : M A) : Prop :=
  ∀ s, Inv (manager s) → Rm (manager s) (manager (c s).2).

(** The roster of every board lists exactly the ids that have an
    identity record on that board. *)
Definition roster_registered (m : ConnectionManager) : Prop :=
  ∀ b u, u ∈ ue_id <$> roster_of m b ↔ is_Some (od_get u (infos_of m b)).

(** Once gone from board [b], [uid] is still gone. *)
Definition stays_absent (b uid : string) : relation ConnectionManager :=
  λ m m', absent_from b uid m → absent_from b uid m'.

(** [roster_registered] is carried over. *)
Definition carries_roster_registered : relation ConnectionManager :=
  λ m m', roster_registered m → roster_registered m'.

(** The handshake of lines 160-192 on a well-formed registry: the
    coroutine's state once [register_user] has returned and the locals
    are assigned, the [init] envelope and the [user_joined] envelope. *)
Definition after_register (ws : WebSocket) (b : string) (data : Data) (rnd : Entropy)
    (s : St) : St :=
  let '(uid, uname, color, sid) := identity b data rnd (manager s) in
  st_user_name uname
    (st_user_id (Some uid) (st_manager (enrol ws b data rnd (manager s)) s)).

Definition init_message (ws : WebSocket) (b : string) (data : Data) (rnd : Entropy)
    (m : ConnectionManager) : message :=
  let '(uid, uname, color, sid) := identity b data rnd m in
  let m' := enrol ws b data rnd m in
  Init uid uname color sid
    (default empty_board (board_data m' !! b))
    (default [] (users <$> board_data m' !! b)).

Definition joined_message (b : string) (data : Data) (rnd : Entropy)
    (m : ConnectionManager) : message :=
  let '(uid, uname, color, sid) := identity b data rnd m in
  UserJoined uid uname color (now_c rnd).

(** No frame of [inbound] is an [update_user] envelope. *)
Definition no_update_user (inbound : list frame) : Prop :=
  Forall (λ f, match f with
               | Json data _ => d_type data ≠ Some "update_user"
               | Garbage => True
               end) inbound.

(** The [remove_object] branch (lines 272-277): the id it resolves and
    the registry after its write. *)
Definition removal_id (data : Data) : value :=
  py_or (d_object_id data) (dict_get (default ∅ (d_object data)) "id").

Definition erase_object (b : string) (obj_id : value) (m : ConnectionManager)
    : ConnectionManager :=
  match board_data m !! b with
  | Some bd =>
      if truthy obj_id then
        with_board_data <[b := set_objects
          (filter (λ o, py_eq (dict_get o "id") obj_id = false) (objects bd)) bd]> m
      else m
  | None => m
  end.

(** The [clear_board] branch (lines 285-293). *)
Definition wipe_objects (b : string) (m : ConnectionManager) : ConnectionManager :=
  match board_data m !! b with
  | Some bd => with_board_data <[b := set_objects [] bd]> m
  | None => m
  end.

Definition clear_message (data : Data) (s : St) : message :=
  ClearBoard (default (opt_str_value (var_user_id s)) (d_user_id data))
             (default (opt_str_value (var_user_name s)) (d_user_name data))
             (default VNone (d_boardId data)).

(** The types the loop dispatches on. *)
Definition known_types : list string :=
  ["add_object"; "update_user"; "modify_object"; "remove_object";
   "clear_board"; "cursor_move"; "ping"].

(** The [update_user] branch (lines 224-233): the registry after its two
    writes. *)
Definition rename_user (b : string) (uid n : option string) (m : ConnectionManager)
    : ConnectionManager :=
  let m1 :=
    match uid, user_info m !! b with
    | Some u, Some ui =>
        match od_get u ui with
        | Some info => with_user_info <[b := od_set u (set_name n info) ui]> m
        | None => m
        end
    | _, _ => m
    end in
  match board_data m1 !! b with
  | Some bd =>
      with_board_data <[b := set_users (rename_first uid n (users bd)) bd]> m1
  | None => m1
  end.

(** The [cursor_move] branch (lines 296-307): the registry after its
    write and the envelope it broadcasts. *)
Definition place_cursor (b : string) (uid : option string) (p : value)
    (m : ConnectionManager) : ConnectionManager :=
  match uid, user_info m !! b with
  | Some u, Some ui =>
      match od_get u ui with
      | Some info => with_user_info <[b := od_set u (set_cursor p info) ui]> m
      | None => m
      end
  | _, _ => m
  end.

Definition cursor_message (b : string) (p : value) (s : St) : message :=
  let info := find_info (manager s) b (var_user_id s) in
  CursorMoved (var_user_id s)
    (from_option ui_name (Some "User") info)
    (from_option ui_color "#999999" info) p.

(** Every board has the background it was created with, and every
    identity record is filed under its own id and carries a palette
    color. *)
Definition records_sound (m : ConnectionManager) : Prop :=
  ∀ b,
    (∀ bd, board_data m !! b = Some bd → background bd = "#FFFFFF") ∧
    (∀ u i, od_get u (infos_of m b) = Some i → ui_id i = u ∧ ui_color i ∈ colors).

Definition carries_records_sound : relation ConnectionManager :=
  λ m m', records_sound m → records_sound m'.

(** [ConnectionManager.add_object] called once per element of [os], in
    order, and the object each call stores (lines 136-137). *)
Definition add_objects (b : string) (os : list (obj * Entropy)) (s : St) : St :=
  foldl (λ s p, (add_object b p.1 p.2 s).2) s os.

Definition minted (p : obj * Entropy) : obj :=
  <["timestamp" := VStr (now p.2)]> (<["id" := VStr (uuid_a p.2)]> p.1).

(** * Properties *)

Section odict_facts.
Context {V : Type}.
Implicit Types (d : odict V) (k : string) (v : V).

Lemma od_get_set k k' v d :
  od_get k (od_set k' v d) = if decide (k = k') then Some v else od_get k d.
Proof.
  induction d as [|[k0 v0] d IH]; simpl.
  - repeat case_decide; congruence.
  - repeat (case_decide; simpl); subst; try congruence.
Qed.

Lemma od_get_del k k' d :
  od_get k (od_del k' d) = if decide (k = k') then None else od_get k d.
Proof.
  induction d as [|[k0 v0] d IH]; simpl.
  - by case_decide.
  - repeat (case_decide; simpl); subst; try congruence.
Qed.

Lemma od_get_None k d : od_get k d = None ↔ k ∉ od_keys d.
Proof.
  unfold od_keys. induction d as [|[k0 v0] d IH]; simpl.
  - split; [intros _; apply not_elem_of_nil | done].
  - rewrite not_elem_of_cons. case_decide as Hk.
    + split; [done | intros [? _]; done].
    + rewrite IH. tauto.
Qed.

Lemma od_get_is_Some k d : is_Some (od_get k d) ↔ k ∈ od_keys d.
Proof.
  rewrite <- not_eq_None_Some, od_get_None.
  destruct (decide (k ∈ od_keys d)); naive_solver.
Qed.

Lemma od_keys_set k v d :
  od_keys (od_set k v d) =
  match od_get k d with Some _ => od_keys d | None => od_keys d ++ [k] end.
Proof.
  unfold od_keys. induction d as [|[k0 v0] d IH]; [done|].
  cbn [od_set od_get]. case_decide; [by subst|].
  rewrite !fmap_cons, IH. by destruct (od_get k d).
Qed.

Lemma od_keys_del k d : od_keys (od_del k d) = filter (λ k', k' ≠ k) (od_keys d).
Proof.
  unfold od_keys. induction d as [|[k0 v0] d IH]; [done|].
  cbn [od_del]. rewrite fmap_cons. cbn [fst].
  destruct (decide (k = k0)) as [->|Hne].
  - rewrite filter_cons_False; [done | naive_solver].
  - rewrite filter_cons_True, fmap_cons; [by rewrite IH | naive_solver].
Qed.

End odict_facts.

(** ** Well-formed registries *)

Ltac mstep :=
  unfold mbind, mret, M_bind, M_ret, modify_manager, get_manager, set_manager,
    get_user_id, set_user_id, get_user_name, set_user_name,
    subscript, raise, st_manager, st_user_id, st_user_name,
    with_active, with_board_data, with_user_info;
  cbn [manager wire var_user_id var_user_name active_connections board_data
       user_info fst snd].

Ltac use_lookups :=
  repeat match goal with
    | H : ?m !! ?k = _ |- context [?m !! ?k] => rewrite H
    end.

Ltac mrun := repeat (progress (mstep; use_lookups; rewrite ?lookup_insert_eq)).

Lemma st_manager_id s : st_manager (manager s) s = s.
Proof. by destruct s. Qed.

Lemma disconnect_run b uid s :
  registry_wf (manager s) →
  disconnect b uid s =
  (Ok (leaver_name b uid (manager s)), st_manager (drop_user b uid (manager s)) s).
Proof.
  intros Hwf. specialize (Hwf b). destruct s as [[ac bdm uim] w lu ln].
  cbn [manager active_connections board_data user_info] in Hwf.
  unfold disconnect, leaver_name, drop_user. mstep. unfold slot_wf in Hwf.
  destruct (ac !! b) as [conns|] eqn:Hac; [|done].
  destruct (bdm !! b) as [bd|] eqn:Hbd; [|done].
  destruct (uim !! b) as [ui|] eqn:Hui; [|done].
  destruct Hwf as (Hne & Hkeys & _).
  destruct (od_get uid ui) as [info|] eqn:Hinfo.
  - assert (is_Some (od_get uid conns)) as Hc.
    { apply od_get_is_Some. rewrite Hkeys. apply od_get_is_Some. eauto. }
    rewrite bool_decide_eq_true_2 by done. mstep.
    rewrite Hui, Hinfo. mstep. rewrite Hbd. mstep.
    rewrite lookup_insert_eq. mstep.
    destruct (od_del uid conns) eqn:Hdel; mstep.
    + rewrite lookup_insert_eq. mstep. rewrite lookup_insert_eq. mstep.
      by rewrite !delete_insert_eq.
    + done.
  - assert (od_get uid conns = None) as Hc.
    { apply od_get_None. rewrite Hkeys. by apply od_get_None. }
    rewrite bool_decide_eq_false_2 by (rewrite Hc; by intros [? ?]).
    mstep. by rewrite Hui, Hinfo.
Qed.

Lemma registry_wf_local b m m' :
  registry_wf m → same_off b m m' →
  slot_wf (active_connections m' !! b) (board_data m' !! b) (user_info m' !! b) →
  registry_wf m'.
Proof.
  intros Hwf Hoff Hb b'. destruct (decide (b' = b)) as [->|Hne]; [done|].
  destruct (Hoff b' Hne) as (-> & -> & ->). apply Hwf.
Qed.

Lemma roster_unique_local b m m' :
  roster_unique m → same_off b m m' →
  (∀ bd, board_data m' !! b = Some bd → NoDup (ue_id <$> users bd)) →
  roster_unique m'.
Proof.
  intros Hu Hoff Hb b' bd Hbd. destruct (decide (b' = b)) as [->|Hne]; [eauto|].
  destruct (Hoff b' Hne) as (_ & Heq & _). rewrite Heq in Hbd. eauto.
Qed.

Lemma drop_user_same_off b uid m : same_off b m (drop_user b uid m).
Proof.
  intros b' Hne. unfold drop_user.
  repeat case_match; cbn [active_connections board_data user_info];
    rewrite ?lookup_delete_ne, ?lookup_insert_ne by done; done.
Qed.

Lemma od_del_keys_congr {A B} k (d1 : odict A) (d2 : odict B) :
  od_keys d1 = od_keys d2 → od_keys (od_del k d1) = od_keys (od_del k d2).
Proof. intros H. by rewrite !od_keys_del, H. Qed.

Lemma od_get_keys_congr {A B} k (d1 : odict A) (d2 : odict B) :
  od_keys d1 = od_keys d2 → is_Some (od_get k d1) ↔ is_Some (od_get k d2).
Proof. intros H. by rewrite !od_get_is_Some, H. Qed.

Lemma od_set_keys_congr {A B} k v1 v2 (d1 : odict A) (d2 : odict B) :
  od_keys d1 = od_keys d2 → od_keys (od_set k v1 d1) = od_keys (od_set k v2 d2).
Proof.
  intros H. rewrite !od_keys_set. pose proof (od_get_keys_congr k d1 d2 H) as Hi.
  destruct (od_get k d1), (od_get k d2); try done; rewrite ?H; try done.
  - destruct Hi as [Hi _]. destruct Hi; eauto. done.
  - destruct Hi as [_ Hi]. destruct Hi; eauto. done.
Qed.

Lemma od_set_keys_present {A} k v v0 (d : odict A) :
  od_get k d = Some v0 → od_keys (od_set k v d) = od_keys d.
Proof. intros H. by rewrite od_keys_set, H. Qed.

Lemma od_set_NoDup {A} k v (d : odict A) :
  NoDup (od_keys d) → NoDup (od_keys (od_set k v d)).
Proof.
  intros Hnd. rewrite od_keys_set. destruct (od_get k d) eqn:Hg; [done|].
  apply NoDup_app. split_and!; [done | | apply NoDup_singleton].
  intros x Hx Hx'. apply list_elem_of_singleton in Hx'. subst x.
  by apply od_get_None in Hg.
Qed.

Lemma od_set_nonempty {A} k v (d : odict A) : od_set k v d ≠ [].
Proof. destruct d as [|[??] ?]; simpl; [done|]. by case_decide. Qed.

Lemma drop_user_wf b uid m : registry_wf m → registry_wf (drop_user b uid m).
Proof.
  intros Hwf. apply (registry_wf_local b m); [done | apply drop_user_same_off |].
  specialize (Hwf b). unfold drop_user, slot_wf in *.
  destruct (active_connections m !! b) as [conns|] eqn:Hac;
    destruct (board_data m !! b) as [bd|] eqn:Hbd;
    destruct (user_info m !! b) as [ui|] eqn:Hui; try done.
  - destruct (od_get uid ui); [|by rewrite Hac, Hbd, Hui].
    destruct Hwf as (Hne & Hk & Hnd).
    destruct (od_del uid conns) as [|c0 cs] eqn:Hdel;
      cbn [active_connections board_data user_info].
    + by rewrite !lookup_delete_eq.
    + rewrite !lookup_insert_eq. rewrite <- Hdel. split_and!; [by rewrite Hdel | |].
      * by apply od_del_keys_congr.
      * rewrite od_keys_del. by apply NoDup_filter.
  - by rewrite Hac.
Qed.

Lemma NoDup_ids_filter (P : UserEntry → Prop) `{!∀ u, Decision (P u)} us :
  NoDup (ue_id <$> us) → NoDup (ue_id <$> filter P us).
Proof.
  intros Hnd. eapply sublist_NoDup; [exact Hnd|].
  apply fmap_sublist, sublist_filter.
Qed.

Lemma drop_user_roster_unique b uid m :
  roster_unique m → roster_unique (drop_user b uid m).
Proof.
  intros Hu. apply (roster_unique_local b m); [done | apply drop_user_same_off |].
  intros bd'. unfold drop_user.
  destruct (active_connections m !! b) as [conns|] eqn:Hac; [|by eauto].
  destruct (user_info m !! b) as [ui|] eqn:Hui; [|by eauto].
  destruct (board_data m !! b) as [bd|] eqn:Hbd; [|by rewrite Hbd].
  destruct (od_get uid ui); [|by eauto].
  destruct (od_del uid conns); cbn [board_data].
  - by rewrite lookup_delete_eq.
  - rewrite lookup_insert_eq. intros [= <-]. cbn [users set_users].
    apply NoDup_ids_filter. eauto.
Qed.

Lemma drop_user_Inv b uid m : Inv m → Inv (drop_user b uid m).
Proof. intros [??]. split; [by apply drop_user_wf | by apply drop_user_roster_unique]. Qed.

Lemma register_user_run ws b data rnd s :
  registry_wf (manager s) →
  register_user ws b data rnd s =
  (Ok (identity b data rnd (manager s)), st_manager (enrol ws b data rnd (manager s)) s).
Proof.
  intros Hwf. specialize (Hwf b). destruct s as [[ac bdm uim] w lu ln].
  cbn [manager active_connections board_data user_info] in Hwf.
  unfold register_user, enrol, identity, ensure_board, conns_of, infos_of.
  destruct (resolve_identity data rnd) as [[uid uname] sid]. mstep.
  unfold slot_wf in Hwf.
  destruct (ac !! b) as [conns|] eqn:Hac.
  - destruct (bdm !! b) as [bd|] eqn:Hbd; [|done].
    destruct (uim !! b) as [ui|] eqn:Hui; [|done].
    rewrite bool_decide_eq_true_2 by eauto. mrun.
    cbn [default from_option id].
    destruct (existing_user uid (users bd)); mrun; done.
  - destruct (bdm !! b) as [bd|] eqn:Hbd; [done|].
    destruct (uim !! b) as [ui|] eqn:Hui; [done|].
    rewrite bool_decide_eq_false_2 by (by intros [? ?]). mrun.
    cbn [default from_option id users empty_board existing_user filter list_filter head].
    mrun. by rewrite !insert_insert_eq.
Qed.

Lemma existing_user_None uid us :
  existing_user uid us = None ↔ uid ∉ ue_id <$> us.
Proof.
  unfold existing_user. rewrite head_None. induction us as [|u us IH].
  - split; [intros _; apply not_elem_of_nil | done].
  - rewrite fmap_cons, not_elem_of_cons.
    destruct (decide (ue_id u = uid)) as [Heq|Hne].
    + rewrite filter_cons_True by done. split; [done | intros [? _]; done].
    + rewrite filter_cons_False by done. rewrite IH. split; [by split | tauto].
Qed.

Lemma ensure_board_same_off b m : same_off b m (ensure_board b m).
Proof.
  intros b' Hne. unfold ensure_board.
  destruct (active_connections m !! b); [done|].
  cbn [active_connections board_data user_info].
  by rewrite !lookup_insert_ne.
Qed.

Lemma enrol_same_off ws b data rnd m : same_off b m (enrol ws b data rnd m).
Proof.
  intros b' Hne. destruct (ensure_board_same_off b m b' Hne) as (H1 & H2 & H3).
  unfold enrol, identity. destruct (resolve_identity data rnd) as [[uid uname] sid].
  cbn [active_connections board_data user_info].
  rewrite !lookup_insert_ne by done. split_and!; try done.
  destruct (existing_user _ _); [done|]. by rewrite lookup_insert_ne.
Qed.

Lemma enrol_wf ws b data rnd m : registry_wf m → registry_wf (enrol ws b data rnd m).
Proof.
  intros Hwf. apply (registry_wf_local b m); [done | apply enrol_same_off |].
  specialize (Hwf b). unfold enrol, identity, ensure_board, conns_of, infos_of, slot_wf in *.
  destruct (resolve_identity data rnd) as [[uid uname] sid].
  destruct (active_connections m !! b) as [conns|] eqn:Hac;
    destruct (board_data m !! b) as [bd|] eqn:Hbd;
    destruct (user_info m !! b) as [ui|] eqn:Hui; try done;
    cbn [active_connections board_data user_info];
    rewrite ?Hac, ?Hbd, ?Hui, ?lookup_insert_eq; cbn [default from_option id].
  - destruct Hwf as (_ & Hk & Hnd).
    destruct (existing_user uid (users bd)); rewrite ?lookup_insert_eq, ?Hbd;
      (split_and!;
       [apply od_set_nonempty | by apply od_set_keys_congr | by apply od_set_NoDup]).
  - change (existing_user uid (users empty_board)) with (@None UserEntry).
    cbv iota. rewrite lookup_insert_eq. split_and!; [done | done |].
    apply NoDup_singleton.
Qed.

Lemma enrol_roster_unique ws b data rnd m :
  roster_unique m → roster_unique (enrol ws b data rnd m).
Proof.
  intros Hu. apply (roster_unique_local b m); [done | apply enrol_same_off |].
  intros bd'. unfold enrol, identity, ensure_board.
  destruct (resolve_identity data rnd) as [[uid uname] sid].
  destruct (active_connections m !! b) as [conns|] eqn:Hac;
    cbn [active_connections board_data user_info].
  - destruct (board_data m !! b) as [bd|] eqn:Hbd; cbn [default from_option id].
    + destruct (existing_user uid (users bd)) eqn:Hex; [rewrite Hbd; intros [= <-]; eauto|].
      rewrite lookup_insert_eq. intros [= <-]. cbn [users set_users].
      rewrite fmap_app. apply NoDup_app. split_and!; [by eauto | | apply NoDup_singleton].
      intros x Hx Hx'. apply list_elem_of_singleton in Hx'. subst x.
      by apply existing_user_None in Hex.
    + cbn. rewrite lookup_insert_eq. intros [= <-]. cbn. apply NoDup_singleton.
  - rewrite lookup_insert_eq. cbn. rewrite lookup_insert_eq. intros [= <-]. cbn.
    apply NoDup_singleton.
Qed.

Lemma enrol_Inv ws b data rnd m : Inv m → Inv (enrol ws b data rnd m).
Proof. intros [??]. split; [by apply enrol_wf | by apply enrol_roster_unique]. Qed.

(** *** Broadcast *)

Lemma st_emit_nil s : st_emit [] s = s.
Proof. destruct s. unfold st_emit. cbn. by rewrite app_nil_r. Qed.

Lemma st_emit_emit os os' s : st_emit os' (st_emit os s) = st_emit (os ++ os') s.
Proof. unfold st_emit. cbn. by rewrite app_assoc. Qed.

Section broadcast_facts.
Variable send_ok : WebSocket → message → bool.

Lemma broadcast_pass_run items msg acc s :
  broadcast_pass send_ok items msg acc s =
  (Ok (acc ++ failed send_ok msg items), st_emit (delivered send_ok msg items) s).
Proof.
  revert acc s. induction items as [|[uid ws] items IH]; intros acc s.
  - cbn. by rewrite app_nil_r, st_emit_nil.
  - cbn [broadcast_pass]. unfold mbind, M_bind, try_except, send_json.
    unfold delivered, failed.
    destruct (send_ok ws msg) eqn:Hok.
    + rewrite (filter_cons_True (λ kv : string * WebSocket, send_ok kv.2 msg = true))
        by done.
      rewrite (filter_cons_False (λ kv : string * WebSocket, send_ok kv.2 msg = false))
        by (cbn; congruence).
      unfold emit, mret, M_ret. rewrite IH, fmap_cons, st_emit_emit. done.
    + rewrite (filter_cons_False (λ kv : string * WebSocket, send_ok kv.2 msg = true))
        by (cbn; congruence).
      rewrite (filter_cons_True (λ kv : string * WebSocket, send_ok kv.2 msg = false))
        by done.
      unfold raise, mret, M_ret. rewrite IH, fmap_cons, <- app_assoc. done.
Qed.

Lemma prune_Inv b uids m : Inv m → Inv (prune b uids m).
Proof.
  revert m. induction uids as [|u uids IH]; intros m Hwf; [done|].
  cbn. apply IH. by apply drop_user_Inv.
Qed.

Lemma disconnect_all_run b uids s :
  registry_wf (manager s) →
  disconnect_all b uids s = (Ok (), st_manager (prune b uids (manager s)) s).
Proof.
  revert s. induction uids as [|u uids IH]; intros s Hwf.
  - cbn. by rewrite st_manager_id.
  - cbn [disconnect_all]. unfold mbind, M_bind. rewrite disconnect_run by done.
    rewrite IH by (by apply drop_user_wf). by destruct s.
Qed.

Lemma broadcast_run b msg exclude s :
  registry_wf (manager s) →
  broadcast send_ok b msg exclude s =
  (Ok (),
   st_manager (prune b (failed send_ok msg (conns_of (manager s) b)) (manager s))
     (st_emit (delivered send_ok msg (conns_of (manager s) b)) s)).
Proof.
  intros Hwf. unfold broadcast, conns_of, mbind, M_bind, get_manager, mret, M_ret.
  destruct (active_connections (manager s) !! b) as [conns|] eqn:Hac.
  - rewrite broadcast_pass_run. rewrite disconnect_all_run by done. done.
  - change (failed send_ok msg []) with (@nil string).
    change (delivered send_ok msg []) with (@nil output).
    change (prune b [] (manager s)) with (manager s).
    by rewrite st_emit_nil, st_manager_id.
Qed.

End broadcast_facts.

(** *** Invariance under the handler's own writes *)

Lemma with_board_data_same_off b bd m :
  same_off b m (with_board_data <[b := bd]> m).
Proof.
  intros b' Hne. unfold with_board_data. cbn [active_connections board_data user_info].
  by rewrite lookup_insert_ne.
Qed.

Lemma with_user_info_same_off b ui m :
  same_off b m (with_user_info <[b := ui]> m).
Proof.
  intros b' Hne. unfold with_user_info. cbn [active_connections board_data user_info].
  by rewrite lookup_insert_ne.
Qed.

Lemma rename_first_ids uid n us : ue_id <$> rename_first uid n us = ue_id <$> us.
Proof.
  induction us as [|u us IH]; [done|]. cbn [rename_first].
  case_bool_decide; rewrite !fmap_cons; [done | by rewrite IH].
Qed.

Lemma Inv_set_board b bd bd' m :
  board_data m !! b = Some bd →
  ue_id <$> users bd' = ue_id <$> users bd →
  Inv m → Inv (with_board_data <[b := bd']> m).
Proof.
  intros Hbd Hids [Hwf Hu]. split.
  - apply (registry_wf_local b m); [done | apply with_board_data_same_off |].
    specialize (Hwf b). unfold with_board_data, slot_wf in *.
    cbn [active_connections board_data user_info]. rewrite lookup_insert_eq.
    by rewrite Hbd in Hwf.
  - apply (roster_unique_local b m); [done | apply with_board_data_same_off |].
    unfold with_board_data. cbn [board_data]. rewrite lookup_insert_eq.
    intros ? [= <-]. rewrite Hids. eauto.
Qed.

Lemma Inv_set_info b ui u info info' m :
  user_info m !! b = Some ui → od_get u ui = Some info →
  Inv m → Inv (with_user_info <[b := od_set u info' ui]> m).
Proof.
  intros Hui Hget [Hwf Hu]. split.
  - apply (registry_wf_local b m); [done | apply with_user_info_same_off |].
    specialize (Hwf b). unfold with_user_info, slot_wf in *.
    cbn [active_connections board_data user_info]. rewrite lookup_insert_eq.
    rewrite Hui in Hwf. destruct (active_connections m !! b); [|done].
    destruct (board_data m !! b); [|done]. destruct Hwf as (? & -> & ?).
    split_and!; [done | | done]. symmetry. by eapply od_set_keys_present.
  - apply (roster_unique_local b m); [done | apply with_user_info_same_off |].
    unfold with_user_info. cbn [board_data]. eauto.
Qed.

Ltac fold_writes :=
  match goal with
  | |- Inv {| active_connections := active_connections ?m;
              board_data := <[?b := ?x]> (board_data ?m);
              user_info := user_info ?m |} =>
      change (Inv (with_board_data <[b := x]> m))
  | |- Inv {| active_connections := active_connections ?m;
              board_data := board_data ?m;
              user_info := <[?b := ?y]> (user_info ?m) |} =>
      change (Inv (with_user_info <[b := y]> m))
  | |- Inv {| active_connections := active_connections ?m;
              board_data := <[?b := ?x]> (board_data ?m);
              user_info := <[?b := ?y]> (user_info ?m) |} =>
      change (Inv (with_board_data <[b := x]> (with_user_info <[b := y]> m)))
  end.

Ltac solve_Inv :=
  cbn [manager]; try done;
  first
    [ solve [eauto using Inv_set_board, Inv_set_info, rename_first_ids]
    | fold_writes;
      match goal with Hb : board_data _ !! _ = Some ?bd |- _ =>
        apply (Inv_set_board _ bd);
          [exact Hb | apply rename_first_ids | eauto using Inv_set_info]
      end ].

Ltac dispatch :=
  repeat first
    [ rewrite bool_decide_eq_true_2 by done
    | rewrite bool_decide_eq_false_2 by done ].

Section handler_facts.
Variable send_ok : WebSocket → message → bool.

Lemma broadcast_Inv b msg exclude s :
  Inv (manager s) → Inv (manager (broadcast send_ok b msg exclude s).2).
Proof.
  intros HI. rewrite broadcast_run by apply HI. cbn [snd manager st_manager].
  by apply prune_Inv.
Qed.

Lemma handle_event_Inv ws b data rnd s :
  Inv (manager s) → Inv (manager (handle_event send_ok ws b data rnd s).2).
Proof.
  intros HI. unfold handle_event, require, send_to_user, send_json, emit.
  destruct (d_type data) as [ty|]; [|done]. mrun.
  repeat case_bool_decide;
    repeat (mrun; try case_match; simplify_eq); try done;
    try (apply broadcast_Inv; cbn [manager]); try done;
    solve_Inv.
Qed.

End handler_facts.

(** *** Invariance, compositionally *)

Lemma preserves_ret {A} (a : A) : preserves (mret a).
Proof. by intros s. Qed.

Lemma preserves_raise {A} e : preserves (@raise A e).
Proof. by intros s. Qed.

Lemma preserves_bind {A B} (c : M A) (f : A → M B) :
  preserves c → (∀ a, preserves (f a)) → preserves (c ≫= f).
Proof.
  intros Hc Hf s HI. unfold mbind, M_bind. specialize (Hc s HI).
  destruct (c s) as [[a|e] s']; [by apply Hf | done].
Qed.

Lemma preserves_try_except {A} (c : M A) h :
  preserves c → (∀ e, preserves (h e)) → preserves (try_except c h).
Proof.
  intros Hc Hh s HI. unfold try_except. specialize (Hc s HI).
  destruct (c s) as [[a|e] s']; [done | by apply Hh].
Qed.

Lemma preserves_try_finally {A} (c : M A) f :
  preserves c → preserves f → preserves (try_finally c f).
Proof.
  intros Hc Hf s HI. unfold try_finally. specialize (Hc s HI).
  destruct (c s) as [r s']. specialize (Hf s' Hc).
  by destruct (f s') as [[?|?] s''].
Qed.

Lemma preserves_frame {A} (c : M A) :
  (∀ s, manager (c s).2 = manager s) → preserves c.
Proof. intros H s HI. by rewrite H. Qed.

Lemma preserves_register_user ws b data rnd : preserves (register_user ws b data rnd).
Proof.
  intros s HI. rewrite register_user_run by apply HI. by apply enrol_Inv.
Qed.

Lemma preserves_disconnect b uid : preserves (disconnect b uid).
Proof.
  intros s HI. rewrite disconnect_run by apply HI. by apply drop_user_Inv.
Qed.

Section endpoint_facts.
Variable send_ok : WebSocket → message → bool.

Lemma preserves_broadcast b msg exclude : preserves (broadcast send_ok b msg exclude).
Proof. intros s. apply broadcast_Inv. Qed.

Lemma preserves_handle_event ws b data rnd :
  preserves (handle_event send_ok ws b data rnd).
Proof. intros s. apply handle_event_Inv. Qed.

Lemma preserves_send_json ws msg : preserves (send_json send_ok ws msg).
Proof. apply preserves_frame. intros s. unfold send_json. by destruct (send_ok ws msg). Qed.

Lemma preserves_event_loop ws b inbound : preserves (event_loop send_ok ws b inbound).
Proof.
  induction inbound as [|[data rnd|] rest IH]; cbn [event_loop];
    try apply preserves_raise.
  apply preserves_bind; [apply preserves_handle_event | done].
Qed.

Lemma preserves_teardown b : preserves (teardown send_ok b).
Proof.
  unfold teardown. apply preserves_bind; [by apply preserves_frame|]. intros u.
  destruct (str_truthy u); [|apply preserves_ret].
  apply preserves_bind; [apply preserves_disconnect|]. intros n.
  apply preserves_bind; [by apply preserves_frame|]. intros un.
  apply preserves_broadcast.
Qed.

Lemma preserves_session ws b inbound : preserves (session send_ok ws b inbound).
Proof.
  unfold session, except_disconnect.
  apply preserves_try_finally; [|apply preserves_teardown].
  apply preserves_try_except; [apply preserves_event_loop|].
  intros []; (apply preserves_raise || apply preserves_ret).
Qed.

Lemma preserves_join ws b data rnd : preserves (join send_ok ws b data rnd).
Proof.
  unfold join. apply preserves_bind; [apply preserves_register_user|].
  intros [[[uid uname] color] sid].
  apply preserves_bind; [by apply preserves_frame|]. intros _.
  apply preserves_bind; [by apply preserves_frame|]. intros _.
  apply preserves_bind; [by apply preserves_frame|]. intros m.
  apply preserves_bind; [apply preserves_send_json|]. intros _.
  apply preserves_broadcast.
Qed.

Lemma preserves_websocket_endpoint ws b inbound :
  preserves (websocket_endpoint send_ok ws b inbound).
Proof.
  unfold websocket_endpoint.
  apply preserves_bind; [by apply preserves_frame|]. intros _.
  apply preserves_bind; [by apply preserves_frame|]. intros _.
  apply preserves_try_except; [|intros e; by apply preserves_frame].
  destruct inbound as [|[data rnd|] rest]; try apply preserves_raise.
  apply preserves_bind.
  { unfold require. destruct (d_type data); [apply preserves_ret | apply preserves_raise]. }
  intros ty. case_bool_decide; [|apply preserves_ret].
  apply preserves_bind; [apply preserves_join|]. intros _.
  apply preserves_session.
Qed.
End endpoint_facts.

Lemma new_manager_Inv : Inv new_manager.
Proof.
  split.
  - intros b. unfold new_manager, slot_wf. cbn. by rewrite !lookup_empty.
  - intros b bd. unfold new_manager. cbn. by rewrite lookup_empty.
Qed.

Lemma reachable_Inv s : reachable s → Inv (manager s).
Proof.
  induction 1 as [| | | | | | | |]; cbn [manager st_user_id st_user_name].
  - apply new_manager_Inv.
  - done.
  - by apply preserves_websocket_endpoint.
  - by apply preserves_join.
  - by apply preserves_handle_event.
  - by apply preserves_teardown.
  - by apply preserves_register_user.
  - by apply preserves_disconnect.
  - by apply preserves_broadcast.
Qed.

(** *** The event handler, case by case *)

Section event_cases.
Variable send_ok : WebSocket → message → bool.

Lemma handle_event_missing ws b data rnd s k :
  missing_required data = Some k →
  handle_event send_ok ws b data rnd s = (Raise (KeyError k), s).
Proof.
  unfold missing_required, handle_event, require.
  destruct (d_type data) as [ty|]; [|by intros [= <-]]. mrun.
  destruct (bool_decide (ty = "add_object")) eqn:H1; cbn [orb].
  { destruct (d_object data); [done | by intros [= <-]]. }
  destruct (bool_decide (ty = "modify_object")) eqn:H2; cbn [orb].
  { apply bool_decide_eq_true in H2. subst ty. dispatch.
    destruct (d_object data); [done | by intros [= <-]]. }
  destruct (bool_decide (ty = "cursor_move")) eqn:H3; [|done].
  apply bool_decide_eq_true in H3. subst ty. dispatch.
  destruct (d_position data); [done | intros [= <-]]. mrun.
  destruct (var_user_id s) as [u|]; [|done].
  destruct (user_info (manager s) !! b) as [ui|]; [|done].
  destruct (od_get u ui); done.
Qed.

Lemma broadcast_ok b msg exclude s :
  Inv (manager s) → ∃ s', broadcast send_ok b msg exclude s = (Ok (), s').
Proof. intros HI. rewrite broadcast_run by apply HI. eauto. Qed.

Lemma handle_event_lenient_ok ws b data rnd s :
  Inv (manager s) → reads_with_defaults data →
  event_survives send_ok ws b data rnd s.
Proof.
  intros HI Hty. unfold event_survives, handle_event, require.
  destruct Hty as [Hty|[Hty|Hty]]; rewrite Hty; mrun; dispatch;
    repeat (mrun; try case_match; simplify_eq);
    apply broadcast_ok; solve_Inv.
Qed.

Lemma teardown_run b s :
  Inv (manager s) → ∃ s', teardown send_ok b s = (Ok (), s').
Proof.
  intros HI. unfold teardown. mrun. destruct (str_truthy (var_user_id s)); [|eauto].
  rewrite disconnect_run by apply HI. mrun.
  apply broadcast_ok. cbn [manager]. by apply drop_user_Inv.
Qed.

Lemma handle_add_object ws b data rnd s o :
  d_type data = Some "add_object" → d_object data = Some o →
  handle_event send_ok ws b data rnd s =
  broadcast send_ok b (ObjectAdded (stamped o rnd)) None
    (st_manager (store_object b (stamped o rnd) (manager s)) s).
Proof.
  intros Hty Ho. unfold handle_event, require, store_object, stamped.
  rewrite Hty, Ho. mrun. dispatch.
  destruct (board_data (manager s) !! b); mrun; [done|]. by destruct s.
Qed.

Lemma handle_modify_object ws b data rnd s o bd :
  d_type data = Some "modify_object" → d_object data = Some o →
  board_data (manager s) !! b = Some bd →
  let object_id := py_or (d_object_id data) (dict_get o "id") in
  handle_event send_ok ws b data rnd s =
  broadcast send_ok b (ObjectModified (ensure_id object_id o) object_id) None
    (st_manager
       (with_board_data
          <[b := set_objects
                   (replace_first object_id (ensure_id object_id o) (objects bd)) bd]>
          (manager s)) s).
Proof.
  intros Hty Ho Hbd. unfold handle_event, require.
  rewrite Hty, Ho. mrun. dispatch. by mrun.
Qed.
End event_cases.

(** *** What pruning leaves alone *)

Lemma drop_user_objects b uid m bd' :
  board_data (drop_user b uid m) !! b = Some bd' →
  ∃ bd, board_data m !! b = Some bd ∧ objects bd' = objects bd.
Proof.
  unfold drop_user.
  destruct (active_connections m !! b) as [conns|]; [|by eauto].
  destruct (user_info m !! b) as [ui|]; [|by eauto].
  destruct (board_data m !! b) as [bd|] eqn:Hbd; [|by rewrite Hbd].
  destruct (od_get uid ui); [|rewrite Hbd; by eauto].
  destruct (od_del uid conns); cbn [board_data].
  - by rewrite lookup_delete_eq.
  - rewrite lookup_insert_eq. intros [= <-]. eauto.
Qed.

Lemma prune_objects b uids m bd' :
  board_data (prune b uids m) !! b = Some bd' →
  ∃ bd, board_data m !! b = Some bd ∧ objects bd' = objects bd.
Proof.
  revert m. induction uids as [|u uids IH]; intros m; cbn; [by eauto|].
  intros H. apply IH in H as (bd1 & H1 & Heq1).
  apply drop_user_objects in H1 as (bd & H & Heq). exists bd. split; congruence.
Qed.

Lemma failed_all_ok msg conns : failed all_ok msg conns = [].
Proof.
  unfold failed. induction conns as [|kv conns IH]; [done|].
  rewrite (filter_cons_False (λ kv : string * WebSocket, all_ok kv.2 msg = false))
    by (unfold all_ok; congruence).
  done.
Qed.

Lemma store_object_Inv b o m : Inv m → Inv (store_object b o m).
Proof.
  intros HI. unfold store_object. destruct (board_data m !! b) eqn:Hbd; [|done].
  by eapply Inv_set_board.
Qed.

(** Each [add_object] frame makes the log one longer, without bound. *)
Lemma add_object_events_grow ws b data rnd o n : ∀ s bd,
  d_type data = Some "add_object" → d_object data = Some o →
  Inv (manager s) → board_data (manager s) !! b = Some bd →
  ∃ bd', board_data (manager (event_loop all_ok ws b (replicate n (Json data rnd)) s).2) !! b
         = Some bd'
         ∧ length (objects bd') = length (objects bd) + n.
Proof.
  induction n as [|n IH]; intros s bd Hty Ho HI Hbd.
  - exists bd. cbn. split; [done | lia].
  - cbn [replicate event_loop]. unfold mbind, M_bind.
    rewrite (handle_add_object all_ok ws b data rnd s o Hty Ho).
    rewrite broadcast_run by (cbn [manager st_manager]; by apply store_object_Inv).
    rewrite failed_all_ok. cbn [prune foldl manager st_manager st_emit].
    set (s1 := st_manager _ _).
    assert (board_data (manager s1) !! b
            = Some (set_objects (objects bd ++ [stamped o rnd]) bd)) as Hbd1.
    { subst s1. cbn [manager st_manager st_emit]. unfold store_object. rewrite Hbd.
      unfold with_board_data. cbn [board_data]. by rewrite lookup_insert_eq. }
    assert (Inv (manager s1)) as HI1.
    { subst s1. cbn [manager st_manager st_emit]. by apply store_object_Inv. }
    destruct (IH s1 _ Hty Ho HI1 Hbd1) as (bd' & H & Hlen).
    exists bd'. split; [done|]. rewrite Hlen. cbn [objects set_objects].
    rewrite length_app. cbn. lia.
Qed.

(** [ConnectionManager.add_object], the method no caller uses, does
    keep the last 1000. *)
Lemma manager_add_object_caps b o rnd s bd :
  board_data (manager s) !! b = Some bd →
  ∃ bd', board_data (manager (add_object b o rnd s).2) !! b = Some bd' ∧
         objects bd' =
           drop (length (objects bd) + 1 - 1000)
             (objects bd ++ [<["timestamp" := VStr (now rnd)]>
                               (<["id" := VStr (uuid_a rnd)]> o)]) ∧
         (length (objects bd') ≤ 1000)%nat.
Proof.
  intros Hbd. unfold add_object. mrun. rewrite length_app. cbn [length].
  case_bool_decide as Hlen; mrun; eexists; (split; [done|]); cbn [objects set_objects].
  - split; [done|]. rewrite length_drop, length_app. cbn. lia.
  - replace (length (objects bd) + 1 - 1000) with 0 by lia.
    split; [done|]. rewrite length_app. cbn. lia.
Qed.

(** *** Replacement in the object log *)

Lemma replace_first_no_match oid new os :
  (∀ x, x ∈ os → py_eq (dict_get x "id") oid = false) →
  replace_first oid new os = os.
Proof.
  induction os as [|o os IH]; intros H; [done|]. cbn [replace_first].
  rewrite (H o) by left. rewrite IH; [done|]. intros x Hx. apply H. by right.
Qed.

Lemma replace_first_length oid new os :
  length (replace_first oid new os) = length os.
Proof.
  induction os as [|o os IH]; [done|]. cbn [replace_first].
  destruct (py_eq _ _); cbn; [done | by rewrite IH].
Qed.

Lemma replace_first_at oid new os i x :
  os !! i = Some x → py_eq (dict_get x "id") oid = true →
  (∀ j y, j < i → os !! j = Some y → py_eq (dict_get y "id") oid = false) →
  replace_first oid new os = <[i := new]> os.
Proof.
  revert i. induction os as [|o os IH]; intros i Hi Hx Hbefore; [done|].
  cbn [replace_first]. destruct i as [|i].
  - cbn in Hi. injection Hi as ->. by rewrite Hx.
  - rewrite (Hbefore 0 o) by first [lia | done]. cbn. f_equal.
    apply IH; [done | done |]. intros j y Hj Hy. apply (Hbefore (S j) y); [lia | done].
Qed.

(** *** Who is left after pruning *)

Lemma not_elem_of_ids_filter (uid : string) (P : UserEntry → Prop)
    `{!∀ u, Decision (P u)} (us : list UserEntry) :
  uid ∉ ue_id <$> us → uid ∉ ue_id <$> filter P us.
Proof.
  intros Hn Hin. apply Hn. apply list_elem_of_fmap in Hin as (u & -> & Hu).
  apply list_elem_of_filter in Hu as [_ Hu]. by apply list_elem_of_fmap_2.
Qed.

Lemma drop_user_absent b uid m :
  registry_wf m → is_Some (od_get uid (conns_of m b)) →
  absent_from b uid (drop_user b uid m).
Proof.
  intros Hwf Hin. specialize (Hwf b).
  unfold absent_from, drop_user, conns_of, infos_of, roster_of, slot_wf in *.
  destruct (active_connections m !! b) as [conns|] eqn:Hac;
    [|by destruct Hin].
  destruct (board_data m !! b) as [bd|] eqn:Hbd; [|done].
  destruct (user_info m !! b) as [ui|] eqn:Hui; [|done].
  destruct Hwf as (_ & Hk & _).
  destruct (od_get uid ui) eqn:Hget.
  2:{ apply (od_get_keys_congr uid) in Hk. apply Hk in Hin.
      rewrite Hget in Hin. by destruct Hin. }
  destruct (od_del uid conns) eqn:Hdel; cbn [active_connections board_data user_info].
  - rewrite !lookup_delete_eq. split_and!; [done | done | apply not_elem_of_nil].
  - rewrite !lookup_insert_eq, <- Hdel, !od_get_del.
    case_decide; [|done]. split_and!; [done | done |].
    cbn [users set_users]. intros Hx.
    apply list_elem_of_fmap in Hx as (e & -> & He).
    by apply list_elem_of_filter in He as [He _].
Qed.

Lemma drop_user_keeps_absent b uid v m :
  absent_from b uid m → absent_from b uid (drop_user b v m).
Proof.
  unfold absent_from, drop_user, conns_of, infos_of, roster_of.
  destruct (active_connections m !! b) as [conns|] eqn:Hac; [|by rewrite Hac].
  destruct (user_info m !! b) as [ui|] eqn:Hui; [|by rewrite Hac, Hui].
  destruct (board_data m !! b) as [bd|] eqn:Hbd; [|by rewrite Hac, Hui, Hbd].
  destruct (od_get v ui); [|by rewrite Hac, Hui, Hbd].
  intros (H1 & H2 & H3).
  destruct (od_del v conns) eqn:Hdel; cbn [active_connections board_data user_info].
  - rewrite !lookup_delete_eq. split_and!; [done | done | apply not_elem_of_nil].
  - rewrite !lookup_insert_eq, <- Hdel, !od_get_del.
    split_and!; [by case_decide | by case_decide |].
    cbn [users set_users]. by apply not_elem_of_ids_filter.
Qed.

Lemma prune_cons b v uids m :
  prune b (v :: uids) m = prune b uids (drop_user b v m).
Proof. reflexivity. Qed.

Lemma prune_keeps_absent b uid uids m :
  absent_from b uid m → absent_from b uid (prune b uids m).
Proof.
  revert m. induction uids as [|v uids IH]; intros m H; [done|].
  rewrite prune_cons. by apply IH, drop_user_keeps_absent.
Qed.

Lemma drop_user_keeps_present b uid v m :
  v ≠ uid → is_Some (od_get uid (conns_of m b)) →
  od_get uid (conns_of (drop_user b v m) b) = od_get uid (conns_of m b) ∧
  filter (λ u, ue_id u = uid) (roster_of (drop_user b v m) b)
  = filter (λ u, ue_id u = uid) (roster_of m b).
Proof.
  intros Hne Hin. unfold drop_user, conns_of, roster_of in *.
  destruct (active_connections m !! b) as [conns|] eqn:Hac; [|by rewrite Hac].
  destruct (user_info m !! b) as [ui|] eqn:Hui; [|by rewrite Hac].
  destruct (board_data m !! b) as [bd|] eqn:Hbd; [|by rewrite Hac, Hbd].
  destruct (od_get v ui); [|by rewrite Hac, Hbd].
  assert (od_get uid (od_del v conns) = od_get uid conns) as Hdel.
  { rewrite od_get_del. by rewrite decide_False. }
  destruct (od_del v conns) as [|c cs] eqn:Hd;
    cbn [active_connections board_data user_info].
  - rewrite <- Hdel in Hin. by destruct Hin.
  - rewrite !lookup_insert_eq. split; [done|]. cbn [users set_users].
    rewrite list_filter_filter. apply list_filter_iff. intros e.
    split; [by intros [? _] | intros He; split; [done | congruence]].
Qed.

Lemma prune_keeps_present b uid uids m :
  uid ∉ uids → is_Some (od_get uid (conns_of m b)) →
  od_get uid (conns_of (prune b uids m) b) = od_get uid (conns_of m b) ∧
  filter (λ u, ue_id u = uid) (roster_of (prune b uids m) b)
  = filter (λ u, ue_id u = uid) (roster_of m b).
Proof.
  revert m. induction uids as [|v uids IH]; intros m Hn Hin; [done|].
  apply not_elem_of_cons in Hn as [Hne Hn]. rewrite prune_cons.
  destruct (drop_user_keeps_present b uid v m) as [H1 H2]; [done | done |].
  destruct (IH (drop_user b v m)) as [H3 H4]; [done | by rewrite H1 |].
  split; [by rewrite H3 | by rewrite H4].
Qed.

Lemma prune_absent b uid uids m :
  registry_wf m → uid ∈ uids → is_Some (od_get uid (conns_of m b)) →
  absent_from b uid (prune b uids m).
Proof.
  revert m. induction uids as [|v uids IH]; intros m Hwf Hin Hp.
  - by apply elem_of_nil in Hin.
  - rewrite prune_cons. destruct (decide (v = uid)) as [->|Hne].
    + by apply prune_keeps_absent, drop_user_absent.
    + apply elem_of_cons in Hin as [?|Hin]; [congruence|].
      apply IH; [by apply drop_user_wf | done |].
      by destruct (drop_user_keeps_present b uid v m Hne Hp) as [-> _].
Qed.

Lemma elem_of_failed send_ok msg conns uid :
  uid ∈ failed send_ok msg conns ↔ ∃ ws, (uid, ws) ∈ conns ∧ send_ok ws msg = false.
Proof.
  unfold failed. rewrite list_elem_of_fmap. split.
  - intros ([u ws] & -> & H). apply list_elem_of_filter in H as [? ?]. eauto.
  - intros (ws & Hin & Hf). exists (uid, ws). split; [done|].
    by apply list_elem_of_filter.
Qed.

Lemma elem_of_delivered send_ok msg conns o :
  o ∈ delivered send_ok msg conns ↔
  ∃ uid ws, (uid, ws) ∈ conns ∧ send_ok ws msg = true ∧ o = Sent ws msg.
Proof.
  unfold delivered. rewrite list_elem_of_fmap. split.
  - intros ([u ws] & -> & H). apply list_elem_of_filter in H as [? ?]. eauto.
  - intros (uid & ws & Hin & Hf & ->). exists (uid, ws). split; [done|].
    by apply list_elem_of_filter.
Qed.

Lemma od_elem_of_keys {V} (d : odict V) k v : (k, v) ∈ d → is_Some (od_get k d).
Proof.
  intros H. apply od_get_is_Some. unfold od_keys.
  by apply (list_elem_of_fmap_2 fst) in H.
Qed.

Lemma od_get_elem_of {V} (d : odict V) k v : od_get k d = Some v → (k, v) ∈ d.
Proof.
  induction d as [|[k0 v0] d IH]; [done|]. cbn [od_get]. case_decide.
  - intros [= ->]. subst. left.
  - intros Hg. right. by apply IH.
Qed.

Lemma od_NoDup_unique {V} (d : odict V) k v v' :
  NoDup (od_keys d) → (k, v) ∈ d → od_get k d = Some v' → v = v'.
Proof.
  unfold od_keys. induction d as [|[k0 v0] d IH]; intros Hnd Hin Hget.
  - by apply elem_of_nil in Hin.
  - rewrite fmap_cons in Hnd. apply NoDup_cons in Hnd as [Hk0 Hnd].
    cbn [od_get] in Hget. apply elem_of_cons in Hin as [Heq|Hin].
    + injection Heq as -> ->. rewrite decide_True in Hget by done. congruence.
    + case_decide as Hk.
      * subst k0. exfalso. apply Hk0. by apply (list_elem_of_fmap_2 fst) in Hin.
      * by apply IH.
Qed.

(** *** First join and last leave *)

Lemma wf_absent_board b m :
  registry_wf m → board_data m !! b = None →
  active_connections m !! b = None ∧ user_info m !! b = None.
Proof.
  intros Hwf Hbd. specialize (Hwf b). unfold slot_wf in Hwf. rewrite Hbd in Hwf.
  destruct (active_connections m !! b); [done|].
  by destruct (user_info m !! b).
Qed.



(** *** Roster entries of one id *)

Lemma filter_id_absent (uid : string) (us : list UserEntry) :
  uid ∉ ue_id <$> us → filter (λ u, ue_id u = uid) us = [].
Proof.
  induction us as [|u us IH]; [done|]. rewrite fmap_cons, not_elem_of_cons.
  intros [Hne Hn]. rewrite filter_cons_False by congruence. by apply IH.
Qed.

Lemma filter_id_once (uid : string) (us : list UserEntry) :
  NoDup (ue_id <$> us) → uid ∈ ue_id <$> us →
  length (filter (λ u, ue_id u = uid) us) = 1.
Proof.
  induction us as [|u us IH]; intros Hnd Hin.
  - by apply elem_of_nil in Hin.
  - rewrite fmap_cons in Hnd, Hin. apply NoDup_cons in Hnd as [Hu Hnd].
    destruct (decide (ue_id u = uid)) as [Heq|Hne].
    + rewrite filter_cons_True by done. subst uid.
      by rewrite filter_id_absent.
    + rewrite filter_cons_False by done.
      apply elem_of_cons in Hin as [?|Hin]; [congruence | by apply IH].
Qed.

Lemma existing_user_Some_elem uid us u :
  existing_user uid us = Some u → uid ∈ ue_id <$> us.
Proof.
  intros H. destruct (decide (uid ∈ ue_id <$> us)) as [|Hn]; [done|].
  apply existing_user_None in Hn. congruence.
Qed.

Lemma enrol_roster ws b data rnd m :
  registry_wf m →
  let uid := (resolve_identity data rnd).1.1 in
  (uid ∈ ue_id <$> roster_of m b → board_data (enrol ws b data rnd m) = board_data m) ∧
  uid ∈ ue_id <$> roster_of (enrol ws b data rnd m) b.
Proof.
  intros Hwf uid. subst uid. specialize (Hwf b).
  unfold enrol, identity, ensure_board, roster_of, slot_wf in *.
  destruct (resolve_identity data rnd) as [[uid uname] sid]. cbn [fst snd].
  destruct (active_connections m !! b) as [conns|] eqn:Hac;
    destruct (board_data m !! b) as [bd|] eqn:Hbd;
    destruct (user_info m !! b) as [ui|] eqn:Hui; try done;
    cbn [active_connections board_data user_info];
    rewrite ?Hbd, ?lookup_insert_eq; cbn [default from_option id].
  - destruct (existing_user uid (users bd)) eqn:Hex.
    + rewrite Hbd. split; [done | by eapply existing_user_Some_elem].
    + rewrite lookup_insert_eq. cbn [users set_users]. split.
      * intros Hin. by apply existing_user_None in Hex.
      * rewrite fmap_app. apply elem_of_app. right. left.
  - change (existing_user uid (users empty_board)) with (@None UserEntry). cbv iota.
    rewrite lookup_insert_eq. cbn [users set_users empty_board]. split.
    + intros Hin. by apply elem_of_nil in Hin.
    + left.
Qed.

(** *** Colors *)

Lemma colors_NoDup : NoDup colors.
Proof. apply (bool_decide_unpack _). vm_compute. exact I. Qed.

Lemma filter_head_split {A} (P : A → Prop) `{!∀ x, Decision (P x)} (l : list A) c rest :
  filter P l = c :: rest →
  P c ∧ ∃ pre post, l = pre ++ (c :: post) ∧ ∀ x, x ∈ pre → ¬ P x.
Proof.
  induction l as [|a l IH]; [done|]. destruct (decide (P a)) as [Ha|Ha].
  - rewrite filter_cons_True by done. intros [= -> <-]. split; [done|].
    exists [], l. split; [done|]. intros x Hx. by apply elem_of_nil in Hx.
  - rewrite filter_cons_False by done. intros Hf.
    destruct (IH Hf) as (Hc & pre & post & -> & Hpre). split; [done|].
    exists (a :: pre), post. split; [done|]. intros x Hx.
    apply elem_of_cons in Hx as [->|Hx]; [done | by apply Hpre].
Qed.

Lemma assign_color_first_unused ui c rest :
  available_colors ui = c :: rest →
  assign_color ui = c ∧ (c ∉ used_colors ui) ∧
  ∃ pre post, colors = pre ++ (c :: post) ∧ ∀ x, x ∈ pre → x ∈ used_colors ui.
Proof.
  intros Hav. unfold assign_color. rewrite Hav. split; [done|].
  unfold available_colors in Hav.
  apply filter_head_split in Hav as (Hc & pre & post & Hsplit & Hpre).
  split; [done|]. exists pre, post. split; [done|]. intros x Hx.
  destruct (decide (x ∈ used_colors ui)) as [|Hn]; [done|]. by apply Hpre in Hx.
Qed.

Lemma available_colors_nil ui :
  available_colors ui = [] ↔ ∀ c, c ∈ colors → c ∈ used_colors ui.
Proof.
  unfold available_colors. split.
  - intros Hnil c Hc. destruct (decide (c ∈ used_colors ui)) as [|Hn]; [done|].
    assert (c ∈ filter (λ c, c ∉ used_colors ui) colors) as Hin
      by (by apply list_elem_of_filter).
    rewrite Hnil in Hin. by apply elem_of_nil in Hin.
  - intros Hall. induction colors as [|c cs IH]; [done|].
    rewrite filter_cons_False.
    + apply IH. intros x Hx. apply Hall. by right.
    + intros Hn. apply Hn, Hall. left.
Qed.

Lemma assign_color_exhausted ui :
  (∀ c, c ∈ colors → c ∈ used_colors ui) →
  assign_color ui = nth (length ui mod 10) colors EmptyString.
Proof.
  intros Hall. apply available_colors_nil in Hall. unfold assign_color.
  by rewrite Hall.
Qed.

Lemma used_colors_length ui : length (used_colors ui) = length ui.
Proof. unfold used_colors, od_values. by rewrite !length_fmap. Qed.

Lemma available_below_ten ui : length ui < 10 → available_colors ui ≠ [].
Proof.
  intros Hlen Hnil. rewrite available_colors_nil in Hnil.
  assert (colors ⊆+ used_colors ui) as Hsub
    by (apply NoDup_submseteq; [apply colors_NoDup | done]).
  apply submseteq_length in Hsub. rewrite used_colors_length in Hsub.
  change (length colors) with 10 in Hsub. lia.
Qed.

Lemma palette_full ui :
  NoDup (used_colors ui) → (∀ c, c ∈ used_colors ui → c ∈ colors) →
  length ui = 10 → ∀ c, c ∈ colors → c ∈ used_colors ui.
Proof.
  intros Hnd Hin Hlen c Hc.
  assert (used_colors ui ⊆+ colors) as Hsub by (by apply NoDup_submseteq).
  apply submseteq_length_Permutation in Hsub.
  - by rewrite Hsub.
  - rewrite used_colors_length, Hlen. done.
Qed.

Lemma used_colors_set k v ui :
  NoDup (used_colors ui) → ui_color v ∉ used_colors ui →
  NoDup (used_colors (od_set k v ui)) ∧
  ∀ c, c ∈ used_colors (od_set k v ui) → c = ui_color v ∨ c ∈ used_colors ui.
Proof.
  unfold used_colors, od_values.
  induction ui as [|[k0 v0] ui IH]; intros Hnd Hnew.
  - cbn. split; [apply NoDup_singleton|]. intros c Hc.
    apply list_elem_of_singleton in Hc. by left.
  - cbn [od_set]. rewrite !fmap_cons in Hnd, Hnew. cbn [snd] in Hnd, Hnew.
    apply NoDup_cons in Hnd as [Hv0 Hnd]. apply not_elem_of_cons in Hnew as [Hne Hnew].
    case_decide; rewrite !fmap_cons; cbn [snd].
    + split.
      * apply NoDup_cons. done.
      * intros c Hc. apply elem_of_cons in Hc as [->|Hc]; [by left|].
        right. by right.
    + destruct (IH Hnd Hnew) as [IH1 IH2]. split.
      * apply NoDup_cons. split; [|done]. intros Hin.
        apply IH2 in Hin as [?|?]; [congruence | done].
      * intros c Hc. apply elem_of_cons in Hc as [->|Hc]; [right; left|].
        apply IH2 in Hc as [?|?]; [by left | right; by right].
Qed.

Lemma od_set_length {V} k (v : V) d : length (od_set k v d) ≤ S (length d).
Proof.
  induction d as [|[k0 v0] d IH]; cbn [od_set]; [done|].
  case_decide; cbn; lia.
Qed.

Lemma od_del_sublist {V} k (d : odict V) : od_del k d `sublist_of` d.
Proof.
  induction d as [|[k0 v0] d IH]; cbn [od_del]; [done|].
  case_decide; [by apply sublist_cons | by apply sublist_skip].
Qed.

Lemma enrol_infos ws b data rnd m :
  registry_wf m →
  infos_of (enrol ws b data rnd m) b
  = od_set (resolve_identity data rnd).1.1
      {| ui_id := (resolve_identity data rnd).1.1;
         ui_name := (resolve_identity data rnd).1.2;
         ui_color := assign_color (infos_of m b);
         ui_session_id := (resolve_identity data rnd).2;
         ui_joined_at := now rnd; ui_cursor := VNone |}
      (infos_of m b).
Proof.
  intros Hwf. specialize (Hwf b).
  unfold enrol, identity, ensure_board, infos_of, slot_wf in *.
  destruct (resolve_identity data rnd) as [[uid uname] sid]. cbn [fst snd].
  destruct (active_connections m !! b) as [conns|] eqn:Hac;
    destruct (board_data m !! b) as [bd|] eqn:Hbd;
    destruct (user_info m !! b) as [ui|] eqn:Hui; try done;
    cbn [active_connections board_data user_info];
    by rewrite ?Hui, !lookup_insert_eq.
Qed.

Lemma enrol_colors_ok ws b data rnd m :
  registry_wf m → length (infos_of m b) < 10 → colors_ok b m →
  colors_ok b (enrol ws b data rnd m) ∧ length (infos_of (enrol ws b data rnd m) b) ≤ 10.
Proof.
  intros Hwf Hlen [Hnd Hpal]. unfold colors_ok. rewrite enrol_infos by done.
  destruct (available_colors (infos_of m b)) as [|c rest] eqn:Hav;
    [by apply available_below_ten in Hav|].
  destruct (assign_color_first_unused _ _ _ Hav) as (Hc & Hnew & pre & post & Hsplit & _).
  set (info := {| ui_id := _ |}).
  destruct (used_colors_set (resolve_identity data rnd).1.1 info (infos_of m b) Hnd)
    as [H1 H2]; [subst info; cbn [ui_color]; by rewrite Hc|].
  split; [split; [done|]|].
  - intros x Hx. apply H2 in Hx as [->|?]; [|by apply Hpal].
    subst info. cbn [ui_color]. rewrite Hc, Hsplit. apply elem_of_app. right. left.
  - pose proof (od_set_length (resolve_identity data rnd).1.1 info (infos_of m b)). lia.
Qed.

Lemma drop_user_infos b uid m :
  infos_of (drop_user b uid m) b `sublist_of` infos_of m b.
Proof.
  unfold drop_user, infos_of.
  destruct (active_connections m !! b) as [conns|] eqn:Hac; [|done].
  destruct (user_info m !! b) as [ui|] eqn:Hui; [|by rewrite Hui].
  destruct (board_data m !! b) as [bd|] eqn:Hbd; [|by rewrite Hui].
  destruct (od_get uid ui); [|by rewrite Hui].
  destruct (od_del uid conns); cbn [user_info].
  - rewrite lookup_delete_eq. apply sublist_nil_l.
  - rewrite lookup_insert_eq. apply od_del_sublist.
Qed.

Lemma drop_user_colors_ok b uid m :
  colors_ok b m → colors_ok b (drop_user b uid m).
Proof.
  intros [Hnd Hpal].
  assert (used_colors (infos_of (drop_user b uid m) b) `sublist_of` used_colors (infos_of m b))
    as Hsub.
  { unfold used_colors, od_values. do 2 apply fmap_sublist. apply drop_user_infos. }
  split; [by eapply sublist_NoDup|]. intros c Hc. apply Hpal.
  by eapply elem_of_sublist.
Qed.

(** *** Teardown *)

Lemma wf_keys_NoDup b m : registry_wf m → NoDup (od_keys (conns_of m b)).
Proof.
  intros Hwf. specialize (Hwf b). unfold slot_wf, conns_of in *.
  destruct (active_connections m !! b); [|apply NoDup_nil_2].
  destruct (board_data m !! b); [|done]. destruct (user_info m !! b); [|done].
  apply Hwf.
Qed.

Section teardown_facts.
Variable send_ok : WebSocket → message → bool.

Lemma broadcast_locals b msg exclude s :
  Inv (manager s) →
  var_user_id (broadcast send_ok b msg exclude s).2 = var_user_id s.
Proof. intros HI. by rewrite broadcast_run by apply HI. Qed.

Lemma broadcast_outcome b msg exclude s uid ws :
  Inv (manager s) →
  od_get uid (conns_of (manager s) b) = Some ws →
  let m' := manager (broadcast send_ok b msg exclude s).2 in
  (send_ok ws msg = true →
     od_get uid (conns_of m' b) = Some ws ∧
     filter (λ u, ue_id u = uid) (roster_of m' b)
     = filter (λ u, ue_id u = uid) (roster_of (manager s) b)) ∧
  (send_ok ws msg = false → absent_from b uid m').
Proof.
  intros [Hwf Hu] Hget m'. subst m'. rewrite broadcast_run by done.
  cbn [snd manager st_manager].
  pose proof (wf_keys_NoDup b (manager s) Hwf) as Hnd.
  pose proof (od_get_elem_of _ _ _ Hget) as Hin.
  split.
  - intros Hok.
    destruct (prune_keeps_present b uid
                (failed send_ok msg (conns_of (manager s) b)) (manager s))
      as [H1 H2]; [| by rewrite Hget | by rewrite H1, H2].
    intros Hf. apply elem_of_failed in Hf as (ws1 & Hin1 & Hf1).
    assert (ws1 = ws) as -> by (by eapply od_NoDup_unique). congruence.
  - intros Hf. apply prune_absent; [done | | by rewrite Hget].
    apply elem_of_failed. eauto.
Qed.

Lemma teardown_bound b s :
  Inv (manager s) → str_truthy (var_user_id s) = true →
  teardown send_ok b s =
  broadcast send_ok b (user_left_message b s) None
    (st_manager (drop_user b (default EmptyString (var_user_id s)) (manager s)) s).
Proof.
  intros HI Hb. unfold teardown, user_left_message.
  unfold mbind at 1. unfold M_bind, get_user_id. rewrite Hb.
  unfold mbind at 1. unfold M_bind. rewrite disconnect_run by apply HI.
  done.
Qed.

Lemma teardown_unbound b s :
  str_truthy (var_user_id s) = false → teardown send_ok b s = (Ok (), s).
Proof.
  intros Hb. unfold teardown. unfold mbind, M_bind, get_user_id. by rewrite Hb.
Qed.

Lemma handle_update_user_binds ws b data rnd s :
  Inv (manager s) → d_type data = Some "update_user" →
  var_user_id (handle_event send_ok ws b data rnd s).2 = d_userId data.
Proof.
  intros HI Hty. unfold handle_event, require. rewrite Hty. mrun. dispatch.
  repeat (mrun; try case_match; simplify_eq);
    (rewrite broadcast_locals; [done | solve_Inv]).
Qed.
End teardown_facts.

(** ** Equality of ids *)

Lemma py_eq_same_scalar v w : py_eq v w = true ↔ same_scalar v w.
Proof.
  unfold same_scalar. destruct v as [|x|x|x], w as [|y|y|y]; cbn [py_eq];
    rewrite ?Z.eqb_eq, ?String.eqb_eq, ?Bool.eqb_true_iff;
    try (split; [intros ->; by left | intros [[= ->]|(z & [[? ?]|[? ?]])]; done]);
    try (split; [done | intros [?|(z & [[? ?]|[? ?]])]; done]).
  - split; [by left | done].
  - split.
    + intros <-. right. exists x. by left.
    + intros [?|(z & [[[= ->] [= ->]]|[? ?]])]; done.
  - split.
    + intros <-. right. exists y. by right.
    + intros [?|(z & [[? ?]|[[= ->] [= ->]]])]; done.
Qed.

Lemma py_eq_false_not_same v w : py_eq v w = false ↔ ¬ same_scalar v w.
Proof. rewrite <- py_eq_same_scalar. by destruct (py_eq v w). Qed.

(** * The claims *)

Lemma reachable_st_a : reachable st_a.
Proof. apply reachable_join, reachable_start. Qed.

Lemma reachable_st_ab : reachable st_ab.
Proof.
  unfold st_ab, st_user_id. cbn [wire manager var_user_name].
  set (s := (join all_ok 2 "b1" (join_as "bb") rnd0 st_a).2).
  assert (reachable s) as Hs by apply reachable_join, reachable_st_a.
  apply (reachable_locals (Some "a") (var_user_name s)) in Hs.
  exact Hs.
Qed.

(** The excluded user id plays no part in [broadcast]. *)
Lemma broadcast_exclusion_ignored send_ok b msg exclude :
  broadcast send_ok b msg exclude = broadcast send_ok b msg None.
Proof. reflexivity. Qed.

(** C1. With ["a"] and ["bb"] on board ["b1"], a [cursor_move] and an
    [update_user] sent by ["a"] are both delivered to ["a"]'s own socket
    as well as to ["bb"]'s: the exclusion the callers ask for is not
    applied. *)
Theorem cursor_and_rename_echoed_to_originator :
  wire (handle_event all_ok 1 "b1"
          (with_position (VNum 7) (with_type "cursor_move" blank)) rnd0 st_ab).2
  = wire st_ab ++
    [Sent 1 (CursorMoved (Some "a") None "#FF6B6B" (VNum 7));
     Sent 2 (CursorMoved (Some "a") None "#FF6B6B" (VNum 7))]
  ∧
  wire (handle_event all_ok 1 "b1"
          (with_userId "a" (with_type "update_user" blank)) rnd0 st_ab).2
  = wire st_ab ++
    [Sent 1 (UserUpdated (Some "a") None None);
     Sent 2 (UserUpdated (Some "a") None None)].
Proof. split; vm_compute; reflexivity. Qed.

(** C9. When the first frame is not a [user_join] envelope (another
    type, no type, unparseable bytes, or no frame at all) the endpoint
    returns at once: the registry is untouched, nothing is sent to
    anybody, no identity is bound, and the only thing that may go out is
    the close of this very socket. *)
Theorem non_join_first_frame_closes send_ok ws b inbound s :
  first_is_join inbound = false →
  let r := websocket_endpoint send_ok ws b inbound s in
  r.1 = Ok () ∧
  manager r.2 = manager s ∧
  var_user_id r.2 = None ∧ var_user_name r.2 = None ∧
  (wire r.2 = wire s ∨ wire r.2 = wire s ++ [Closed ws]) ∧
  (∀ ws' msg, Sent ws' msg ∈ wire r.2 → Sent ws' msg ∈ wire s).
Proof.
  intros Hj r. subst r.
  assert (∀ ws' msg, Sent ws' msg ∈ wire s ++ [Closed ws] → Sent ws' msg ∈ wire s)
    as Hclosed.
  { intros ws' msg Hin. apply elem_of_app in Hin as [?|Hin]; [done|].
    by apply list_elem_of_singleton in Hin. }
  unfold websocket_endpoint, try_except, require, emit, st_emit.
  destruct inbound as [|[data rnd|] rest]; cbn [first_is_join] in Hj; mrun.
  - split_and!; try done. by right.
  - apply bool_decide_eq_false in Hj.
    destruct (d_type data) as [ty|] eqn:Hty; mrun.
    + rewrite bool_decide_eq_false_2 by congruence. mrun.
      split_and!; try done. by left.
    + split_and!; try done. by right.
  - split_and!; try done. by right.
Qed.

Lemma non_join_first_frame_closes_witness :
  first_is_join [Json (with_type "ping" blank) rnd0] = false ∧
  manager (websocket_endpoint all_ok 3 "b1" [Json (with_type "ping" blank) rnd0] st_a).2
  = manager st_a.
Proof.
  split; [reflexivity|].
  apply (non_join_first_frame_closes all_ok 3 "b1"
           [Json (with_type "ping" blank) rnd0] st_a).
  reflexivity.
Defined.

(** C3, as stated, fails: with ["a"] active on board ["b1"], an
    [add_object] envelope without [object] makes the handler raise; the
    loop stops there and the [ping] that follows is never answered. *)
Lemma malformed_add_object_stops_loop :
  ¬ event_survives all_ok 1 "b1" (with_type "add_object" blank) rnd0 st_a ∧
  event_loop all_ok 1 "b1"
    [Json (with_type "add_object" blank) rnd0; Json (with_type "ping" blank) rnd0] st_a
  = (Raise (KeyError "object"), st_a) ∧
  (event_loop all_ok 1 "b1" [Json (with_type "ping" blank) rnd0] st_a).2
  = st_emit [Sent 1 Pong] st_a.
Proof.
  split_and!.
  - intros [s' Hs']. vm_compute in Hs'. discriminate.
  - vm_compute. reflexivity.
  - vm_compute. reflexivity.
Qed.

(** C3, amended.  An event whose handler subscripts a missing key
    ([type]; [object] for [add_object] and [modify_object]; [position]
    for [cursor_move]) raises [KeyError] before anything is stored or
    sent; the loop ends there whatever frames follow, the [finally]
    block runs on the untouched state and the error goes on to the outer
    handler, which closes the socket.  Events all of whose fields are
    read with [dict.get] ([update_user], [remove_object], [clear_board])
    are served to the end whichever fields they lack. *)
Theorem malformed_event_ends_session send_ok ws b data rnd rest data' rnd' s k :
  missing_required data = Some k →
  reachable s →
  reads_with_defaults data' →
  handle_event send_ok ws b data rnd s = (Raise (KeyError k), s) ∧
  event_loop send_ok ws b (Json data rnd :: rest) s = (Raise (KeyError k), s) ∧
  session send_ok ws b (Json data rnd :: rest) s
  = (Raise (KeyError k), (teardown send_ok b s).2) ∧
  try_except (session send_ok ws b (Json data rnd :: rest)) (λ _, emit (Closed ws)) s
  = (Ok (), st_emit [Closed ws] (teardown send_ok b s).2) ∧
  event_survives send_ok ws b data' rnd' s.
Proof.
  intros Hk Hs Hd. pose proof (reachable_Inv s Hs) as HI.
  pose proof (handle_event_missing send_ok ws b data rnd s k Hk) as Hev.
  assert (event_loop send_ok ws b (Json data rnd :: rest) s = (Raise (KeyError k), s))
    as Hloop.
  { cbn [event_loop]. unfold mbind, M_bind. by rewrite Hev. }
  assert (session send_ok ws b (Json data rnd :: rest) s
          = (Raise (KeyError k), (teardown send_ok b s).2)) as Hsess.
  { unfold session, try_finally, except_disconnect, try_except. rewrite Hloop.
    unfold raise. destruct (teardown_run send_ok b s HI) as [s' Hs']. by rewrite Hs'. }
  split_and!; try done.
  - unfold try_except. by rewrite Hsess.
  - by apply handle_event_lenient_ok.
Qed.

Lemma malformed_event_ends_session_witness :
  missing_required (with_type "modify_object" blank) = Some "object" ∧
  reads_with_defaults (with_type "remove_object" blank) ∧
  event_loop all_ok 1 "b1"
    [Json (with_type "modify_object" blank) rnd0; Json (with_type "ping" blank) rnd0] st_a
  = (Raise (KeyError "object"), st_a).
Proof.
  split; [reflexivity|]. split; [right; left; reflexivity|].
  apply (malformed_event_ends_session all_ok 1 "b1" (with_type "modify_object" blank)
           rnd0 [Json (with_type "ping" blank) rnd0]
           (with_type "remove_object" blank) rnd0 st_a "object").
  - reflexivity.
  - apply reachable_join, reachable_start.
  - right; left; reflexivity.
Defined.

(** C2.  The [add_object] branch of the handler appends to the log
    directly and never truncates it: after ["a"] has joined the empty
    board ["b1"] and sent 1001 [add_object] events, the log holds 1001
    objects. *)
Theorem object_log_grows_past_cap :
  length ∘ objects <$>
    board_data
      (manager
         (event_loop all_ok 1 "b1"
            (replicate 1001 (Json (with_object ∅ (with_type "add_object" blank)) rnd0))
            st_a).2) !! "b1"
  = Some 1001.
Proof.
  destruct (add_object_events_grow 1 "b1"
              (with_object ∅ (with_type "add_object" blank)) rnd0 ∅ 1001 st_a
              {| objects := []; background := "#FFFFFF";
                 users := [{| ue_id := "a"; ue_name := None; ue_color := "#FF6B6B";
                              ue_joined_at := "t0" |}] |})
    as (bd' & Hbd' & Hlen);
    [reflexivity | reflexivity | apply reachable_Inv, reachable_st_a | reflexivity |].
  rewrite Hbd'. cbn [fmap option_fmap option_map compose]. by rewrite Hlen.
Qed.

(** C8.  A broadcast to a board with members [conns] is made of a pass
    over all of [conns], which sends to each member in turn, neither
    stops at a failure nor touches the registry, and only collects the
    ids whose send failed; and, once the pass is over, of the teardown
    of exactly those ids.  The broadcast itself returns normally.  Every
    member whose socket accepts the message gets it and stays
    registered; every member whose send failed is, afterwards, gone from
    the connection map, the identity records and the roster. *)
Theorem broadcast_best_effort send_ok b msg exclude s (conns : odict WebSocket) :
  reachable s →
  active_connections (manager s) !! b = Some conns →
  let r := broadcast send_ok b msg exclude s in
  (∃ s1, broadcast_pass send_ok conns msg [] s = (Ok (failed send_ok msg conns), s1) ∧
         manager s1 = manager s ∧
         wire s1 = wire s ++ delivered send_ok msg conns ∧
         r = disconnect_all b (failed send_ok msg conns) s1) ∧
  r.1 = Ok () ∧
  wire r.2 = wire s ++ delivered send_ok msg conns ∧
  manager r.2 = prune b (failed send_ok msg conns) (manager s) ∧
  (∀ uid ws, (uid, ws) ∈ conns → send_ok ws msg = true →
     Sent ws msg ∈ wire r.2 ∧ od_get uid (conns_of (manager r.2) b) = Some ws) ∧
  (∀ uid ws, (uid, ws) ∈ conns → send_ok ws msg = false →
     absent_from b uid (manager r.2)).
Proof.
  intros Hs Hac r. pose proof (reachable_Inv s Hs) as [Hwf Hu].
  assert (conns_of (manager s) b = conns) as Hconns by (unfold conns_of; by rewrite Hac).
  assert (NoDup (od_keys conns)) as Hnd.
  { specialize (Hwf b). unfold slot_wf in Hwf. rewrite Hac in Hwf.
    destruct (board_data (manager s) !! b); [|done].
    destruct (user_info (manager s) !! b); [|done]. apply Hwf. }
  assert (r = (Ok (), st_manager (prune b (failed send_ok msg conns) (manager s))
                        (st_emit (delivered send_ok msg conns) s))) as Hr.
  { subst r. rewrite broadcast_run by done. by rewrite Hconns. }
  split_and!.
  - exists (st_emit (delivered send_ok msg conns) s). split_and!; try done.
    + by rewrite broadcast_pass_run.
    + subst r. unfold broadcast, mbind, M_bind, get_manager. cbv beta iota.
      rewrite Hac. by rewrite broadcast_pass_run.
  - by rewrite Hr.
  - by rewrite Hr.
  - by rewrite Hr.
  - intros uid ws Hin Hok. rewrite Hr. cbn [snd wire manager st_manager st_emit].
    split.
    + apply elem_of_app. right. apply elem_of_delivered. eauto.
    + pose proof (od_elem_of_keys conns uid ws Hin) as [ws' Hget].
      assert (ws = ws') as <- by (by eapply od_NoDup_unique).
      destruct (prune_keeps_present b uid (failed send_ok msg conns) (manager s))
        as [-> _]; [| by rewrite Hconns, Hget | by rewrite Hconns].
      intros Hf. apply elem_of_failed in Hf as (ws1 & Hin1 & Hf1).
      assert (ws1 = ws) as -> by (by eapply od_NoDup_unique). congruence.
  - intros uid ws Hin Hf. rewrite Hr. cbn [snd manager st_manager].
    apply prune_absent; [done | | ].
    + apply elem_of_failed. eauto.
    + rewrite Hconns. by eapply od_elem_of_keys.
Qed.

Lemma broadcast_best_effort_witness :
  wire (broadcast (λ ws _, bool_decide (ws ≠ 1)) "b1" Pong None st_ab).2
  = wire st_ab ++ [Sent 2 Pong] ∧
  od_keys (conns_of (manager (broadcast (λ ws _, bool_decide (ws ≠ 1)) "b1" Pong None
                                st_ab).2) "b1")
  = ["bb"].
Proof.
  destruct (broadcast_best_effort (λ ws _, bool_decide (ws ≠ 1)) "b1" Pong None st_ab
              [("a", 1); ("bb", 2)])
    as (_ & _ & Hwire & Hm & _).
  - apply reachable_st_ab.
  - reflexivity.
  - split; [exact Hwire|]. rewrite Hm. reflexivity.
Defined.

(** C7.  In every state the process can reach, the user ids of a
    board's roster are pairwise distinct.  Registering a user whose id
    is already on the roster leaves the board's data untouched; and
    after any registration the roster holds exactly one entry of the
    registrant's id. *)
Theorem roster_ids_unique s :
  reachable s →
  (∀ b bd, board_data (manager s) !! b = Some bd → NoDup (ue_id <$> users bd)) ∧
  (∀ ws b data rnd,
     let uid := (resolve_identity data rnd).1.1 in
     let s' := (register_user ws b data rnd s).2 in
     (uid ∈ ue_id <$> roster_of (manager s) b →
      board_data (manager s') = board_data (manager s)) ∧
     length (filter (λ u, ue_id u = uid) (roster_of (manager s') b)) = 1).
Proof.
  intros Hs. pose proof (reachable_Inv s Hs) as [Hwf Hu]. split; [exact Hu|].
  intros ws b data rnd uid s'.
  assert (reachable s') as Hs' by (by apply reachable_register).
  pose proof (reachable_Inv s' Hs') as [_ Hu'].
  subst s'. rewrite register_user_run in * by done.
  cbn [snd manager st_manager] in *.
  destruct (enrol_roster ws b data rnd (manager s) Hwf) as [Hsame Hin].
  split; [exact Hsame|]. apply filter_id_once; [|exact Hin].
  unfold roster_of.
  destruct (board_data (enrol ws b data rnd (manager s)) !! b) eqn:Hbd;
    [by eapply Hu' | apply NoDup_nil_2].
Qed.

Lemma roster_ids_unique_witness :
  reachable st_ab ∧
  roster_of (manager (register_user 3 "b1" (join_as "a") rnd0 st_ab).2) "b1"
  = roster_of (manager st_ab) "b1".
Proof.
  split; [apply reachable_st_ab|].
  destruct (roster_ids_unique st_ab reachable_st_ab) as [_ Hreg].
  destruct (Hreg 3 "b1" (join_as "a") rnd0) as [Hsame _].
  unfold roster_of. rewrite Hsame; [reflexivity|]. vm_compute.
  apply list_elem_of_here.
Defined.

Lemma reachable_st_ten : reachable st_ten.
Proof.
  unfold st_ten, ten_users. cbn [foldl].
  repeat apply reachable_register. apply reachable_start.
Qed.

(** C6, as stated, fails: ten users are on board ["b1"], holding the ten
    palette colors; ["u5"] joins again while present.  No color is
    unused, so ["u5"] is handed the color at index 10 mod 10, the one
    ["u0"] holds: ten users present, never more, and two of them share
    a color. *)
Lemma rejoin_at_full_palette_repeats_color :
  reachable st_rejoin ∧
  length (infos_of (manager st_rejoin) "b1") = 10 ∧
  ui_color <$> od_get "u0" (infos_of (manager st_rejoin) "b1") = Some "#FF6B6B" ∧
  ui_color <$> od_get "u5" (infos_of (manager st_rejoin) "b1") = Some "#FF6B6B" ∧
  ¬ colors_distinct_upto_ten st_rejoin.
Proof.
  split_and!.
  - apply reachable_register, reachable_st_ten.
  - vm_compute. reflexivity.
  - vm_compute. reflexivity.
  - vm_compute. reflexivity.
  - intros H. specialize (H "b1").
    assert (used_colors (infos_of (manager st_rejoin) "b1")
            = ["#FF6B6B"; "#4ECDC4"; "#FFD166"; "#06D6A0"; "#118AB2";
               "#FF6B6B"; "#7209B7"; "#3A86FF"; "#FB5607"; "#8338EC"]) as Hused
      by (vm_compute; reflexivity).
    assert (length (infos_of (manager st_rejoin) "b1") ≤ 10) as Hlen
      by (vm_compute; lia).
    apply H in Hlen. rewrite Hused in Hlen.
    apply NoDup_cons in Hlen as [Hn _]. apply Hn.
    do 4 right. left.
Qed.

(** C6, amended.  On a board whose every registration, starting from
    the empty registry, found fewer than ten users present (leaves come
    and go freely), the users' colors are pairwise distinct, at most ten
    users are present, and if ten are, the next registrant gets the
    palette's first color.  The color handed out by [register_user] is
    always [assign_color] of the board's identity records: the first
    palette color, in palette order, that none of them holds; and, when
    all ten are held, the palette color at index (number of records mod
    10). *)
Theorem color_assignment b ops w uu un :
  let s0 := {| manager := new_manager; wire := w;
               var_user_id := uu; var_user_name := un |} in
  joins_below_ten b ops s0 →
  let s := run_presence b ops s0 in
  let ui := infos_of (manager s) b in
  NoDup (used_colors ui) ∧
  length ui ≤ 10 ∧
  (length ui = 10 → assign_color ui = "#FF6B6B") ∧
  (∀ ws data rnd,
     (register_user ws b data rnd s).1
     = Ok ((resolve_identity data rnd).1.1, (resolve_identity data rnd).1.2,
           assign_color ui, (resolve_identity data rnd).2) ∧
     ui_color <$> od_get (resolve_identity data rnd).1.1
                    (infos_of (manager (register_user ws b data rnd s).2) b)
     = Some (assign_color ui)) ∧
  (∀ (ui' : odict UserInfo) c rest,
     available_colors ui' = c :: rest →
     assign_color ui' = c ∧ (c ∉ used_colors ui') ∧
     ∃ pre post, colors = pre ++ (c :: post) ∧ ∀ x, x ∈ pre → x ∈ used_colors ui') ∧
  (∀ ui' : odict UserInfo,
     (∀ c, c ∈ colors → c ∈ used_colors ui') →
     assign_color ui' = nth (length ui' mod 10) colors EmptyString).
Proof.
  intros s0 Hops s ui.
  assert (registry_wf (manager s) ∧ colors_ok b (manager s) ∧ length ui ≤ 10)
    as (Hwf & [Hnd Hpal] & Hlen).
  { subst s ui.
    assert (registry_wf (manager s0) ∧ colors_ok b (manager s0)
            ∧ length (infos_of (manager s0) b) ≤ 10) as H0.
    { assert (infos_of (manager s0) b = []) as Hnil.
      { unfold infos_of, s0, new_manager. cbn [manager user_info].
        by rewrite lookup_empty. }
      split_and!; [apply new_manager_Inv | | ].
      - unfold colors_ok. rewrite Hnil.
        split; [apply NoDup_nil_2 | intros c Hc; by apply elem_of_nil in Hc].
      - rewrite Hnil. cbn. lia. }
    clearbody s0. revert s0 Hops H0.
    induction ops as [|[ws data rnd|uid] ops IH]; intros s0 Hops (Hwf & Hok & Hlen).
    - done.
    - destruct Hops as [Hlt Hops]. cbn [run_presence]. apply IH; [done|].
      rewrite register_user_run by done. cbn [snd manager st_manager].
      destruct (enrol_colors_ok ws b data rnd (manager s0)) as [H1 H2]; try done.
      split_and!; [by apply enrol_wf | done | done].
    - cbn [run_presence]. apply IH; [done|].
      rewrite disconnect_run by done. cbn [snd manager st_manager].
      split_and!; [by apply drop_user_wf | by apply drop_user_colors_ok |].
      pose proof (sublist_length _ _ (drop_user_infos b uid (manager s0))). lia. }
  split_and!; try done.
  - intros Hten. rewrite assign_color_exhausted by (by apply palette_full).
    fold ui. by rewrite Hten.
  - intros ws data rnd. rewrite register_user_run by done.
    cbn [fst snd manager st_manager]. split.
    + unfold identity. fold ui. by destruct (resolve_identity data rnd) as [[??]?].
    + rewrite enrol_infos by done. by rewrite od_get_set, decide_True.
  - apply assign_color_first_unused.
  - apply assign_color_exhausted.
Qed.

Lemma color_assignment_witness :
  joins_below_ten "b1"
    [Arrive 1 (join_as "a") rnd0; Arrive 2 (join_as "bb") rnd0; Leave "a"] st0 ∧
  NoDup (used_colors (infos_of
    (manager (run_presence "b1"
       [Arrive 1 (join_as "a") rnd0; Arrive 2 (join_as "bb") rnd0; Leave "a"] st0))
    "b1")).
Proof.
  assert (joins_below_ten "b1"
            [Arrive 1 (join_as "a") rnd0; Arrive 2 (join_as "bb") rnd0; Leave "a"] st0)
    as Hops.
  { cbn [joins_below_ten]. split; [vm_compute; lia|]. split; [vm_compute; lia | exact I]. }
  split; [exact Hops|].
  apply (color_assignment "b1"
           [Arrive 1 (join_as "a") rnd0; Arrive 2 (join_as "bb") rnd0; Leave "a"]
           [] None None Hops).
Defined.

Lemma reachable_st_rebound : reachable st_rebound.
Proof. apply reachable_event, reachable_st_ab. Qed.

(** C10, as stated, fails: ["a"] (socket 1) and ["bb"] are on board
    ["b1"]; ["a"] sends [update_user] with [userId = "x"], which rebinds
    its coroutine to ["x"].  At teardown the deregistration of ["x"]
    finds nothing, but the [user_left] broadcast that follows cannot be
    sent to socket 1, and the pruning removes ["a"]'s connection and
    roster entry. *)
Lemma rebound_teardown_prunes_original :
  var_user_id st_rebound = Some "x" ∧
  od_get "a" (conns_of (manager st_rebound) "b1") = Some 1 ∧
  od_get "a" (conns_of (manager (teardown socket_1_dead "b1" st_rebound).2) "b1") = None ∧
  ue_id <$> roster_of (manager (teardown socket_1_dead "b1" st_rebound).2) "b1" = ["bb"] ∧
  ¬ teardown_keeps_entry socket_1_dead "b1" "a" st_rebound.
Proof.
  split_and!; try (vm_compute; reflexivity).
  intros [H _]. vm_compute in H. discriminate.
Qed.

(** C10, amended.  Serving [update_user] rebinds the coroutine's user
    id to the event's [userId].  From then on, at teardown, with the
    entry registered at join time ([orig], on socket [ws0]) still in
    place and [userId] absent or different from [orig]:
    - when the bound id is [None] or empty the teardown does nothing at
      all;
    - otherwise the deregistration, keyed by the bound id, leaves
      [orig]'s connection and roster entries as they are; the
      [user_left] broadcast that follows leaves them too if its send to
      [ws0] succeeds, and prunes them if that send fails. *)
Theorem rebound_teardown send_ok ws b data rnd s s2 orig ws0 :
  reachable s →
  d_type data = Some "update_user" →
  d_userId data ≠ Some orig →
  reachable s2 →
  var_user_id s2 = d_userId data →
  od_get orig (conns_of (manager s2) b) = Some ws0 →
  var_user_id (handle_event send_ok ws b data rnd s).2 = d_userId data ∧
  (str_truthy (d_userId data) = false → teardown send_ok b s2 = (Ok (), s2)) ∧
  (∀ u', d_userId data = Some u' →
     let m1 := manager (disconnect b u' s2).2 in
     od_get orig (conns_of m1 b) = Some ws0 ∧
     filter (λ u, ue_id u = orig) (roster_of m1 b)
     = filter (λ u, ue_id u = orig) (roster_of (manager s2) b)) ∧
  (str_truthy (d_userId data) = true →
     (send_ok ws0 (user_left_message b s2) = true → teardown_keeps_entry send_ok b orig s2) ∧
     (send_ok ws0 (user_left_message b s2) = false →
        absent_from b orig (manager (teardown send_ok b s2).2))).
Proof.
  intros Hs Hty Hne Hs2 Hbound Horig.
  pose proof (reachable_Inv s Hs) as HI. pose proof (reachable_Inv s2 Hs2) as HI2.
  assert (∀ u', d_userId data = Some u' →
            od_get orig (conns_of (drop_user b u' (manager s2)) b) = Some ws0 ∧
            filter (λ u, ue_id u = orig) (roster_of (drop_user b u' (manager s2)) b)
            = filter (λ u, ue_id u = orig) (roster_of (manager s2) b)) as Hdrop.
  { intros u' Hu'.
    destruct (drop_user_keeps_present b orig u' (manager s2)) as [H1 H2];
      [congruence | by rewrite Horig | by rewrite H1]. }
  split_and!.
  - by apply handle_update_user_binds.
  - intros Hf. apply teardown_unbound. by rewrite Hbound.
  - intros u' Hu' m1. subst m1. rewrite disconnect_run by apply HI2.
    cbn [snd manager st_manager]. by apply Hdrop.
  - intros Ht. destruct (d_userId data) as [u'|] eqn:Hu'; [|done].
    destruct (Hdrop u' eq_refl) as [Hd1 Hd2].
    unfold teardown_keeps_entry.
    rewrite teardown_bound by (by rewrite ?Hbound).
    rewrite Hbound. cbn [default from_option id].
    set (s3 := st_manager (drop_user b u' (manager s2)) s2).
    assert (Inv (manager s3)) as HI3 by (by apply drop_user_Inv).
    destruct (broadcast_outcome send_ok b (user_left_message b s2) None s3 orig ws0 HI3 Hd1)
      as [Hok Hfail].
    split.
    + intros Hsend. destruct (Hok Hsend) as [H1 H2]. split.
      * by rewrite H1, Horig.
      * rewrite H2. exact Hd2.
    + exact Hfail.
Qed.

Lemma rebound_teardown_witness :
  d_userId (with_userId "x" (with_type "update_user" blank)) ≠ Some "a" ∧
  od_get "a" (conns_of (manager st_rebound) "b1") = Some 1 ∧
  var_user_id st_rebound = Some "x" ∧
  teardown_keeps_entry all_ok "b1" "a" st_rebound.
Proof.
  assert (d_userId (with_userId "x" (with_type "update_user" blank)) ≠ Some "a") as Hne
    by discriminate.
  assert (od_get "a" (conns_of (manager st_rebound) "b1") = Some 1) as Horig
    by reflexivity.
  split; [exact Hne|]. split; [exact Horig|].
  destruct (rebound_teardown all_ok 1 "b1"
              (with_userId "x" (with_type "update_user" blank)) rnd0
              st_ab st_rebound "a" 1)
    as (Hbind & _ & _ & Hfull);
    [apply reachable_st_ab | reflexivity | exact Hne | apply reachable_st_rebound
    | reflexivity | exact Horig |].
  split; [exact Hbind|]. by apply Hfull.
Defined.

(** * Further properties *)

(** ** Relating the registry before and after, compositionally *)

Section steps_rules.
Context (Rm : relation ConnectionManager) `{!PreOrder Rm}.

Lemma steps_frame {A} (c : M A) :
  (∀ s, manager (c s).2 = manager s) → steps Rm c.
Proof. intros H s _. by rewrite H. Qed.

Lemma steps_ret {A} (a : A) : steps Rm (mret a).
Proof. by apply steps_frame. Qed.

Lemma steps_raise {A} e : steps Rm (@raise A e).
Proof. by apply steps_frame. Qed.

Lemma steps_bind {A B} (c : M A) (f : A → M B) :
  preserves c → steps Rm c → (∀ a, steps Rm (f a)) → steps Rm (c ≫= f).
Proof.
  intros Hp Hc Hf s HI. unfold mbind, M_bind.
  specialize (Hp s HI). specialize (Hc s HI).
  destruct (c s) as [[a|e] s']; [|done].
  etrans; [exact Hc | by apply Hf].
Qed.

Lemma steps_try_except {A} (c : M A) h :
  preserves c → steps Rm c → (∀ e, steps Rm (h e)) → steps Rm (try_except c h).
Proof.
  intros Hp Hc Hh s HI. unfold try_except.
  specialize (Hp s HI). specialize (Hc s HI).
  destruct (c s) as [[a|e] s']; [done|].
  etrans; [exact Hc | by apply Hh].
Qed.

Lemma steps_try_finally {A} (c : M A) f :
  preserves c → steps Rm c → steps Rm f → steps Rm (try_finally c f).
Proof.
  intros Hp Hc Hf s HI. unfold try_finally.
  specialize (Hp s HI). specialize (Hc s HI).
  destruct (c s) as [r s']. specialize (Hf s' Hp).
  destruct (f s') as [[?|?] s'']; by etrans.
Qed.
End steps_rules.

Ltac fold_writes_in Rm :=
  match goal with
  | |- Rm ?m {| active_connections := active_connections ?m;
                board_data := <[?b := ?x]> (board_data ?m);
                user_info := user_info ?m |} =>
      change (Rm m (with_board_data <[b := x]> m))
  | |- Rm ?m {| active_connections := active_connections ?m;
                board_data := board_data ?m;
                user_info := <[?b := ?y]> (user_info ?m) |} =>
      change (Rm m (with_user_info <[b := y]> m))
  | |- Rm ?m {| active_connections := active_connections ?m;
                board_data := <[?b := ?x]> (board_data ?m);
                user_info := <[?b := ?y]> (user_info ?m) |} =>
      change (Rm m (with_board_data <[b := x]> (with_user_info <[b := y]> m)))
  end.

Section loop_steps.
Context (send_ok : WebSocket → message → bool).
Context (Rm : relation ConnectionManager) `{!PreOrder Rm} (b0 : string).
Hypothesis Rm_drop : ∀ uid m, Inv m → Rm m (drop_user b0 uid m).
Hypothesis Rm_board : ∀ m bd bd',
  Inv m → board_data m !! b0 = Some bd →
  background bd' = background bd →
  ue_id <$> users bd' = ue_id <$> users bd →
  Rm m (with_board_data <[b0 := bd']> m).
Hypothesis Rm_info : ∀ m ui u info info',
  Inv m → user_info m !! b0 = Some ui → od_get u ui = Some info →
  ui_id info' = ui_id info → ui_color info' = ui_color info →
  Rm m (with_user_info <[b0 := od_set u info' ui]> m).

Lemma steps_prune uids : ∀ m, Inv m → Rm m (prune b0 uids m).
Proof.
  induction uids as [|u uids IH]; intros m HI; [done|].
  rewrite prune_cons. etrans; [by apply Rm_drop|]. by apply IH, drop_user_Inv.
Qed.

Lemma steps_broadcast_from m0 msg exclude s :
  Inv (manager s) → Rm m0 (manager s) →
  Rm m0 (manager (broadcast send_ok b0 msg exclude s).2).
Proof.
  intros HI H0. rewrite broadcast_run by apply HI. cbn [snd manager st_manager].
  etrans; [exact H0 | by apply steps_prune].
Qed.

Lemma steps_broadcast msg exclude : steps Rm (broadcast send_ok b0 msg exclude).
Proof. intros s HI. by apply steps_broadcast_from. Qed.

Lemma steps_disconnect uid : steps Rm (disconnect b0 uid).
Proof.
  intros s HI. rewrite disconnect_run by apply HI. cbn [snd manager st_manager].
  by apply Rm_drop.
Qed.
Lemma steps_handle_event ws data rnd :
  steps Rm (handle_event send_ok ws b0 data rnd).
Proof.
  intros s HI. unfold handle_event, require, send_to_user, send_json, emit.
  destruct (d_type data) as [ty|]; [|done]. mrun.
  repeat case_bool_decide;
    repeat (mrun; try case_match; simplify_eq); try done;
    try (apply steps_broadcast_from; [solve_Inv|]); cbn [manager]; try done.
  all: try (fold_writes_in Rm).
  all: try (eapply Rm_board; [done | eassumption | done | first [done | apply rename_first_ids]]).
  all: try (eapply Rm_info; [done | eassumption | eassumption | done | done]).
  all: match goal with
       | |- Rm ?m (with_board_data _ (with_user_info <[?b := ?y]> ?m)) =>
           transitivity (with_user_info <[b := y]> m)
       end;
    [ eapply Rm_info; [done | eassumption | eassumption | done | done]
    | eapply Rm_board;
        [ eapply Inv_set_info; eauto | cbn [board_data with_user_info]; eassumption
        | done | apply rename_first_ids ] ].
Qed.

Lemma steps_event_loop ws inbound : steps Rm (event_loop send_ok ws b0 inbound).
Proof.
  induction inbound as [|[data rnd|] rest IH]; cbn [event_loop];
    try apply steps_raise; try done.
  apply steps_bind; [done | apply preserves_handle_event | apply steps_handle_event | done].
Qed.

Lemma steps_teardown : steps Rm (teardown send_ok b0).
Proof.
  unfold teardown. apply steps_bind; [done | by apply preserves_frame | by apply steps_frame |].
  intros u. destruct (str_truthy u); [|by apply steps_ret].
  apply steps_bind; [done | apply preserves_disconnect | apply steps_disconnect |].
  intros n. apply steps_bind; [done | by apply preserves_frame | by apply steps_frame |].
  intros un. apply steps_broadcast.
Qed.

Lemma steps_session ws inbound : steps Rm (session send_ok ws b0 inbound).
Proof.
  unfold session, except_disconnect.
  apply steps_try_finally; [done | | | apply steps_teardown].
  - apply preserves_try_except; [apply preserves_event_loop|].
    intros []; (apply preserves_raise || apply preserves_ret).
  - apply steps_try_except; [done | apply preserves_event_loop | apply steps_event_loop |].
    intros []; (by apply steps_raise) || (by apply steps_ret).
Qed.

Hypothesis Rm_enrol : ∀ ws data rnd m, Inv m → Rm m (enrol ws b0 data rnd m).

Lemma steps_register_user ws data rnd : steps Rm (register_user ws b0 data rnd).
Proof.
  intros s HI. rewrite register_user_run by apply HI. cbn [snd manager st_manager].
  by apply Rm_enrol.
Qed.

Lemma steps_join ws data rnd : steps Rm (join send_ok ws b0 data rnd).
Proof.
  unfold join.
  apply steps_bind; [done | apply preserves_register_user | apply steps_register_user |].
  intros [[[uid uname] color] sid].
  apply steps_bind; [done | by apply preserves_frame | by apply steps_frame |]. intros _.
  apply steps_bind; [done | by apply preserves_frame | by apply steps_frame |]. intros _.
  apply steps_bind; [done | by apply preserves_frame | by apply steps_frame |]. intros m.
  apply steps_bind; [done | apply preserves_send_json | |].
  { apply steps_frame; [done|]. intros s. unfold send_to_user, send_json.
    by destruct (send_ok ws _). }
  intros _. apply steps_broadcast.
Qed.

Lemma steps_websocket_endpoint ws inbound :
  steps Rm (websocket_endpoint send_ok ws b0 inbound).
Proof.
  unfold websocket_endpoint.
  apply steps_bind; [done | by apply preserves_frame | by apply steps_frame |]. intros _.
  apply steps_bind; [done | by apply preserves_frame | by apply steps_frame |]. intros _.
  assert (∀ c : M unit, preserves c → steps Rm c →
            steps Rm (try_except c (λ _, emit (Closed ws)))) as Hclose.
  { intros c Hp Hc. apply steps_try_except; [done | done | done |].
    intros e. by apply steps_frame. }
  destruct inbound as [|[data rnd|] rest].
  - apply Hclose; [apply preserves_raise | by apply steps_raise].
  - apply Hclose.
    + apply preserves_bind.
      { unfold require. destruct (d_type data); [apply preserves_ret | apply preserves_raise]. }
      intros ty. case_bool_decide; [|apply preserves_ret].
      apply preserves_bind; [apply preserves_join|]. intros _. apply preserves_session.
    + apply steps_bind; [done | | |].
      { unfold require. destruct (d_type data); [apply preserves_ret | apply preserves_raise]. }
      { unfold require. destruct (d_type data); [by apply steps_ret | by apply steps_raise]. }
      intros ty. case_bool_decide; [|by apply steps_ret].
      apply steps_bind; [done | apply preserves_join | apply steps_join |].
      intros _. apply steps_session.
  - apply Hclose; [apply preserves_raise | by apply steps_raise].
Qed.
End loop_steps.

(** ** Other boards *)

#[local] Instance same_off_preorder b : PreOrder (same_off b).
Proof.
  split.
  - by intros m b' Hne.
  - intros m1 m2 m3 H12 H23 b' Hne.
    destruct (H12 b' Hne) as (? & ? & ?), (H23 b' Hne) as (? & ? & ?).
    split_and!; congruence.
Qed.

Lemma steps_same_off_endpoint send_ok ws b inbound :
  steps (same_off b) (websocket_endpoint send_ok ws b inbound).
Proof.
  apply steps_websocket_endpoint; [apply _ | | | |].
  - intros uid m _. apply drop_user_same_off.
  - intros m bd bd' _ _ _ _. apply with_board_data_same_off.
  - intros m ui u info info' _ _ _ _ _. apply with_user_info_same_off.
  - intros ws' data rnd m _. apply enrol_same_off.
Qed.

(** ** Roster and identity records go together *)

#[local] Instance carries_roster_registered_preorder :
  PreOrder carries_roster_registered.
Proof.
  split; [intros m H; exact H | intros m1 m2 m3 H12 H23 H; apply H23, H12, H].
Qed.

Lemma same_off_views b m m' b' :
  same_off b m m' → b' ≠ b →
  conns_of m' b' = conns_of m b' ∧ infos_of m' b' = infos_of m b' ∧
  roster_of m' b' = roster_of m b'.
Proof.
  intros Hoff Hne. destruct (Hoff b' Hne) as (H1 & H2 & H3).
  unfold conns_of, infos_of, roster_of. by rewrite H1, H2, H3.
Qed.

Lemma roster_registered_local b m m' :
  roster_registered m → same_off b m m' →
  (∀ u, u ∈ ue_id <$> roster_of m' b ↔ is_Some (od_get u (infos_of m' b))) →
  roster_registered m'.
Proof.
  intros Hr Hoff Hb b' u. destruct (decide (b' = b)) as [->|Hne]; [done|].
  destruct (same_off_views b m m' b' Hoff Hne) as (_ & -> & ->). apply Hr.
Qed.

Lemma elem_of_ids_filter_ne (u uid : string) (us : list UserEntry) :
  u ∈ ue_id <$> filter (λ e, ue_id e ≠ uid) us ↔ u ≠ uid ∧ u ∈ ue_id <$> us.
Proof.
  rewrite !list_elem_of_fmap. split.
  - intros (e & -> & He). apply list_elem_of_filter in He as [Hne He]. eauto.
  - intros (Hne & e & -> & He). exists e. split; [done|]. by apply list_elem_of_filter.
Qed.

Lemma drop_user_views b uid m :
  registry_wf m →
  (od_get uid (infos_of m b) = None ∧ drop_user b uid m = m) ∨
  (is_Some (od_get uid (infos_of m b)) ∧
   ((conns_of (drop_user b uid m) b = [] ∧ infos_of (drop_user b uid m) b = [] ∧
     roster_of (drop_user b uid m) b = [] ∧ board_data (drop_user b uid m) !! b = None) ∨
    (conns_of (drop_user b uid m) b = od_del uid (conns_of m b) ∧
     infos_of (drop_user b uid m) b = od_del uid (infos_of m b) ∧
     roster_of (drop_user b uid m) b = filter (λ e, ue_id e ≠ uid) (roster_of m b) ∧
     objects <$> board_data (drop_user b uid m) !! b = objects <$> board_data m !! b ∧
     od_del uid (conns_of m b) ≠ []))).
Proof.
  intros Hwf. specialize (Hwf b).
  unfold drop_user, conns_of, infos_of, roster_of, slot_wf in *.
  destruct (active_connections m !! b) as [conns|] eqn:Hac;
    destruct (board_data m !! b) as [bd|] eqn:Hbd;
    destruct (user_info m !! b) as [ui|] eqn:Hui; try done;
    [|left; by rewrite ?Hui].
  destruct (od_get uid ui) eqn:Hget; [right; split; [eauto|] | left; by rewrite ?Hui].
  destruct (od_del uid conns) eqn:Hdel; cbn [active_connections board_data user_info].
  - left. by rewrite !lookup_delete_eq.
  - right. by rewrite !lookup_insert_eq.
Qed.

Lemma drop_user_roster_registered b uid m :
  Inv m → roster_registered m → roster_registered (drop_user b uid m).
Proof.
  intros [Hwf _] Hr. apply (roster_registered_local b m); [done | apply drop_user_same_off |].
  intros u. specialize (Hr b u).
  destruct (drop_user_views b uid m Hwf) as [[_ ->]|[_ [(_ & -> & -> & _)|(_ & -> & -> & _)]]].
  - done.
  - cbn. split; [intros H; by apply elem_of_nil in H | by intros [? ?]].
  - rewrite elem_of_ids_filter_ne, od_get_del. case_decide as Hu.
    + split; [by intros [? _] | by intros [? ?]].
    + rewrite Hr. split; [by intros [_ ?] | by split].
Qed.

Lemma enrol_roster_ids ws b data rnd m :
  registry_wf m →
  let uid := (resolve_identity data rnd).1.1 in
  ∀ u, u ∈ ue_id <$> roster_of (enrol ws b data rnd m) b ↔
       u = uid ∨ u ∈ ue_id <$> roster_of m b.
Proof.
  intros Hwf uid u. subst uid. specialize (Hwf b).
  unfold enrol, identity, ensure_board, roster_of, slot_wf in *.
  destruct (resolve_identity data rnd) as [[uid uname] sid]. cbn [fst snd].
  destruct (active_connections m !! b) as [conns|] eqn:Hac;
    destruct (board_data m !! b) as [bd|] eqn:Hbd;
    destruct (user_info m !! b) as [ui|] eqn:Hui; try done;
    cbn [active_connections board_data user_info];
    rewrite ?Hbd, ?lookup_insert_eq; cbn [default from_option id].
  - destruct (existing_user uid (users bd)) eqn:Hex.
    + rewrite Hbd. apply existing_user_Some_elem in Hex.
      split; [by right | intros [->|?]; done].
    + rewrite lookup_insert_eq. cbn [users set_users].
      rewrite fmap_app, elem_of_app. cbn. rewrite list_elem_of_singleton. tauto.
  - change (existing_user uid (users empty_board)) with (@None UserEntry). cbv iota.
    rewrite lookup_insert_eq. cbn [users set_users empty_board].
    cbn. rewrite list_elem_of_singleton. split; [by left | intros [?|H]; [done|]].
    by apply elem_of_nil in H.
Qed.

Lemma enrol_roster_registered ws b data rnd m :
  Inv m → roster_registered m → roster_registered (enrol ws b data rnd m).
Proof.
  intros [Hwf _] Hr. apply (roster_registered_local b m); [done | apply enrol_same_off |].
  intros u. rewrite enrol_roster_ids, enrol_infos, od_get_set by done.
  specialize (Hr b u). case_decide as Hu.
  - split; [eauto | by left].
  - rewrite <- Hr. split; [intros [?|?]; done | by right].
Qed.

Lemma set_board_roster_registered b bd bd' m :
  board_data m !! b = Some bd →
  ue_id <$> users bd' = ue_id <$> users bd →
  roster_registered m → roster_registered (with_board_data <[b := bd']> m).
Proof.
  intros Hbd Hids Hr.
  apply (roster_registered_local b m); [done | apply with_board_data_same_off |].
  intros u. specialize (Hr b u). unfold roster_of, infos_of, with_board_data in *.
  cbn [board_data user_info]. rewrite lookup_insert_eq, Hids. by rewrite Hbd in Hr.
Qed.

Lemma set_info_roster_registered b ui u info info' m :
  user_info m !! b = Some ui → od_get u ui = Some info →
  roster_registered m → roster_registered (with_user_info <[b := od_set u info' ui]> m).
Proof.
  intros Hui Hget Hr.
  apply (roster_registered_local b m); [done | apply with_user_info_same_off |].
  intros v. specialize (Hr b v). unfold roster_of, infos_of, with_user_info in *.
  cbn [board_data user_info]. rewrite lookup_insert_eq, od_get_set.
  rewrite Hui in Hr. rewrite Hr. case_decide; [subst; rewrite Hget; split; eauto | done].
Qed.

Section roster_registered_steps.
Variable send_ok : WebSocket → message → bool.
Variable b : string.

Lemma carries_board m bd bd' :
  Inv m → board_data m !! b = Some bd → background bd' = background bd →
  ue_id <$> users bd' = ue_id <$> users bd →
  carries_roster_registered m (with_board_data <[b := bd']> m).
Proof. intros _ Hbd _ Hids Hr. by apply (set_board_roster_registered b bd bd' m). Qed.

Lemma carries_info m ui u info info' :
  Inv m → user_info m !! b = Some ui → od_get u ui = Some info →
  ui_id info' = ui_id info → ui_color info' = ui_color info →
  carries_roster_registered m (with_user_info <[b := od_set u info' ui]> m).
Proof. intros _ Hui Hget _ _ Hr. by apply (set_info_roster_registered b ui u info info' m). Qed.

Lemma carries_enrol ws data rnd m :
  Inv m → carries_roster_registered m (enrol ws b data rnd m).
Proof. intros HI Hr. by apply enrol_roster_registered. Qed.
End roster_registered_steps.

Lemma reachable_roster_registered s : reachable s → roster_registered (manager s).
Proof.
  induction 1 as [w u n|u n s Hs IH|send_ok ws b inbound s Hs IH
                  |send_ok ws b data rnd s Hs IH
                  |send_ok ws b data rnd s Hs IH|send_ok b s Hs IH
                  |ws b data rnd s Hs IH|b uid s Hs IH|send_ok b msg exclude s Hs IH];
    cbn [manager st_user_id st_user_name];
    try pose proof (reachable_Inv s Hs) as HI.
  - intros b' x. unfold roster_of, infos_of, new_manager. cbn. rewrite !lookup_empty.
    cbn. split; [intros H; by apply elem_of_nil in H | by intros [? ?]].
  - done.
  - apply (steps_websocket_endpoint send_ok carries_roster_registered b
             (drop_user_roster_registered b) (carries_board b) (carries_info b)
             (carries_enrol b) ws inbound s HI IH).
  - apply (steps_join send_ok carries_roster_registered b
             (drop_user_roster_registered b) (carries_enrol b) ws data rnd s HI IH).
  - apply (steps_handle_event send_ok carries_roster_registered b
             (drop_user_roster_registered b) (carries_board b) (carries_info b)
             ws data rnd s HI IH).
  - apply (steps_teardown send_ok carries_roster_registered b
             (drop_user_roster_registered b) s HI IH).
  - rewrite register_user_run by apply HI. by apply enrol_roster_registered.
  - rewrite disconnect_run by apply HI. by apply drop_user_roster_registered.
  - apply (steps_broadcast send_ok carries_roster_registered b
             (drop_user_roster_registered b) msg exclude s HI IH).
Qed.

Lemma wf_keys_eq b m : registry_wf m → od_keys (conns_of m b) = od_keys (infos_of m b).
Proof.
  intros Hwf. specialize (Hwf b). unfold slot_wf, conns_of, infos_of in *.
  destruct (active_connections m !! b); destruct (board_data m !! b);
    destruct (user_info m !! b); try done. apply Hwf.
Qed.

(** ** The handshake *)

Section handshake.
Variable send_ok : WebSocket → message → bool.

Lemma join_run ws b data rnd s :
  Inv (manager s) →
  join send_ok ws b data rnd s =
  if send_ok ws (init_message ws b data rnd (manager s))
  then broadcast send_ok b (joined_message b data rnd (manager s))
         (Some (resolve_identity data rnd).1.1)
         (st_emit [Sent ws (init_message ws b data rnd (manager s))]
            (after_register ws b data rnd s))
  else (Raise SendFailure, after_register ws b data rnd s).
Proof.
  intros [Hwf _]. unfold join, init_message, joined_message, after_register.
  unfold mbind at 1. unfold M_bind. rewrite register_user_run by done.
  unfold identity. destruct (resolve_identity data rnd) as [[uid uname] sid].
  cbn [fst snd]. mrun. unfold send_to_user, send_json.
  destruct (send_ok ws _); [|done]. unfold emit. by mrun.
Qed.

Lemma after_register_Inv ws b data rnd s :
  Inv (manager s) → Inv (manager (after_register ws b data rnd s)).
Proof.
  intros HI. unfold after_register, identity.
  destruct (resolve_identity data rnd) as [[uid uname] sid].
  cbn [manager st_user_name st_user_id st_manager]. by apply enrol_Inv.
Qed.

Lemma after_register_binding ws b data rnd s :
  var_user_id (after_register ws b data rnd s) = Some (resolve_identity data rnd).1.1 ∧
  var_user_name (after_register ws b data rnd s) = (resolve_identity data rnd).1.2 ∧
  manager (after_register ws b data rnd s) = enrol ws b data rnd (manager s) ∧
  wire (after_register ws b data rnd s) = wire s.
Proof.
  unfold after_register, identity.
  by destruct (resolve_identity data rnd) as [[uid uname] sid].
Qed.
End handshake.

(** ** Who the coroutine is bound to *)

Section binding.
Variable send_ok : WebSocket → message → bool.

Lemma broadcast_frame b msg exclude s :
  Inv (manager s) →
  var_user_id (broadcast send_ok b msg exclude s).2 = var_user_id s ∧
  var_user_name (broadcast send_ok b msg exclude s).2 = var_user_name s.
Proof. intros HI. by rewrite broadcast_run by apply HI. Qed.

Lemma broadcast_frame_to b msg exclude s u n :
  Inv (manager s) → var_user_id s = u → var_user_name s = n →
  var_user_id (broadcast send_ok b msg exclude s).2 = u ∧
  var_user_name (broadcast send_ok b msg exclude s).2 = n.
Proof. intros HI <- <-. by apply broadcast_frame. Qed.

Lemma handle_event_keeps_binding ws b data rnd s :
  Inv (manager s) → d_type data ≠ Some "update_user" →
  var_user_id (handle_event send_ok ws b data rnd s).2 = var_user_id s ∧
  var_user_name (handle_event send_ok ws b data rnd s).2 = var_user_name s.
Proof.
  intros HI Hty. unfold handle_event, require, send_to_user, send_json, emit.
  destruct (d_type data) as [ty|] eqn:Hd; [|done]. mrun.
  repeat case_bool_decide; simplify_eq;
    repeat (mrun; try case_match; simplify_eq); try done;
    (apply broadcast_frame_to; [solve_Inv | done | done]).
Qed.

Lemma event_loop_keeps_binding ws b inbound : ∀ s,
  Inv (manager s) → no_update_user inbound →
  var_user_id (event_loop send_ok ws b inbound s).2 = var_user_id s ∧
  var_user_name (event_loop send_ok ws b inbound s).2 = var_user_name s.
Proof.
  induction inbound as [|[data rnd|] rest IH]; intros s HI Hno; cbn [event_loop];
    try done.
  apply Forall_cons in Hno as [Hd Hno]. unfold mbind, M_bind.
  pose proof (handle_event_keeps_binding ws b data rnd s HI Hd) as [H1 H2].
  pose proof (handle_event_Inv send_ok ws b data rnd s HI) as HI'.
  destruct (handle_event send_ok ws b data rnd s) as [[[]|e] s']; cbn [snd] in *;
    [|done].
  destruct (IH s' HI' Hno) as [H3 H4]. split; congruence.
Qed.
End binding.

(** ** Gone means gone *)

#[local] Instance stays_absent_preorder b uid : PreOrder (stays_absent b uid).
Proof.
  split; [intros m H; exact H | intros m1 m2 m3 H12 H23 H; apply H23, H12, H].
Qed.

Lemma absent_set_board b uid bd bd' m :
  board_data m !! b = Some bd → ue_id <$> users bd' = ue_id <$> users bd →
  stays_absent b uid m (with_board_data <[b := bd']> m).
Proof.
  intros Hbd Hids (H1 & H2 & H3). unfold absent_from, conns_of, infos_of, roster_of in *.
  unfold with_board_data. cbn [active_connections board_data user_info].
  rewrite lookup_insert_eq, Hids. by rewrite Hbd in H3.
Qed.

Lemma absent_set_info b uid ui u info info' m :
  user_info m !! b = Some ui → od_get u ui = Some info →
  stays_absent b uid m (with_user_info <[b := od_set u info' ui]> m).
Proof.
  intros Hui Hget (H1 & H2 & H3). unfold absent_from, conns_of, infos_of, roster_of in *.
  unfold with_user_info. cbn [active_connections board_data user_info].
  rewrite lookup_insert_eq, od_get_set. rewrite Hui in H2.
  split_and!; [done | | done]. case_decide; [congruence | done].
Qed.

Lemma drop_user_makes_absent b uid m :
  Inv m → roster_registered m → absent_from b uid (drop_user b uid m).
Proof.
  intros [Hwf _] Hr.
  destruct (od_get uid (conns_of m b)) as [ws|] eqn:Hget.
  - apply drop_user_absent; [done | by rewrite Hget].
  - apply drop_user_keeps_absent.
    assert (od_get uid (infos_of m b) = None) as Hi.
    { apply eq_None_not_Some. rewrite <- (od_get_keys_congr uid _ _ (wf_keys_eq b m Hwf)).
      rewrite Hget. by intros [? ?]. }
    split_and!; [done | done |]. rewrite (Hr b uid), Hi. by intros [? ?].
Qed.

Section no_trace.
Variable send_ok : WebSocket → message → bool.

Lemma broadcast_stays_absent b uid msg exclude s :
  Inv (manager s) → absent_from b uid (manager s) →
  absent_from b uid (manager (broadcast send_ok b msg exclude s).2).
Proof.
  intros HI Ha.
  apply (steps_broadcast send_ok (stays_absent b uid) b
           (λ v m _, drop_user_keeps_absent b uid v m) msg exclude s HI Ha).
Qed.

Lemma teardown_deregisters b uid s :
  Inv (manager s) → roster_registered (manager s) →
  var_user_id s = Some uid → uid ≠ EmptyString →
  absent_from b uid (manager (teardown send_ok b s).2).
Proof.
  intros HI Hr Hu Hne.
  assert (str_truthy (var_user_id s) = true) as Ht.
  { rewrite Hu. cbn. by destruct uid. }
  rewrite teardown_bound by done. rewrite Hu. cbn [default from_option id].
  apply broadcast_stays_absent; cbn [manager st_manager].
  - by apply drop_user_Inv.
  - by apply drop_user_makes_absent.
Qed.

Lemma session_deregisters ws b inbound uid s :
  Inv (manager s) → roster_registered (manager s) →
  var_user_id s = Some uid → uid ≠ EmptyString → no_update_user inbound →
  absent_from b uid (manager (session send_ok ws b inbound s).2).
Proof.
  intros HI Hr Hu Hne Hno. unfold session, try_finally, except_disconnect, try_except.
  pose proof (preserves_event_loop send_ok ws b inbound s HI) as HI'.
  pose proof (steps_event_loop send_ok carries_roster_registered b
                (drop_user_roster_registered b) (carries_board b) (carries_info b)
                ws inbound s HI Hr) as Hr'.
  pose proof (event_loop_keeps_binding send_ok ws b inbound s HI Hno) as [Hu' _].
  rewrite Hu in Hu'.
  destruct (event_loop send_ok ws b inbound s) as [[[]|e] s']; cbn [snd] in *.
  - pose proof (teardown_deregisters b uid s' HI' Hr' Hu' Hne) as Ha.
    by destruct (teardown send_ok b s') as [[?|?] s''].
  - assert ((match e with WebSocketDisconnect => mret () | _ => raise e end : M unit) s'
            = (match e with WebSocketDisconnect => Ok () | _ => Raise e end, s')) as ->
      by (by destruct e).
    pose proof (teardown_deregisters b uid s' HI' Hr' Hu' Hne) as Ha.
    by destruct (teardown send_ok b s') as [[?|?] s''].
Qed.
End no_trace.

Lemma enrol_objects ws b data rnd m :
  registry_wf m →
  objects <$> board_data (enrol ws b data rnd m) !! b
  = Some (default [] (objects <$> board_data m !! b)).
Proof.
  intros Hwf. specialize (Hwf b). unfold enrol, identity, ensure_board, slot_wf in *.
  destruct (resolve_identity data rnd) as [[uid uname] sid].
  destruct (active_connections m !! b) as [conns|] eqn:Hac;
    destruct (board_data m !! b) as [bd|] eqn:Hbd;
    destruct (user_info m !! b) as [ui|] eqn:Hui; try done;
    cbn [active_connections board_data user_info];
    rewrite ?Hbd, ?lookup_insert_eq; cbn [default from_option id].
  - destruct (existing_user uid (users bd)); [by rewrite Hbd | by rewrite lookup_insert_eq].
  - change (existing_user uid (users empty_board)) with (@None UserEntry). cbv iota.
    by rewrite lookup_insert_eq.
Qed.

Lemma enrol_conns ws b data rnd m :
  registry_wf m →
  conns_of (enrol ws b data rnd m) b
  = od_set (resolve_identity data rnd).1.1 ws (conns_of m b).
Proof.
  intros Hwf. specialize (Hwf b).
  unfold enrol, identity, ensure_board, conns_of, slot_wf in *.
  destruct (resolve_identity data rnd) as [[uid uname] sid]. cbn [fst snd].
  destruct (active_connections m !! b) as [conns|] eqn:Hac;
    destruct (board_data m !! b) as [bd|] eqn:Hbd;
    destruct (user_info m !! b) as [ui|] eqn:Hui; try done;
    cbn [active_connections board_data user_info];
    by rewrite ?Hac, !lookup_insert_eq.
Qed.

Section endpoint_runs.
Variable send_ok : WebSocket → message → bool.

(** The endpoint on a [user_join] first frame. *)
Lemma endpoint_join_run ws b jd rnd rest s :
  d_type jd = Some "user_join" →
  websocket_endpoint send_ok ws b (Json jd rnd :: rest) s =
  try_except
    (join send_ok ws b jd rnd;; session send_ok ws b rest)
    (λ _, emit (Closed ws))
    (st_user_name None (st_user_id None s)).
Proof.
  intros Hty. unfold websocket_endpoint, require. rewrite Hty.
  unfold mbind at 1 2. unfold M_bind, set_user_id, set_user_name.
  unfold try_except, mbind, M_bind, mret, M_ret.
  by rewrite bool_decide_eq_true_2.
Qed.
End endpoint_runs.

(** ** The remaining branches of the loop *)

Section more_event_cases.
Variable send_ok : WebSocket → message → bool.

Lemma handle_remove_object ws b data rnd s :
  d_type data = Some "remove_object" →
  handle_event send_ok ws b data rnd s =
  broadcast send_ok b (ObjectRemoved (removal_id data)) None
    (st_manager (erase_object b (removal_id data) (manager s)) s).
Proof.
  intros Hty. unfold handle_event, require, erase_object, removal_id.
  rewrite Hty. mrun. dispatch.
  destruct (board_data (manager s) !! b); mrun; [|by destruct s].
  destruct (truthy _); mrun; [done | by destruct s].
Qed.

Lemma handle_clear_board ws b data rnd s :
  d_type data = Some "clear_board" →
  handle_event send_ok ws b data rnd s =
  broadcast send_ok b (clear_message data s) None
    (st_manager (wipe_objects b (manager s)) s).
Proof.
  intros Hty. unfold handle_event, require, wipe_objects, clear_message.
  rewrite Hty. mrun. dispatch.
  destruct (board_data (manager s) !! b); mrun; [done | by destruct s].
Qed.

Lemma handle_ping ws b data rnd s :
  d_type data = Some "ping" →
  handle_event send_ok ws b data rnd s =
  if send_ok ws Pong then (Ok (), st_emit [Sent ws Pong] s)
  else (Raise SendFailure, s).
Proof.
  intros Hty. unfold handle_event, require, send_to_user, send_json, emit.
  rewrite Hty. mrun. dispatch. by destruct (send_ok ws Pong).
Qed.

Lemma handle_unknown ws b data rnd s ty :
  d_type data = Some ty → ty ∉ known_types →
  handle_event send_ok ws b data rnd s = (Ok (), s).
Proof.
  intros Hty Hn. unfold handle_event, require. rewrite Hty. mrun.
  unfold known_types in Hn. repeat (apply not_elem_of_cons in Hn as [? Hn]).
  by rewrite !bool_decide_eq_false_2 by done.
Qed.

Lemma erase_object_Inv b oid m : Inv m → Inv (erase_object b oid m).
Proof.
  intros HI. unfold erase_object. destruct (board_data m !! b) eqn:Hbd; [|done].
  destruct (truthy oid); [|done]. by eapply Inv_set_board.
Qed.

Lemma wipe_objects_Inv b m : Inv m → Inv (wipe_objects b m).
Proof.
  intros HI. unfold wipe_objects. destruct (board_data m !! b) eqn:Hbd; [|done].
  by eapply Inv_set_board.
Qed.

(** The outcome of a handler that writes [m1] and then broadcasts. *)
Lemma write_then_broadcast b msg exclude s m1 :
  Inv m1 → conns_of m1 b = conns_of (manager s) b →
  let r := broadcast send_ok b msg exclude (st_manager m1 s) in
  r.1 = Ok () ∧
  wire r.2 = wire s ++ delivered send_ok msg (conns_of (manager s) b) ∧
  manager r.2 = prune b (failed send_ok msg (conns_of (manager s) b)) m1 ∧
  var_user_id r.2 = var_user_id s ∧ var_user_name r.2 = var_user_name s.
Proof.
  intros HI Hc r. subst r. rewrite broadcast_run by apply HI.
  cbn [fst snd manager wire var_user_id var_user_name st_manager st_emit].
  by rewrite Hc.
Qed.
End more_event_cases.

Lemma prune_nil b m : prune b [] m = m.
Proof. reflexivity. Qed.

Lemma prune_board b uids m bd' :
  board_data (prune b uids m) !! b = Some bd' →
  ∃ bd, board_data m !! b = Some bd ∧ objects bd' = objects bd ∧
        background bd' = background bd ∧ users bd' `sublist_of` users bd.
Proof.
  revert m bd'. induction uids as [|u uids IH]; intros m bd' H.
  - exists bd'. by rewrite prune_nil in H.
  - rewrite prune_cons in H. apply IH in H as (bd1 & H1 & Ho & Hb & Hu).
    unfold drop_user in H1.
    destruct (active_connections m !! b) as [conns|]; [|by eauto].
    destruct (user_info m !! b) as [ui|]; [|by eauto].
    destruct (board_data m !! b) as [bd|] eqn:Hbd; [|by rewrite Hbd in H1].
    destruct (od_get u ui); [|rewrite Hbd in H1; simplify_eq; by eauto].
    destruct (od_del u conns); cbn [board_data] in H1.
    + by rewrite lookup_delete_eq in H1.
    + rewrite lookup_insert_eq in H1. simplify_eq. exists bd.
      cbn [objects background users set_users] in *. split_and!; try done.
      etrans; [exact Hu | apply sublist_filter].
Qed.

Lemma stamped_fields o rnd :
  truthy (dict_get (stamped o rnd) "id") = true ∧
  dict_get (stamped o rnd) "timestamp" = VStr (now rnd) ∧
  (truthy (dict_get o "id") = true → dict_get (stamped o rnd) "id" = dict_get o "id") ∧
  (truthy (dict_get o "id") = false →
     dict_get (stamped o rnd) "id"
     = VStr (String.append "obj_" (synthetic_suffix rnd))) ∧
  (∀ k, k ≠ "id" → k ≠ "timestamp" → stamped o rnd !! k = o !! k).
Proof.
  unfold stamped, dict_get.
  destruct (truthy (default VNone (o !! "id"))) eqn:Ht.
  - rewrite lookup_insert_eq, lookup_insert_ne by done. split_and!; try done.
    intros k H1 H2. by rewrite lookup_insert_ne.
  - rewrite lookup_insert_eq, lookup_insert_ne, lookup_insert_eq by done.
    split_and!; try done. intros k H1 H2. by rewrite !lookup_insert_ne.
Qed.

Section presence_event_cases.
Variable send_ok : WebSocket → message → bool.

Lemma handle_update_user ws b data rnd s :
  d_type data = Some "update_user" →
  handle_event send_ok ws b data rnd s =
  broadcast send_ok b
    (UserUpdated (d_userId data) (d_oldName data) (d_newName data)) (d_userId data)
    (st_manager (rename_user b (d_userId data) (d_newName data) (manager s))
       (st_user_id (d_userId data) s)).
Proof.
  intros Hty. unfold handle_event, require, rename_user.
  rewrite Hty. mrun. dispatch.
  destruct (d_userId data) as [u|]; mrun.
  - destruct (user_info (manager s) !! b) as [ui|]; mrun.
    + destruct (od_get u ui); mrun;
        destruct (board_data (manager s) !! b); mrun; done.
    + destruct (board_data (manager s) !! b); mrun; done.
  - destruct (user_info (manager s) !! b) as [ui|]; mrun;
      destruct (board_data (manager s) !! b); mrun; done.
Qed.

Lemma handle_cursor_move ws b data rnd s p :
  d_type data = Some "cursor_move" → d_position data = Some p →
  handle_event send_ok ws b data rnd s =
  broadcast send_ok b (cursor_message b p s) (var_user_id s)
    (st_manager (place_cursor b (var_user_id s) p (manager s)) s).
Proof.
  intros Hty Hp. unfold handle_event, require, place_cursor, cursor_message, find_info,
    infos_of.
  rewrite Hty, Hp. mrun. dispatch.
  destruct (var_user_id s) as [u|] eqn:Hu; mrun; [|by destruct s; simplify_eq/=].
  destruct (user_info (manager s) !! b) as [ui|] eqn:Hui; mrun;
    [|by destruct s; simplify_eq/=].
  destruct (od_get u ui) as [info|] eqn:Hget; mrun.
  - rewrite od_get_set, decide_True, Hu by done. done.
  - rewrite Hget. destruct s. by simplify_eq/=.
Qed.
End presence_event_cases.

Lemma rename_user_Inv b uid n m : Inv m → Inv (rename_user b uid n m).
Proof.
  intros HI. unfold rename_user.
  set (m1 := match uid, user_info m !! b with
             | Some u, Some ui => _ | _, _ => m end).
  assert (Inv m1) as HI1.
  { subst m1. destruct uid as [u|]; [|done].
    destruct (user_info m !! b) as [ui|] eqn:Hui; [|done].
    destruct (od_get u ui) eqn:Hget; [|done]. by eapply Inv_set_info. }
  destruct (board_data m1 !! b) eqn:Hbd; [|done].
  eapply Inv_set_board; [done | apply rename_first_ids | done].
Qed.

Lemma place_cursor_Inv b uid p m : Inv m → Inv (place_cursor b uid p m).
Proof.
  intros HI. unfold place_cursor. destruct uid as [u|]; [|done].
  destruct (user_info m !! b) as [ui|] eqn:Hui; [|done].
  destruct (od_get u ui) eqn:Hget; [|done]. by eapply Inv_set_info.
Qed.

Lemma drop_user_info_kept b uid m v i :
  od_get v (infos_of (drop_user b uid m) b) = Some i →
  od_get v (infos_of m b) = Some i.
Proof.
  unfold drop_user, infos_of.
  destruct (active_connections m !! b) as [conns|]; [|done].
  destruct (user_info m !! b) as [ui|] eqn:Hui; [|by rewrite Hui].
  destruct (board_data m !! b) as [bd|]; [|by rewrite Hui].
  destruct (od_get uid ui); [|by rewrite Hui].
  destruct (od_del uid conns); cbn [user_info].
  - by rewrite lookup_delete_eq.
  - rewrite lookup_insert_eq, od_get_del. by case_decide.
Qed.

Lemma prune_info_kept b uids : ∀ m v i,
  od_get v (infos_of (prune b uids m) b) = Some i →
  od_get v (infos_of m b) = Some i.
Proof.
  induction uids as [|u uids IH]; intros m v i H; [done|].
  rewrite prune_cons in H. by apply IH, drop_user_info_kept in H.
Qed.

Lemma rename_first_elem u n us e :
  NoDup (ue_id <$> us) → e ∈ rename_first (Some u) n us →
  (ue_id e = u ∧ ue_name e = n ∧ ∃ e0, e0 ∈ us ∧ e = set_entry_name n e0) ∨
  (ue_id e ≠ u ∧ e ∈ us).
Proof.
  induction us as [|x us IH]; intros Hnd He; [by apply elem_of_nil in He|].
  rewrite fmap_cons in Hnd. apply NoDup_cons in Hnd as [Hx Hnd].
  cbn [rename_first] in He. case_bool_decide as Hid.
  - injection Hid as Hid. apply elem_of_cons in He as [->|He].
    + left. split_and!; [done | done |]. exists x. split; [left | done].
    + right. split; [|by right]. intros Heq. apply Hx. rewrite Hid, <- Heq.
      by apply list_elem_of_fmap_2.
  - apply elem_of_cons in He as [->|He].
    + right. split; [congruence | left].
    + destruct (IH Hnd He) as [(? & ? & e0 & ? & ?)|[? ?]].
      * left. split_and!; [done | done |]. exists e0. split; [by right | done].
      * right. split; [done | by right].
Qed.

Lemma rename_user_views b u n m :
  active_connections (rename_user b (Some u) n m) = active_connections m ∧
  infos_of (rename_user b (Some u) n m) b
  = match od_get u (infos_of m b) with
    | Some info => od_set u (set_name n info) (infos_of m b)
    | None => infos_of m b
    end ∧
  roster_of (rename_user b (Some u) n m) b = rename_first (Some u) n (roster_of m b) ∧
  objects <$> board_data (rename_user b (Some u) n m) !! b
  = objects <$> board_data m !! b.
Proof.
  unfold rename_user, infos_of, roster_of.
  destruct (user_info m !! b) as [ui|] eqn:Hui;
    [destruct (od_get u ui) as [info|] eqn:Hget|];
    unfold with_user_info; cbn [board_data];
    (destruct (board_data m !! b) as [bd|] eqn:Hbd;
     unfold with_board_data; cbn [active_connections board_data user_info];
     rewrite ?lookup_insert_eq, ?Hui, ?Hbd, ?Hget; done).
Qed.

Lemma place_cursor_views b u p m :
  active_connections (place_cursor b (Some u) p m) = active_connections m ∧
  board_data (place_cursor b (Some u) p m) = board_data m ∧
  infos_of (place_cursor b (Some u) p m) b
  = match od_get u (infos_of m b) with
    | Some info => od_set u (set_cursor p info) (infos_of m b)
    | None => infos_of m b
    end.
Proof.
  unfold place_cursor, infos_of.
  destruct (user_info m !! b) as [ui|] eqn:Hui;
    [destruct (od_get u ui) as [info|] eqn:Hget|];
    unfold with_user_info; cbn [active_connections board_data user_info];
    rewrite ?lookup_insert_eq, ?Hui, ?Hget; done.
Qed.

Lemma od_get_set_existing {V} (d : odict V) u v x f i :
  od_get u d = Some i →
  od_get v (od_set u (f i) d) = Some x →
  ∃ i0, od_get v d = Some i0 ∧ x = if decide (v = u) then f i0 else i0.
Proof.
  intros Hu. rewrite od_get_set. case_decide as Hv.
  - intros [= <-]. subst v. eauto.
  - eauto.
Qed.

(** ** Registration undone by [disconnect] *)

Lemma od_del_set_fresh {V} k (v : V) d : od_get k d = None → od_del k (od_set k v d) = d.
Proof.
  induction d as [|[k0 v0] d IH]; cbn [od_get od_set od_del].
  - by rewrite decide_True.
  - case_decide as Hk; [done|]. intros Hd. cbn [od_del].
    rewrite decide_False by done. by rewrite IH.
Qed.

Lemma filter_ne_app_fresh (uid : string) (us : list UserEntry) e :
  uid ∉ ue_id <$> us → ue_id e = uid →
  filter (λ u, ue_id u ≠ uid) (us ++ [e]) = us.
Proof.
  intros Hn He. rewrite filter_app.
  rewrite (filter_cons_False (λ u, ue_id u ≠ uid)) by (intros H; by apply H).
  rewrite filter_nil, app_nil_r.
  induction us as [|x us IH]; [done|].
  rewrite fmap_cons, not_elem_of_cons in Hn. destruct Hn as [Hx Hn].
  rewrite (filter_cons_True (λ u, ue_id u ≠ uid)) by (intros H; by apply Hx).
  by rewrite IH.
Qed.

Lemma set_users_same bd : set_users (users bd) bd = bd.
Proof. by destruct bd. Qed.

Lemma drop_enrol_fresh ws b data rnd m :
  Inv m → roster_registered m →
  od_get (resolve_identity data rnd).1.1 (infos_of m b) = None →
  drop_user b (resolve_identity data rnd).1.1 (enrol ws b data rnd m) = m ∧
  leaver_name b (resolve_identity data rnd).1.1 (enrol ws b data rnd m)
  = (resolve_identity data rnd).1.2.
Proof.
  intros [Hwf Hru] Hrr Hnone. specialize (Hwf b). specialize (Hrr b).
  unfold enrol, identity, ensure_board, drop_user, leaver_name, conns_of, infos_of,
    roster_of, slot_wf in *.
  destruct (resolve_identity data rnd) as [[u uname] sid]. cbn [fst snd] in *.
  destruct m as [ac bdm uim]. cbn [active_connections board_data user_info] in *.
  destruct (ac !! b) as [conns|] eqn:Hac;
    destruct (bdm !! b) as [bd|] eqn:Hbd;
    destruct (uim !! b) as [ui|] eqn:Hui; try done;
    cbn [active_connections board_data user_info].
  - destruct Hwf as (Hne & Hk & Hnd). rewrite Hac, Hbd, Hui. cbn [default from_option id].
    assert (u ∉ ue_id <$> users bd) as Hnr.
    { intros Hin. apply Hrr in Hin. rewrite Hnone in Hin. by destruct Hin. }
    assert (od_get u conns = None) as Hnc.
    { apply od_get_None. rewrite Hk. by apply od_get_None. }
    apply existing_user_None in Hnr as Hex. rewrite Hex.
    cbn [active_connections board_data user_info]. rewrite !lookup_insert_eq.
    rewrite od_get_set, decide_True by done. rewrite !od_del_set_fresh by done.
    split; [|done]. destruct conns as [|kv conns]; [done|].
    cbn [users set_users]. rewrite filter_ne_app_fresh by done.
    rewrite !insert_insert_eq. f_equal; apply insert_id; try done.
    rewrite Hbd. by destruct bd.
  - rewrite !lookup_insert_eq. cbn [default from_option id empty_board users od_set].
    cbn [existing_user filter head list_filter].
    cbn [active_connections board_data user_info]. rewrite !lookup_insert_eq.
    cbn [od_get od_del]. rewrite !decide_True by done. split; [|done].
    rewrite !insert_insert_eq, !delete_insert_eq, !delete_id by done. done.
Qed.

Lemma drop_user_unregistered b uid m :
  od_get uid (infos_of m b) = None →
  drop_user b uid m = m ∧ leaver_name b uid m = Some "User".
Proof.
  unfold drop_user, leaver_name, infos_of.
  destruct (active_connections m !! b) as [conns|]; [|done].
  destruct (user_info m !! b) as [ui|]; [|done].
  intros ->. by destruct (board_data m !! b).
Qed.

(** ** Backgrounds and identity records *)

#[local] Instance carries_records_sound_preorder : PreOrder carries_records_sound.
Proof.
  split; [intros m H; exact H | intros m1 m2 m3 H12 H23 H; apply H23, H12, H].
Qed.

Lemma assign_color_palette ui : assign_color ui ∈ colors.
Proof.
  unfold assign_color. destruct (available_colors ui) as [|c rest] eqn:Hav.
  - apply list_elem_of_In, nth_In, Nat.mod_upper_bound. done.
  - assert (c ∈ available_colors ui) as Hc by (rewrite Hav; left).
    unfold available_colors in Hc. by apply list_elem_of_filter in Hc as [_ Hc].
Qed.

Lemma records_sound_local b m m' :
  records_sound m → same_off b m m' →
  ((∀ bd, board_data m' !! b = Some bd → background bd = "#FFFFFF") ∧
   (∀ u i, od_get u (infos_of m' b) = Some i → ui_id i = u ∧ ui_color i ∈ colors)) →
  records_sound m'.
Proof.
  intros Hr Hoff Hb b'. destruct (decide (b' = b)) as [->|Hne]; [done|].
  destruct (Hoff b' Hne) as (_ & H2 & H3). specialize (Hr b').
  unfold infos_of in *. by rewrite H2, H3.
Qed.

Lemma drop_user_background b uid m bd' :
  board_data (drop_user b uid m) !! b = Some bd' →
  ∃ bd, board_data m !! b = Some bd ∧ background bd' = background bd.
Proof.
  unfold drop_user.
  destruct (active_connections m !! b) as [conns|]; [|eauto].
  destruct (user_info m !! b) as [ui|]; [|eauto].
  destruct (board_data m !! b) as [bd|] eqn:Hbd; [|by rewrite Hbd].
  destruct (od_get uid ui); [|rewrite Hbd; eauto].
  destruct (od_del uid conns); cbn [board_data].
  - by rewrite lookup_delete_eq.
  - rewrite lookup_insert_eq. intros [= <-]. eauto.
Qed.

Lemma enrol_background ws b data rnd m bd' :
  registry_wf m → board_data (enrol ws b data rnd m) !! b = Some bd' →
  background bd' = background (default empty_board (board_data m !! b)).
Proof.
  intros Hwf. specialize (Hwf b). unfold enrol, identity, ensure_board, slot_wf in *.
  destruct (resolve_identity data rnd) as [[uid uname] sid].
  destruct (active_connections m !! b) as [conns|] eqn:Hac;
    destruct (board_data m !! b) as [bd|] eqn:Hbd;
    destruct (user_info m !! b) as [ui|] eqn:Hui; try done;
    cbn [active_connections board_data user_info];
    rewrite ?Hbd, ?lookup_insert_eq; cbn [default from_option id].
  - destruct (existing_user uid (users bd)); [rewrite Hbd | rewrite lookup_insert_eq];
      by intros [= <-].
  - change (existing_user uid (users empty_board)) with (@None UserEntry). cbv iota.
    rewrite lookup_insert_eq. by intros [= <-].
Qed.

Section records_sound_steps.
Variable b : string.

Lemma carries_sound_drop uid m : Inv m → carries_records_sound m (drop_user b uid m).
Proof.
  intros _ Hr. apply (records_sound_local b m); [done | apply drop_user_same_off |].
  destruct (Hr b) as [Hbg Hrec]. split.
  - intros bd' H. apply drop_user_background in H as (bd & Hbd & ->). eauto.
  - intros u i H. apply drop_user_info_kept in H. eauto.
Qed.

Lemma carries_sound_board m bd bd' :
  Inv m → board_data m !! b = Some bd → background bd' = background bd →
  ue_id <$> users bd' = ue_id <$> users bd →
  carries_records_sound m (with_board_data <[b := bd']> m).
Proof.
  intros _ Hbd Hbg _ Hr.
  apply (records_sound_local b m); [done | apply with_board_data_same_off |].
  destruct (Hr b) as [Hb Hrec]. unfold infos_of, with_board_data in *.
  cbn [board_data user_info]. rewrite lookup_insert_eq. split; [|done].
  intros ? [= <-]. rewrite Hbg. eauto.
Qed.

Lemma carries_sound_info m ui u info info' :
  Inv m → user_info m !! b = Some ui → od_get u ui = Some info →
  ui_id info' = ui_id info → ui_color info' = ui_color info →
  carries_records_sound m (with_user_info <[b := od_set u info' ui]> m).
Proof.
  intros _ Hui Hget Hid Hcol Hr.
  apply (records_sound_local b m); [done | apply with_user_info_same_off |].
  destruct (Hr b) as [Hb Hrec]. unfold infos_of, with_user_info in *.
  cbn [board_data user_info]. rewrite lookup_insert_eq. split; [done|].
  rewrite Hui in Hrec. intros v i. rewrite od_get_set. case_decide as Hv.
  - intros [= <-]. subst v. rewrite Hid, Hcol. eauto.
  - eauto.
Qed.

Lemma carries_sound_enrol ws data rnd m :
  Inv m → carries_records_sound m (enrol ws b data rnd m).
Proof.
  intros [Hwf _] Hr. apply (records_sound_local b m); [done | apply enrol_same_off |].
  destruct (Hr b) as [Hb Hrec]. split.
  - intros bd' H. rewrite (enrol_background ws b data rnd m bd' Hwf H).
    destruct (board_data m !! b) as [bd|]; [eauto | done].
  - intros u i. rewrite enrol_infos, od_get_set by done. case_decide as Hu.
    + intros [= <-]. split; [done | apply assign_color_palette].
    + eauto.
Qed.
End records_sound_steps.

Lemma reachable_records_sound s : reachable s → records_sound (manager s).
Proof.
  induction 1 as [w u n|u n s Hs IH|send_ok ws b inbound s Hs IH
                  |send_ok ws b data rnd s Hs IH
                  |send_ok ws b data rnd s Hs IH|send_ok b s Hs IH
                  |ws b data rnd s Hs IH|b uid s Hs IH|send_ok b msg exclude s Hs IH];
    cbn [manager st_user_id st_user_name];
    try pose proof (reachable_Inv s Hs) as HI.
  - intros b'. unfold infos_of, new_manager. cbn. rewrite !lookup_empty. by split.
  - done.
  - apply (steps_websocket_endpoint send_ok carries_records_sound b
             (carries_sound_drop b) (carries_sound_board b) (carries_sound_info b)
             (carries_sound_enrol b) ws inbound s HI IH).
  - apply (steps_join send_ok carries_records_sound b
             (carries_sound_drop b) (carries_sound_enrol b) ws data rnd s HI IH).
  - apply (steps_handle_event send_ok carries_records_sound b
             (carries_sound_drop b) (carries_sound_board b) (carries_sound_info b)
             ws data rnd s HI IH).
  - apply (steps_teardown send_ok carries_records_sound b
             (carries_sound_drop b) s HI IH).
  - rewrite register_user_run by apply HI. by apply carries_sound_enrol.
  - rewrite disconnect_run by apply HI. by apply carries_sound_drop.
  - apply (steps_broadcast send_ok carries_records_sound b
             (carries_sound_drop b) msg exclude s HI IH).
Qed.

(** ** The capped log of [ConnectionManager.add_object] *)

Lemma manager_add_object_board b o rnd s bd :
  board_data (manager s) !! b = Some bd →
  ∃ bd', board_data (manager (add_object b o rnd s).2) !! b = Some bd' ∧
         users bd' = users bd ∧ background bd' = background bd ∧
         objects bd' = drop (length (objects bd) + 1 - 1000)
                         (objects bd ++ [minted (o, rnd)]).
Proof.
  intros Hbd. unfold add_object, minted. mrun. rewrite length_app. cbn [length fst snd].
  case_bool_decide as Hlen; mrun; eexists; (split; [done|]);
    cbn [objects users background set_objects]; split_and!; try done.
  by replace (length (objects bd) + 1 - 1000) with 0 by lia.
Qed.

Lemma drop_last_thousand {A} (l : list A) x :
  drop (length (drop (length l - 1000) l) + 1 - 1000) (drop (length l - 1000) l ++ [x])
  = drop (length (l ++ [x]) - 1000) (l ++ [x]).
Proof.
  rewrite <- (drop_app_le l [x]) by lia. rewrite drop_drop, length_drop, length_app.
  cbn [length]. f_equal. lia.
Qed.

Lemma add_objects_log b os : ∀ s bd,
  board_data (manager s) !! b = Some bd →
  ∃ bd', board_data (manager (add_objects b os s)) !! b = Some bd' ∧
         users bd' = users bd ∧ background bd' = background bd ∧
         objects bd' =
           match os with
           | [] => objects bd
           | _ => drop (length (objects bd ++ (minted <$> os)) - 1000)
                    (objects bd ++ (minted <$> os))
           end.
Proof.
  induction os as [|[o rnd] os IH] using rev_ind; intros s bd Hbd.
  - exists bd. by cbn.
  - unfold add_objects. rewrite foldl_snoc. fold (add_objects b os s). cbn [fst snd].
    destruct (IH s bd Hbd) as (bd1 & Hbd1 & Hu1 & Hg1 & Ho1).
    destruct (manager_add_object_board b o rnd _ bd1 Hbd1) as (bd' & Hbd' & Hu & Hg & Ho).
    exists bd'. split; [done|]. split; [congruence|]. split; [congruence|].
    rewrite Ho, Ho1. destruct os as [|p os].
    + cbn [fmap list_fmap app]. by rewrite length_app.
    + rewrite fmap_app, app_assoc. cbn [fmap list_fmap].
      destruct ((p :: os) ++ [(o, rnd)]) eqn:E; [done|]. apply drop_last_thousand.
Qed.

(** ** Generated names *)

Lemma choice_elem xs i : xs ≠ [] → choice xs i ∈ xs.
Proof.
  intros Hne. unfold choice. apply list_elem_of_In, nth_In, Nat.mod_upper_bound.
  by destruct xs.
Qed.

Lemma append_nonempty a b : a ≠ EmptyString → String.append a b ≠ EmptyString.
Proof. by destruct a. Qed.

Lemma str_truthy_Some s : str_truthy s = true → ∃ n, s = Some n ∧ n ≠ EmptyString.
Proof.
  destruct s as [n|]; [|done]. cbn. intros H. exists n. split; [done|].
  intros ->. by cbn in H.
Qed.

(** ** A board that is gone *)

Lemma broadcast_absent send_ok b msg exclude s :
  active_connections (manager s) !! b = None →
  broadcast send_ok b msg exclude s = (Ok (), s).
Proof. intros Hac. unfold broadcast. by mrun. Qed.

(** ** The last member leaves *)

#[local] Instance members_shrink_preorder b : PreOrder (members_shrink b).
Proof.
  split; [intros m u H; exact H | intros m1 m2 m3 H12 H23 u H; apply H12, H23, H].
Qed.






(** * The claims on [modify_object] and on the life of a board *)

Lemma reachable_st_drawn : reachable st_drawn.
Proof. apply reachable_event, reachable_event, reachable_st_ab. Qed.

(** C4.  A [modify_object] event on an existing board is always
    answered by one [object_modified] broadcast, carrying the event's
    object (with the resolved id filled in when it had none): one send
    per member, delivered to every member whose socket accepts it.  The
    log afterwards is the old one with the first object of the resolved
    id replaced, and has the old length.  When no object of the log has
    an id equal to the resolved one, the log is unchanged: the event's
    object is not inserted.  When some object has, the first such object
    is replaced by the event's object at its position, and the log is
    the same everywhere else.  Ids are equal as Python's [==] has it:
    the same value, or a boolean and the integer 0 or 1. *)
Theorem modify_object_replaces_or_drops send_ok ws b data rnd s o bd :
  reachable s →
  d_type data = Some "modify_object" →
  d_object data = Some o →
  board_data (manager s) !! b = Some bd →
  let object_id := py_or (d_object_id data) (dict_get o "id") in
  let o' := ensure_id object_id o in
  let msg := ObjectModified o' object_id in
  let r := handle_event send_ok ws b data rnd s in
  r.1 = Ok () ∧
  wire r.2 = wire s ++ delivered send_ok msg (conns_of (manager s) b) ∧
  (∀ bd', board_data (manager r.2) !! b = Some bd' →
     objects bd' = replace_first object_id o' (objects bd)) ∧
  (failed send_ok msg (conns_of (manager s) b) = [] →
     board_data (manager r.2) !! b
     = Some (set_objects (replace_first object_id o' (objects bd)) bd)) ∧
  length (replace_first object_id o' (objects bd)) = length (objects bd) ∧
  ((∀ x, x ∈ objects bd → ¬ has_id object_id x) →
     replace_first object_id o' (objects bd) = objects bd) ∧
  (∀ i x, objects bd !! i = Some x →
     has_id object_id x →
     (∀ j y, j < i → objects bd !! j = Some y → ¬ has_id object_id y) →
     replace_first object_id o' (objects bd) = <[i := o']> (objects bd)) ∧
  (∀ i x, objects bd !! i = Some x →
     dict_get x "id" = object_id →
     (∀ j y, j < i → objects bd !! j = Some y → ¬ has_id object_id y) →
     ∀ bd', board_data (manager r.2) !! b = Some bd' →
       objects bd' !! i = Some o' ∧
       ∀ j, j ≠ i → objects bd' !! j = objects bd !! j).
Proof.
  intros Hs Hty Ho Hbd object_id o' msg r.
  pose proof (reachable_Inv s Hs) as HI.
  assert (Inv (with_board_data
                 <[b := set_objects (replace_first object_id o' (objects bd)) bd]>
                 (manager s))) as HI'.
  { by eapply Inv_set_board. }
  assert (∀ i x, objects bd !! i = Some x →
     has_id object_id x →
     (∀ j y, j < i → objects bd !! j = Some y → ¬ has_id object_id y) →
     replace_first object_id o' (objects bd) = <[i := o']> (objects bd)) as Hat.
  { intros i x Hi Hx Hbefore. apply (replace_first_at _ _ _ i x); [done | |].
    - by apply py_eq_same_scalar.
    - intros j y Hj Hy. apply py_eq_false_not_same. by apply (Hbefore j y). }
  assert (∀ bd', board_data (manager r.2) !! b = Some bd' →
     objects bd' = replace_first object_id o' (objects bd)) as Hlog.
  { subst r. rewrite (handle_modify_object send_ok ws b data rnd s o bd Hty Ho Hbd).
    fold object_id. fold o'. fold msg.
    rewrite broadcast_run by (cbn [manager st_manager]; apply HI').
    cbn [fst snd manager wire st_manager st_emit].
    intros bd' H. apply prune_objects in H as (bd1 & H1 & ->).
    unfold with_board_data in H1. cbn [board_data] in H1.
    rewrite lookup_insert_eq in H1. by injection H1 as <-. }
  split_and!; try done.
  - subst r. rewrite (handle_modify_object send_ok ws b data rnd s o bd Hty Ho Hbd).
    by rewrite broadcast_run by (cbn [manager st_manager]; apply HI').
  - subst r. rewrite (handle_modify_object send_ok ws b data rnd s o bd Hty Ho Hbd).
    by rewrite broadcast_run by (cbn [manager st_manager]; apply HI').
  - subst r. rewrite (handle_modify_object send_ok ws b data rnd s o bd Hty Ho Hbd).
    fold object_id. fold o'. fold msg.
    rewrite broadcast_run by (cbn [manager st_manager]; apply HI').
    cbn [fst snd manager wire st_manager st_emit].
    assert (conns_of (with_board_data
              <[b := set_objects (replace_first object_id o' (objects bd)) bd]>
              (manager s)) b = conns_of (manager s) b) as -> by done.
    intros ->. cbn [prune foldl]. unfold with_board_data. cbn [board_data].
    by rewrite lookup_insert_eq.
  - apply replace_first_length.
  - intros Hnone. apply replace_first_no_match. intros x Hx.
    apply py_eq_false_not_same. by apply Hnone.
  - intros i x Hi Hx Hbefore bd' Hbd'. rewrite (Hlog bd' Hbd').
    rewrite (Hat i x Hi) by first [by left | done].
    apply lookup_lt_Some in Hi as Hlt. split.
    + by apply list_lookup_insert_eq.
    + intros j Hj. by apply list_lookup_insert_ne.
Qed.

Lemma modify_object_replaces_or_drops_witness :
  objects <$>
    board_data (manager (handle_event all_ok 1 "b1" recolor_o2 rnd0 st_drawn).2) !! "b1"
  = Some [<["timestamp" := VStr "t0"]> {["id" := VStr "o1"]};
          <["color" := VStr "red"]> {["id" := VStr "o2"]}].
Proof.
  assert (is_Some (board_data (manager st_drawn) !! "b1")) as [bd Hbd]
    by (vm_compute; eauto).
  destruct (modify_object_replaces_or_drops all_ok 1 "b1" recolor_o2 rnd0 st_drawn
              (<["color" := VStr "red"]> {["id" := VStr "o2"]}) bd
              reachable_st_drawn eq_refl eq_refl Hbd)
    as (_ & _ & Hlog & _ & _ & _ & Hat & _).
  destruct (board_data (manager (handle_event all_ok 1 "b1" recolor_o2 rnd0 st_drawn).2)
              !! "b1") as [bd'|] eqn:Hbd'; [|by vm_compute in Hbd'].
  cbn [fmap option_fmap option_map]. rewrite (Hlog bd' eq_refl).
  vm_compute in Hbd. injection Hbd as <-.
  rewrite (Hat 1 (<["timestamp" := VStr "t0"]> {["id" := VStr "o2"]})).
  - vm_compute. reflexivity.
  - reflexivity.
  - left. vm_compute. reflexivity.
  - intros j y Hj Hy. destruct j as [|j]; [|lia]. injection Hy as <-.
    apply py_eq_false_not_same. vm_compute. reflexivity.
Defined.




(** * Further properties of the code *)

(** X1.  Boards do not interfere: a whole run of the endpoint for board
    [b] (handshake, any events, teardown, with any behaviour of the
    network) leaves the connection map, the data and the identity
    records of every other board exactly as they were. *)
Theorem endpoint_leaves_other_boards send_ok ws b inbound s b' :
  reachable s → b' ≠ b →
  let m' := manager (websocket_endpoint send_ok ws b inbound s).2 in
  active_connections m' !! b' = active_connections (manager s) !! b' ∧
  board_data m' !! b' = board_data (manager s) !! b' ∧
  user_info m' !! b' = user_info (manager s) !! b'.
Proof.
  intros Hs Hne m'. subst m'.
  by apply (steps_same_off_endpoint send_ok ws b inbound s (reachable_Inv s Hs)).
Qed.

Lemma endpoint_leaves_other_boards_witness :
  reachable st_ab ∧
  board_data
    (manager (websocket_endpoint all_ok 9 "b2"
                [Json (join_as "z") rnd0;
                 Json (with_object ∅ (with_type "add_object" blank)) rnd0] st_ab).2)
    !! "b1"
  = board_data (manager st_ab) !! "b1".
Proof.
  split; [apply reachable_st_ab|].
  apply (endpoint_leaves_other_boards all_ok 9 "b2"
           [Json (join_as "z") rnd0;
            Json (with_object ∅ (with_type "add_object" blank)) rnd0] st_ab "b1").
  - apply reachable_st_ab.
  - discriminate.
Defined.

(** X2.  In every state the process can reach, and on every board, the
    same user ids are on the roster, in the connection map and in the
    identity records: nobody is listed without a registered connection,
    and nobody is registered without being listed. *)
Theorem roster_lists_registered_users s b u :
  reachable s →
  (u ∈ ue_id <$> roster_of (manager s) b ↔ is_Some (od_get u (conns_of (manager s) b))) ∧
  (is_Some (od_get u (conns_of (manager s) b)) ↔
   is_Some (od_get u (infos_of (manager s) b))).
Proof.
  intros Hs. pose proof (reachable_Inv s Hs) as [Hwf _].
  pose proof (reachable_roster_registered s Hs b u) as Hr.
  pose proof (od_get_keys_congr u _ _ (wf_keys_eq b (manager s) Hwf)) as Hk.
  split; [by rewrite Hr, Hk | done].
Qed.

Lemma roster_lists_registered_users_witness :
  reachable st_ab ∧
  ("bb" ∈ ue_id <$> roster_of (manager st_ab) "b1" ↔
   is_Some (od_get "bb" (conns_of (manager st_ab) "b1"))).
Proof.
  split; [apply reachable_st_ab|].
  apply (roster_lists_registered_users st_ab "b1" "bb" reachable_st_ab).
Defined.

(** X3.  No leak after a completed session.  When the first frame is a
    [user_join], the snapshot reaches the new socket and no later frame
    is an [update_user], then however the session ends (the peer going
    away, an unparseable frame, a handler raising) no trace of the user
    is left on the board once the endpoint has returned: no connection,
    no identity record, no roster entry. *)
Theorem completed_session_leaves_no_trace send_ok ws b jd rnd rest s :
  reachable s →
  d_type jd = Some "user_join" →
  (resolve_identity jd rnd).1.1 ≠ EmptyString →
  send_ok ws (init_message ws b jd rnd (manager s)) = true →
  no_update_user rest →
  absent_from b (resolve_identity jd rnd).1.1
    (manager (websocket_endpoint send_ok ws b (Json jd rnd :: rest) s).2).
Proof.
  intros Hs Hty Hne Hinit Hno.
  pose proof (reachable_Inv s Hs) as HI.
  pose proof (reachable_roster_registered s Hs) as Hr.
  rewrite endpoint_join_run by done.
  set (s0 := st_user_name None (st_user_id None s)).
  assert (manager s0 = manager s) as Hm0 by done.
  unfold try_except, mbind, M_bind.
  rewrite join_run by (by rewrite Hm0). rewrite Hm0, Hinit.
  destruct (after_register_binding ws b jd rnd s0) as (Hu1 & _ & Hm1 & _).
  set (s1 := st_emit _ (after_register ws b jd rnd s0)).
  assert (Inv (manager s1)) as HI1.
  { subst s1. cbn [manager st_emit]. apply after_register_Inv. by rewrite Hm0. }
  assert (roster_registered (manager s1)) as Hr1.
  { subst s1. cbn [manager st_emit]. rewrite Hm1, Hm0. by apply enrol_roster_registered. }
  pose proof (broadcast_Inv send_ok b (joined_message b jd rnd (manager s))
                (Some (resolve_identity jd rnd).1.1) s1 HI1) as HI2.
  pose proof (steps_broadcast send_ok carries_roster_registered b
                (drop_user_roster_registered b) (joined_message b jd rnd (manager s))
                (Some (resolve_identity jd rnd).1.1) s1 HI1 Hr1) as Hr2.
  destruct (broadcast_frame send_ok b (joined_message b jd rnd (manager s))
              (Some (resolve_identity jd rnd).1.1) s1 HI1) as [Hu2 _].
  destruct (broadcast_ok send_ok b (joined_message b jd rnd (manager s))
              (Some (resolve_identity jd rnd).1.1) s1 HI1) as [s2 Hs2].
  rewrite Hs2 in *. cbn [snd] in *.
  assert (var_user_id s2 = Some (resolve_identity jd rnd).1.1) as Hu.
  { rewrite Hu2. subst s1. cbn [var_user_id st_emit]. exact Hu1. }
  pose proof (session_deregisters send_ok ws b rest _ s2 HI2 Hr2 Hu Hne Hno) as Ha.
  by destruct (session send_ok ws b rest s2) as [[[]|e] s3].
Qed.

Lemma completed_session_leaves_no_trace_witness :
  no_update_user [Json (with_object ∅ (with_type "add_object" blank)) rnd0;
                  Json (with_type "cursor_move" blank) rnd0] ∧
  absent_from "b1" "z"
    (manager (websocket_endpoint all_ok 9 "b1"
                [Json (join_as "z") rnd0;
                 Json (with_object ∅ (with_type "add_object" blank)) rnd0;
                 Json (with_type "cursor_move" blank) rnd0] st_ab).2).
Proof.
  assert (no_update_user [Json (with_object ∅ (with_type "add_object" blank)) rnd0;
                          Json (with_type "cursor_move" blank) rnd0]) as Hno.
  { repeat constructor; discriminate. }
  split; [exact Hno|].
  apply (completed_session_leaves_no_trace all_ok 9 "b1" (join_as "z") rnd0
           [Json (with_object ∅ (with_type "add_object" blank)) rnd0;
            Json (with_type "cursor_move" blank) rnd0] st_ab).
  - apply reachable_st_ab.
  - reflexivity.
  - discriminate.
  - reflexivity.
  - exact Hno.
Defined.

(** X4.  A handshake whose snapshot cannot be sent leaves a ghost.  When
    the first frame is a [user_join] and the [init] envelope cannot be
    sent to the new socket, the endpoint closes the socket and returns,
    but the registration made by [register_user] stays: the user id is
    still mapped to the dead socket, no [user_joined] or [user_left] is
    broadcast, and no teardown runs. *)
Theorem unsent_snapshot_leaves_registration send_ok ws b jd rnd rest s :
  reachable s →
  d_type jd = Some "user_join" →
  send_ok ws (init_message ws b jd rnd (manager s)) = false →
  let r := websocket_endpoint send_ok ws b (Json jd rnd :: rest) s in
  r.1 = Ok () ∧
  manager r.2 = enrol ws b jd rnd (manager s) ∧
  wire r.2 = wire s ++ [Closed ws] ∧
  od_get (resolve_identity jd rnd).1.1 (conns_of (manager r.2) b) = Some ws ∧
  (resolve_identity jd rnd).1.1 ∈ ue_id <$> roster_of (manager r.2) b.
Proof.
  intros Hs Hty Hinit r. subst r. pose proof (reachable_Inv s Hs) as HI.
  rewrite endpoint_join_run by done.
  set (s0 := st_user_name None (st_user_id None s)).
  assert (manager s0 = manager s) as Hm0 by done.
  unfold try_except, mbind, M_bind.
  rewrite join_run by (by rewrite Hm0). rewrite Hm0, Hinit.
  destruct (after_register_binding ws b jd rnd s0) as (_ & _ & Hm1 & Hw1).
  unfold emit. cbn [fst snd manager wire st_emit]. rewrite Hm1, Hw1, Hm0.
  split_and!; try done.
  - rewrite enrol_conns by apply HI. by rewrite od_get_set, decide_True.
  - apply enrol_roster_ids; [apply HI | by left].
Qed.

Lemma unsent_snapshot_leaves_registration_witness :
  socket_1_dead 1 (init_message 1 "b1" (join_as "a") rnd0 (manager st0)) = false ∧
  od_keys (conns_of (manager (websocket_endpoint socket_1_dead 1 "b1"
                                [Json (join_as "a") rnd0] st0).2) "b1")
  = ["a"].
Proof.
  split; [reflexivity|].
  destruct (unsent_snapshot_leaves_registration socket_1_dead 1 "b1" (join_as "a") rnd0
              [] st0) as (_ & Hm & _).
  - apply reachable_start.
  - reflexivity.
  - reflexivity.
  - rewrite Hm. reflexivity.
Defined.

(** X5.  [remove_object] removes every object of the resolved id, not
    only the first: on an existing board the log afterwards is the old
    one without the objects whose id equals it, the others in their
    order; when the request names no id the log is untouched.  Either
    way one [object_removed] carrying the resolved id goes to every
    member, and serving the same event again changes nothing more. *)
Theorem remove_object_erases_every_match send_ok ws b data rnd s bd :
  reachable s →
  d_type data = Some "remove_object" →
  board_data (manager s) !! b = Some bd →
  let oid := removal_id data in
  let kept := if truthy oid
              then filter (λ o, py_eq (dict_get o "id") oid = false) (objects bd)
              else objects bd in
  let r := handle_event send_ok ws b data rnd s in
  r.1 = Ok () ∧
  wire r.2 = wire s ++ delivered send_ok (ObjectRemoved oid) (conns_of (manager s) b) ∧
  (truthy oid = true → ∀ o, o ∈ kept → py_eq (dict_get o "id") oid = false) ∧
  kept `sublist_of` objects bd ∧
  (∀ bd', board_data (manager r.2) !! b = Some bd' → objects bd' = kept) ∧
  (∀ bd'', board_data (manager (handle_event send_ok ws b data rnd r.2).2) !! b = Some bd'' →
     objects bd'' = kept).
Proof.
  intros Hs Hty Hbd oid kept r. pose proof (reachable_Inv s Hs) as HI.
  assert (∀ s0 bd0, Inv (manager s0) → board_data (manager s0) !! b = Some bd0 →
            ∀ bd', board_data (manager (handle_event send_ok ws b data rnd s0).2) !! b
                   = Some bd' →
            objects bd' = if truthy oid
                          then filter (λ o, py_eq (dict_get o "id") oid = false)
                                 (objects bd0)
                          else objects bd0) as Hstep.
  { intros s0 bd0 HI0 Hbd0 bd'. rewrite handle_remove_object by done.
    rewrite broadcast_run by (cbn [manager st_manager]; by apply erase_object_Inv).
    cbn [snd manager st_manager]. intros H.
    apply prune_board in H as (bd1 & H1 & -> & _). unfold erase_object in H1.
    rewrite Hbd0 in H1. fold oid in H1. destruct (truthy oid).
    - unfold with_board_data in H1. cbn [board_data] in H1.
      rewrite lookup_insert_eq in H1. by simplify_eq.
    - by simplify_eq. }
  subst r. split_and!.
  - rewrite handle_remove_object by done.
    by rewrite broadcast_run by (cbn [manager st_manager]; by apply erase_object_Inv).
  - rewrite handle_remove_object by done.
    rewrite broadcast_run by (cbn [manager st_manager]; by apply erase_object_Inv).
    cbn [snd wire st_manager st_emit]. do 2 f_equal.
    unfold conns_of, erase_object. rewrite Hbd. by destruct (truthy _).
  - intros Ht o Ho. subst kept. rewrite Ht in Ho.
    by apply list_elem_of_filter in Ho as [? _].
  - subst kept. destruct (truthy oid); [apply sublist_filter | done].
  - by apply Hstep.
  - intros bd'' H.
    destruct (board_data (manager (handle_event send_ok ws b data rnd s).2) !! b)
      as [bd'|] eqn:Hbd'.
    + pose proof (Hstep s bd HI Hbd bd' Hbd') as Hkept.
      rewrite (Hstep _ bd' (handle_event_Inv send_ok ws b data rnd s HI) Hbd' bd'' H).
      rewrite Hkept. subst kept. destruct (truthy oid); [|done].
      rewrite list_filter_filter. apply list_filter_iff. tauto.
    + exfalso. revert H. rewrite (handle_remove_object send_ok ws b data rnd _ Hty).
      rewrite broadcast_run
        by (cbn [manager st_manager]; apply erase_object_Inv;
            by apply handle_event_Inv).
      cbn [snd manager st_manager]. intros H.
      apply prune_board in H as (bd1 & H1 & _). unfold erase_object in H1.
      rewrite Hbd' in H1. cbv iota in H1. congruence.
Qed.

Lemma remove_object_erases_every_match_witness :
  objects <$>
    board_data
      (manager
         (handle_event all_ok 1 "b1"
            (with_object {["id" := VStr "o1"]} (with_type "remove_object" blank)) rnd0
            (event_loop all_ok 1 "b1"
               [Json (with_object {["id" := VStr "o1"]} (with_type "add_object" blank))
                  rnd0] st_a).2).2) !! "b1"
  = Some [].
Proof.
  set (s := (event_loop all_ok 1 "b1"
               [Json (with_object {["id" := VStr "o1"]} (with_type "add_object" blank))
                  rnd0] st_a).2).
  assert (reachable s) as Hs.
  { subst s. cbn [event_loop]. unfold mbind, M_bind.
    pose proof (reachable_event all_ok 1 "b1"
                  (with_object {["id" := VStr "o1"]} (with_type "add_object" blank))
                  rnd0 st_a reachable_st_a) as H.
    by destruct (handle_event all_ok 1 "b1" _ rnd0 st_a) as [[[]|e] s']. }
  assert (is_Some (board_data (manager s) !! "b1")) as [bd Hbd] by (vm_compute; eauto).
  destruct (remove_object_erases_every_match all_ok 1 "b1"
              (with_object {["id" := VStr "o1"]} (with_type "remove_object" blank)) rnd0
              s bd Hs eq_refl Hbd) as (_ & _ & _ & _ & Hafter & _).
  destruct (board_data (manager (handle_event all_ok 1 "b1"
              (with_object {["id" := VStr "o1"]} (with_type "remove_object" blank)) rnd0
              s).2) !! "b1") as [bd'|] eqn:Hbd'; [|by vm_compute in Hbd'].
  cbn [fmap option_fmap option_map]. rewrite (Hafter bd' eq_refl).
  vm_compute in Hbd. injection Hbd as <-. vm_compute. reflexivity.
Defined.

(** X6.  [clear_board] empties the log of an existing board and touches
    nothing else of it: background and roster stay (the roster loses
    only members whose send fails), and when no send fails the registry
    differs from the old one in that log alone.  One [clear_board]
    envelope goes to every member. *)
Theorem clear_board_empties_log send_ok ws b data rnd s bd :
  reachable s →
  d_type data = Some "clear_board" →
  board_data (manager s) !! b = Some bd →
  let msg := clear_message data s in
  let r := handle_event send_ok ws b data rnd s in
  r.1 = Ok () ∧
  wire r.2 = wire s ++ delivered send_ok msg (conns_of (manager s) b) ∧
  (∀ bd', board_data (manager r.2) !! b = Some bd' →
     objects bd' = [] ∧ background bd' = background bd ∧
     users bd' `sublist_of` users bd) ∧
  (failed send_ok msg (conns_of (manager s) b) = [] →
     manager r.2 = with_board_data <[b := set_objects [] bd]> (manager s)).
Proof.
  intros Hs Hty Hbd msg r. pose proof (reachable_Inv s Hs) as HI.
  subst r. rewrite handle_clear_board by done. fold msg.
  destruct (write_then_broadcast send_ok b msg None s (wipe_objects b (manager s)))
    as (H1 & H2 & H3 & _); [by apply wipe_objects_Inv | |].
  { unfold conns_of, wipe_objects. by rewrite Hbd. }
  split_and!; try done.
  - intros bd' H. rewrite H3 in H. apply prune_board in H as (bd1 & Hb1 & -> & -> & Hu).
    unfold wipe_objects, with_board_data in Hb1. rewrite Hbd in Hb1.
    cbn [board_data] in Hb1. rewrite lookup_insert_eq in Hb1. by simplify_eq.
  - intros Hf. rewrite H3, Hf, prune_nil. unfold wipe_objects. by rewrite Hbd.
Qed.

Lemma clear_board_empties_log_witness :
  objects <$>
    board_data (manager (handle_event all_ok 1 "b1" (with_type "clear_board" blank) rnd0
                           st_ab).2) !! "b1"
  = Some [].
Proof.
  assert (is_Some (board_data (manager st_ab) !! "b1")) as [bd Hbd] by (vm_compute; eauto).
  destruct (clear_board_empties_log all_ok 1 "b1" (with_type "clear_board" blank) rnd0
              st_ab bd reachable_st_ab eq_refl Hbd) as (_ & _ & Hlog & _).
  destruct (board_data (manager (handle_event all_ok 1 "b1"
              (with_type "clear_board" blank) rnd0 st_ab).2) !! "b1")
    as [bd'|] eqn:Hbd'; [|by vm_compute in Hbd'].
  cbn [fmap option_fmap option_map]. by destruct (Hlog bd' eq_refl) as [-> _].
Defined.

(** X7.  The [add_object] branch stores, at the end of the log of an
    existing board, the event's object with a server timestamp and an id
    that is never empty: the client's id when it sent one, a synthetic
    one otherwise; every other field is the client's.  The log before is
    a prefix of the log after, and the very object stored is what
    [object_added] carries to every member. *)
Theorem add_object_appends_stamped send_ok ws b data rnd s o bd :
  reachable s →
  d_type data = Some "add_object" →
  d_object data = Some o →
  board_data (manager s) !! b = Some bd →
  let o' := stamped o rnd in
  let r := handle_event send_ok ws b data rnd s in
  r.1 = Ok () ∧
  wire r.2 = wire s ++ delivered send_ok (ObjectAdded o') (conns_of (manager s) b) ∧
  (∀ bd', board_data (manager r.2) !! b = Some bd' → objects bd' = objects bd ++ [o']) ∧
  truthy (dict_get o' "id") = true ∧
  dict_get o' "timestamp" = VStr (now rnd) ∧
  (truthy (dict_get o "id") = true → dict_get o' "id" = dict_get o "id") ∧
  (∀ k, k ≠ "id" → k ≠ "timestamp" → o' !! k = o !! k).
Proof.
  intros Hs Hty Ho Hbd o' r. pose proof (reachable_Inv s Hs) as HI.
  subst r. rewrite (handle_add_object send_ok ws b data rnd s o Hty Ho). fold o'.
  destruct (write_then_broadcast send_ok b (ObjectAdded o') None s
              (store_object b o' (manager s)))
    as (H1 & H2 & H3 & _); [by apply store_object_Inv | |].
  { unfold conns_of, store_object. by rewrite Hbd. }
  destruct (stamped_fields o rnd) as (F1 & F2 & F3 & _ & F5).
  split_and!; try done.
  intros bd' H. rewrite H3 in H. apply prune_board in H as (bd1 & Hb1 & -> & _).
  unfold store_object, with_board_data in Hb1. rewrite Hbd in Hb1.
  cbn [board_data] in Hb1. rewrite lookup_insert_eq in Hb1. by simplify_eq.
Qed.

Lemma add_object_appends_stamped_witness :
  objects <$>
    board_data (manager (handle_event all_ok 1 "b1"
                           (with_object {["id" := VStr "o1"]} (with_type "add_object" blank))
                           rnd0 st_ab).2) !! "b1"
  = Some [{["id" := VStr "o1"; "timestamp" := VStr "t0"]}].
Proof.
  assert (board_data (manager st_ab) !! "b1"
          = Some {| objects := []; background := "#FFFFFF";
                    users := [{| ue_id := "a"; ue_name := None; ue_color := "#FF6B6B";
                                 ue_joined_at := "t0" |};
                              {| ue_id := "bb"; ue_name := None; ue_color := "#4ECDC4";
                                 ue_joined_at := "t0" |}] |}) as Hbd by reflexivity.
  destruct (add_object_appends_stamped all_ok 1 "b1"
              (with_object {["id" := VStr "o1"]} (with_type "add_object" blank)) rnd0
              st_ab {["id" := VStr "o1"]} _ reachable_st_ab eq_refl eq_refl Hbd)
    as (_ & _ & Hlog & _).
  destruct (board_data (manager (handle_event all_ok 1 "b1"
              (with_object {["id" := VStr "o1"]} (with_type "add_object" blank))
              rnd0 st_ab).2) !! "b1") as [bd'|] eqn:Hbd'; [|by vm_compute in Hbd'].
  cbn [fmap option_fmap option_map]. rewrite (Hlog bd' eq_refl).
  vm_compute. reflexivity.
Defined.

(** X8.  A [ping] is answered by one [pong] on the sender's own socket
    and changes nothing; if that send fails the handler raises, still
    having changed nothing.  An event whose type is none of the seven
    the loop knows is ignored: the handler returns normally and the
    whole state is as before. *)
Theorem ping_and_unknown_types send_ok ws b data rnd s ty :
  d_type data = Some ty →
  (ty = "ping" →
     handle_event send_ok ws b data rnd s =
     if send_ok ws Pong then (Ok (), st_emit [Sent ws Pong] s)
     else (Raise SendFailure, s)) ∧
  (ty ∉ known_types → handle_event send_ok ws b data rnd s = (Ok (), s)).
Proof.
  intros Hty. split.
  - intros ->. by apply handle_ping.
  - by apply handle_unknown.
Qed.

Lemma ping_and_unknown_types_witness :
  handle_event all_ok 1 "b1" (with_type "resize" blank) rnd0 st_ab = (Ok (), st_ab).
Proof.
  destruct (ping_and_unknown_types all_ok 1 "b1" (with_type "resize" blank) rnd0 st_ab
              "resize" eq_refl) as [_ H].
  apply H. unfold known_types. repeat (apply not_elem_of_cons; split; [discriminate|]).
  apply not_elem_of_nil.
Defined.

(** X9.  [update_user] renames whichever user its [userId] names,
    whoever sends it: no check ties the event to the sender's own id,
    and the coroutine ends up bound to that id.  Of the identity records
    still on the board afterwards, the named user's has the new name and
    is otherwise as before, all others are as before; on the roster the
    named user's entry has the new name, all others are as before; the
    object log is untouched; and one [user_updated] goes to every
    member. *)
Theorem update_user_renames_named_user send_ok ws b data rnd s u :
  reachable s →
  d_type data = Some "update_user" →
  d_userId data = Some u →
  let n := d_newName data in
  let r := handle_event send_ok ws b data rnd s in
  r.1 = Ok () ∧
  var_user_id r.2 = Some u ∧
  wire r.2 = wire s ++
             delivered send_ok (UserUpdated (Some u) (d_oldName data) n)
               (conns_of (manager s) b) ∧
  (∀ v info', od_get v (infos_of (manager r.2) b) = Some info' →
     ∃ info, od_get v (infos_of (manager s) b) = Some info ∧
             info' = if decide (v = u) then set_name n info else info) ∧
  (∀ e, e ∈ roster_of (manager r.2) b →
     (ue_id e = u ∧ ue_name e = n ∧
      ∃ e0, e0 ∈ roster_of (manager s) b ∧ e = set_entry_name n e0) ∨
     (ue_id e ≠ u ∧ e ∈ roster_of (manager s) b)) ∧
  (∀ bd', board_data (manager r.2) !! b = Some bd' →
     ∃ bd, board_data (manager s) !! b = Some bd ∧ objects bd' = objects bd).
Proof.
  intros Hs Hty Hu n r. pose proof (reachable_Inv s Hs) as HI.
  subst r. rewrite handle_update_user by done. rewrite Hu. fold n.
  destruct (rename_user_views b u n (manager s)) as (Vc & Vi & Vr & Vo).
  destruct (write_then_broadcast send_ok b (UserUpdated (Some u) (d_oldName data) n)
              (Some u) (st_user_id (Some u) s) (rename_user b (Some u) n (manager s)))
    as (H1 & H2 & H3 & H4 & _); [by apply rename_user_Inv | |].
  { unfold conns_of. cbn [manager st_user_id]. by rewrite Vc. }
  cbn [manager wire var_user_id st_user_id] in *.
  split_and!; try done.
  - intros v info' Hget. rewrite H3 in Hget. apply prune_info_kept in Hget.
    rewrite Vi in Hget. destruct (od_get u (infos_of (manager s) b)) as [i|] eqn:Hi.
    + by apply (od_get_set_existing _ u v info' (set_name n) i).
    + exists info'. split; [done|]. case_decide; [congruence | done].
  - intros e He. unfold roster_of in He at 1. rewrite H3 in He.
    destruct (board_data (prune b _ _) !! b) as [bd'|] eqn:Hbd';
      [|by apply elem_of_nil in He].
    apply prune_board in Hbd' as (bd1 & Hb1 & _ & _ & Hsub).
    assert (e ∈ roster_of (rename_user b (Some u) n (manager s)) b) as He1.
    { unfold roster_of. rewrite Hb1. by eapply elem_of_sublist. }
    rewrite Vr in He1. apply rename_first_elem in He1; [done|].
    unfold roster_of. destruct (board_data (manager s) !! b) eqn:Hbd;
      [by eapply HI | apply NoDup_nil_2].
  - intros bd' H. rewrite H3 in H. apply prune_board in H as (bd1 & Hb1 & -> & _).
    rewrite Hb1 in Vo. cbn in Vo.
    destruct (board_data (manager s) !! b) as [bd|]; [|done].
    exists bd. split; [done|]. cbn in Vo. congruence.
Qed.

Lemma update_user_renames_named_user_witness :
  ui_name <$> od_get "bb"
    (infos_of (manager (handle_event all_ok 1 "b1"
                          {| d_type := Some "update_user"; d_userId := Some "bb";
                             d_userName := None; d_sessionId := None; d_object := None;
                             d_object_id := VNone; d_position := None;
                             d_oldName := None; d_newName := Some "Mallory";
                             d_user_id := None; d_user_name := None;
                             d_boardId := None |} rnd0 st_ab).2) "b1")
  = Some (Some "Mallory").
Proof.
  set (data := {| d_type := Some "update_user"; d_userId := Some "bb";
                  d_userName := None; d_sessionId := None; d_object := None;
                  d_object_id := VNone; d_position := None;
                  d_oldName := None; d_newName := Some "Mallory";
                  d_user_id := None; d_user_name := None; d_boardId := None |}).
  destruct (update_user_renames_named_user all_ok 1 "b1" data rnd0 st_ab "bb"
              reachable_st_ab eq_refl eq_refl) as (_ & _ & _ & Hinfo & _).
  destruct (od_get "bb" (infos_of (manager (handle_event all_ok 1 "b1" data rnd0 st_ab).2)
                           "b1")) as [info'|] eqn:Hget; [|by vm_compute in Hget].
  destruct (Hinfo "bb" info' Hget) as (info & _ & ->).
  rewrite decide_True by done. reflexivity.
Defined.

(** X10.  [cursor_move] acts for the id the coroutine is bound to.  The
    [cursor_moved] message carries that id, the event's position, and
    the name and color of the bound user's identity record, or "User"
    and "#999999" when the board holds no record under that id; it goes
    to every member.  Of the identity records still on the board
    afterwards only the bound user's may differ from before, and only in
    its cursor, which is the event's position; the object log is as
    before and the roster only loses the entries of pruned members. *)
Theorem cursor_move_records_position send_ok ws b data rnd s p :
  reachable s →
  d_type data = Some "cursor_move" →
  d_position data = Some p →
  let who := find_info (manager s) b (var_user_id s) in
  let msg := CursorMoved (var_user_id s)
               (match who with Some i => ui_name i | None => Some "User" end)
               (match who with Some i => ui_color i | None => "#999999" end) p in
  let r := handle_event send_ok ws b data rnd s in
  r.1 = Ok () ∧
  var_user_id r.2 = var_user_id s ∧
  wire r.2 = wire s ++ delivered send_ok msg (conns_of (manager s) b) ∧
  (∀ v info', od_get v (infos_of (manager r.2) b) = Some info' →
     ∃ info, od_get v (infos_of (manager s) b) = Some info ∧
             info' = if decide (Some v = var_user_id s)
                     then set_cursor p info else info) ∧
  (∀ bd', board_data (manager r.2) !! b = Some bd' →
     ∃ bd, board_data (manager s) !! b = Some bd ∧
           objects bd' = objects bd ∧ users bd' `sublist_of` users bd).
Proof.
  intros Hs Hty Hp who msg r. pose proof (reachable_Inv s Hs) as HI.
  subst r. rewrite (handle_cursor_move _ _ _ _ _ _ p) by done.
  assert (cursor_message b p s = msg) as ->.
  { unfold cursor_message, msg, who. by destruct (find_info _ _ _). }
  assert (active_connections (place_cursor b (var_user_id s) p (manager s))
          = active_connections (manager s)
          ∧ board_data (place_cursor b (var_user_id s) p (manager s))
            = board_data (manager s)
          ∧ ∀ v x, od_get v (infos_of (place_cursor b (var_user_id s) p (manager s)) b)
                   = Some x →
              ∃ i, od_get v (infos_of (manager s) b) = Some i ∧
                   x = if decide (Some v = var_user_id s) then set_cursor p i else i)
    as (Vc & Vb & Vi).
  { destruct (var_user_id s) as [u|] eqn:Hu.
    - destruct (place_cursor_views b u p (manager s)) as (Vc & Vb & Vi).
      split_and!; try done. intros v x. rewrite Vi.
      destruct (od_get u (infos_of (manager s) b)) as [i|] eqn:Hi.
      + intros Hx. destruct (od_get_set_existing _ u v x (set_cursor p) i Hi Hx)
          as (i0 & H0 & ->). exists i0. split; [done|].
        repeat case_decide; congruence.
      + intros Hx. exists x. split; [done|]. case_decide; congruence.
    - cbn [place_cursor]. split_and!; try done. intros v x Hx. exists x.
      split; [done|]. by case_decide. }
  destruct (write_then_broadcast send_ok b msg (var_user_id s) s
              (place_cursor b (var_user_id s) p (manager s)))
    as (H1 & H2 & H3 & H4 & _); [by apply place_cursor_Inv | |].
  { unfold conns_of. by rewrite Vc. }
  split_and!; try done.
  - intros v info' Hget. rewrite H3 in Hget. apply prune_info_kept in Hget. eauto.
  - intros bd' H. rewrite H3 in H.
    apply prune_board in H as (bd1 & Hb1 & -> & _ & Hsub).
    rewrite Vb in Hb1. eauto.
Qed.

Lemma cursor_move_records_position_witness :
  ui_cursor <$> od_get "a"
    (infos_of (manager (handle_event all_ok 1 "b1"
                          (with_position (VStr "3,4") (with_type "cursor_move" blank))
                          rnd0 st_ab).2) "b1")
  = Some (VStr "3,4").
Proof.
  set (data := with_position (VStr "3,4") (with_type "cursor_move" blank)).
  destruct (cursor_move_records_position all_ok 1 "b1" data rnd0 st_ab (VStr "3,4")
              reachable_st_ab eq_refl eq_refl) as (_ & _ & _ & Hinfo & _).
  destruct (od_get "a" (infos_of (manager (handle_event all_ok 1 "b1" data rnd0 st_ab).2)
                           "b1")) as [info'|] eqn:Hget; [|by vm_compute in Hget].
  destruct (Hinfo "a" info' Hget) as (info & _ & ->).
  reflexivity.
Defined.

(** X11.  Registration is undone by [disconnect].  When the id that
    [register_user] resolves has no identity record on the board, calling
    [register_user] and then [disconnect] for that id leaves all three
    dictionaries exactly as they were (a board created for the user is
    deleted again), and [disconnect] returns the name the user was
    registered under. *)
Theorem register_then_disconnect_restores ws b data rnd s :
  reachable s →
  let uid := (resolve_identity data rnd).1.1 in
  od_get uid (infos_of (manager s) b) = None →
  let r1 := register_user ws b data rnd s in
  let r2 := disconnect b uid r1.2 in
  r1.1 = Ok (identity b data rnd (manager s)) ∧
  r2.1 = Ok (resolve_identity data rnd).1.2 ∧
  manager r2.2 = manager s.
Proof.
  intros Hs uid Hnone r1 r2. pose proof (reachable_Inv s Hs) as HI.
  pose proof (reachable_roster_registered s Hs) as Hrr.
  subst r2 r1 uid. rewrite register_user_run by apply HI. cbn [fst snd].
  rewrite disconnect_run by (cbn [manager st_manager]; by apply enrol_Inv).
  cbn [fst snd manager st_manager].
  destruct (drop_enrol_fresh ws b data rnd (manager s) HI Hrr Hnone) as [-> ->].
  done.
Qed.

Lemma register_then_disconnect_restores_witness :
  manager (disconnect "b1" "cc" (register_user 3 "b1" (join_as "cc") rnd0 st_ab).2).2
  = manager st_ab.
Proof.
  exact (proj2 (proj2 (register_then_disconnect_restores 3 "b1" (join_as "cc") rnd0 st_ab
                         reachable_st_ab eq_refl))).
Defined.

(** X12.  [disconnect] for an id without an identity record on the
    board changes nothing and returns "User"; so a second [disconnect]
    for the same id, right after the first, is such a call. *)
Theorem disconnect_unknown_is_noop b uid s :
  reachable s →
  (od_get uid (infos_of (manager s) b) = None →
   disconnect b uid s = (Ok (Some "User"), s)) ∧
  disconnect b uid (disconnect b uid s).2
  = (Ok (Some "User"), (disconnect b uid s).2).
Proof.
  intros Hs.
  assert (∀ s, reachable s → od_get uid (infos_of (manager s) b) = None →
               disconnect b uid s = (Ok (Some "User"), s)) as Hnoop.
  { clear s Hs. intros s Hs Hnone. rewrite disconnect_run by apply (reachable_Inv s Hs).
    destruct (drop_user_unregistered b uid (manager s) Hnone) as [-> ->].
    by destruct s. }
  split; [by apply Hnoop|].
  apply Hnoop; [by apply reachable_disconnect|].
  rewrite disconnect_run by apply (reachable_Inv s Hs). cbn [snd manager st_manager].
  apply (drop_user_makes_absent b uid (manager s));
    [by apply reachable_Inv | by apply reachable_roster_registered].
Qed.

Lemma disconnect_unknown_is_noop_witness :
  disconnect "b1" "a" (disconnect "b1" "a" st_ab).2
  = (Ok (Some "User"), (disconnect "b1" "a" st_ab).2).
Proof.
  exact (proj2 (disconnect_unknown_is_noop "b1" "a" st_ab reachable_st_ab)).
Defined.

(** X13.  In every reachable state every board has the background
    "#FFFFFF" it was created with (no code path writes it), and every
    identity record is filed under its own id and carries one of the ten
    palette colors. *)
Theorem backgrounds_and_records_sound s b :
  reachable s →
  (∀ bd, board_data (manager s) !! b = Some bd → background bd = "#FFFFFF") ∧
  (∀ u i, od_get u (infos_of (manager s) b) = Some i →
          ui_id i = u ∧ ui_color i ∈ colors).
Proof. intros Hs. apply (reachable_records_sound s Hs b). Qed.

Lemma backgrounds_and_records_sound_witness :
  background <$> board_data (manager st_ab) !! "b1" = Some "#FFFFFF".
Proof.
  destruct (board_data (manager st_ab) !! "b1") as [bd|] eqn:Hbd;
    [|by vm_compute in Hbd].
  cbn [fmap option_fmap option_map]. f_equal.
  exact (proj1 (backgrounds_and_records_sound st_ab "b1" reachable_st_ab) bd Hbd).
Defined.

(** X14.  [register_user] for an id that already has an identity record
    on the board takes the registration over: the board's roster and
    object log are left as they are (the roster entry keeps its old name
    and color), the connection map keeps its keys in their order and now
    maps the id to the new socket, and the identity record is replaced by
    a new one with no cursor.  While fewer than ten records are on the
    board, the new record's color differs from the old one's, since the
    old color still counts as used when the new one is chosen. *)
Theorem rejoin_takes_over_registration ws b data rnd s i :
  reachable s →
  let uid := (resolve_identity data rnd).1.1 in
  od_get uid (infos_of (manager s) b) = Some i →
  let r := register_user ws b data rnd s in
  board_data (manager r.2) = board_data (manager s) ∧
  od_keys (conns_of (manager r.2) b) = od_keys (conns_of (manager s) b) ∧
  od_get uid (conns_of (manager r.2) b) = Some ws ∧
  ∃ i', od_get uid (infos_of (manager r.2) b) = Some i' ∧
        ui_name i' = (resolve_identity data rnd).1.2 ∧
        ui_cursor i' = VNone ∧
        r.1 = Ok (uid, ui_name i', ui_color i', ui_session_id i') ∧
        (length (infos_of (manager s) b) < 10 → ui_color i' ≠ ui_color i).
Proof.
  intros Hs uid Hi r. pose proof (reachable_Inv s Hs) as HI.
  pose proof (reachable_roster_registered s Hs) as Hrr.
  destruct HI as [Hwf Hru]. subst r uid. rewrite register_user_run by done.
  cbn [fst snd manager st_manager].
  assert (is_Some (od_get (resolve_identity data rnd).1.1 (conns_of (manager s) b)))
    as [ws0 Hws0].
  { rewrite (od_get_keys_congr _ _ _ (wf_keys_eq b (manager s) Hwf)). eauto. }
  split_and!.
  - apply enrol_roster; [done|]. apply Hrr. eauto.
  - rewrite enrol_conns by done. by apply (od_set_keys_present _ _ ws0).
  - rewrite enrol_conns, od_get_set by done. by rewrite decide_True.
  - rewrite enrol_infos, od_get_set by done. rewrite decide_True by done.
    eexists. split; [done|]. cbn [ui_name ui_cursor ui_color ui_session_id].
    split_and!; try done.
    + unfold identity. by destruct (resolve_identity data rnd) as [[? ?] ?].
    + intros Hlen. apply available_below_ten in Hlen.
      destruct (available_colors (infos_of (manager s) b)) as [|c rest] eqn:Hav; [done|].
      destruct (assign_color_first_unused _ _ _ Hav) as (-> & Hnew & _).
      intros ->. apply Hnew. unfold used_colors, od_values.
      apply od_get_elem_of in Hi.
      apply list_elem_of_fmap. exists i. split; [done|].
      apply list_elem_of_fmap. by exists ((resolve_identity data rnd).1.1, i).
Qed.

Lemma rejoin_takes_over_registration_witness :
  od_get "bb" (conns_of (manager (register_user 7 "b1" (join_as "bb") rnd0 st_ab).2) "b1")
  = Some 7.
Proof.
  destruct (od_get "bb" (infos_of (manager st_ab) "b1")) as [i|] eqn:Hi;
    [|by vm_compute in Hi].
  exact (proj1 (proj2 (proj2 (rejoin_takes_over_registration 7 "b1" (join_as "bb") rnd0
                                st_ab i reachable_st_ab Hi)))).
Defined.

(** X15.  [ConnectionManager.add_object], called any number of times in a
    row (at least once), keeps the last thousand: each call stores the
    object under a fresh id and timestamp, overwriting any it came with,
    and the log afterwards is the old log followed by the stored objects,
    cut down to its last 1000 entries.  Roster and background are left
    alone, and on a board that does not exist the calls do nothing. *)
Theorem manager_add_object_keeps_last_thousand b os s :
  os ≠ [] →
  match board_data (manager s) !! b with
  | None => add_objects b os s = s
  | Some bd =>
      let all := objects bd ++ (minted <$> os) in
      ∃ bd', board_data (manager (add_objects b os s)) !! b = Some bd' ∧
             objects bd' = drop (length all - 1000) all ∧
             length (objects bd') = length all `min` 1000 ∧
             users bd' = users bd ∧ background bd' = background bd
  end.
Proof.
  intros Hos. destruct (board_data (manager s) !! b) as [bd|] eqn:Hbd.
  - destruct (add_objects_log b os s bd Hbd) as (bd' & Hbd' & Hu & Hg & Ho).
    exists bd'. destruct os as [|p os]; [done|]. split_and!; try done.
    rewrite Ho, length_drop. lia.
  - clear Hos. induction os as [|[o rnd] os IH] using rev_ind; [done|].
    unfold add_objects in *. rewrite foldl_snoc, IH. cbn [fst snd].
    unfold add_object. by mrun.
Qed.

Lemma manager_add_object_keeps_last_thousand_witness :
  ∃ bd', board_data (manager (add_objects "b1" [(∅, rnd0); (∅, rnd0)] st_a)) !! "b1"
         = Some bd' ∧ length (objects bd') = 2.
Proof.
  pose proof (manager_add_object_keeps_last_thousand "b1" [(∅, rnd0); (∅, rnd0)] st_a
                ltac:(discriminate)) as H.
  destruct (board_data (manager st_a) !! "b1") as [bd|] eqn:Hbd;
    [|by vm_compute in Hbd].
  destruct H as (bd' & Hbd' & _ & Hlen & _). exists bd'. split; [done|].
  rewrite Hlen. vm_compute in Hbd. injection Hbd as <-. reflexivity.
Defined.

(** X16.  A join whose snapshot can be sent.  The [init] envelope goes
    to the joiner's socket first and is taken after the registration: it
    carries the identity [register_user] returned, the board as it then
    is (the object log from before the join, the roster with the joiner
    on it) and that same roster once more as [users].  The [user_joined]
    announcement then goes to every member of the board including the
    joiner, whose socket is in the connection map by then. *)
Theorem join_sends_snapshot_then_announces send_ok ws b data rnd s :
  reachable s →
  send_ok ws (init_message ws b data rnd (manager s)) = true →
  let uid := (resolve_identity data rnd).1.1 in
  let init := init_message ws b data rnd (manager s) in
  let joined := joined_message b data rnd (manager s) in
  let members := od_set uid ws (conns_of (manager s) b) in
  let r := join send_ok ws b data rnd s in
  r.1 = Ok () ∧
  var_user_id r.2 = Some uid ∧
  wire r.2 = wire s ++ Sent ws init :: delivered send_ok joined members ∧
  manager r.2 = prune b (failed send_ok joined members) (enrol ws b data rnd (manager s)) ∧
  (∃ bd', board_data (enrol ws b data rnd (manager s)) !! b = Some bd' ∧
          init = Init uid (resolve_identity data rnd).1.2
                   (assign_color (infos_of (manager s) b))
                   (resolve_identity data rnd).2 bd' (users bd') ∧
          objects bd' = default [] (objects <$> board_data (manager s) !! b) ∧
          uid ∈ ue_id <$> users bd') ∧
  (send_ok ws joined = true → Sent ws joined ∈ delivered send_ok joined members).
Proof.
  intros Hs Hinit uid init joined members r. pose proof (reachable_Inv s Hs) as HI.
  subst r. rewrite join_run by done. fold init in Hinit |- *. rewrite Hinit.
  fold joined.
  destruct (after_register_binding ws b data rnd s) as (Hu & _ & Hm & Hw).
  rewrite broadcast_run by (cbn [manager st_emit]; rewrite Hm; by apply enrol_Inv).
  cbn [fst snd manager wire var_user_id st_manager st_emit].
  rewrite Hm, Hw, Hu, enrol_conns by apply HI. fold uid members.
  split_and!; try done.
  - by rewrite <- app_assoc.
  - pose proof (enrol_objects ws b data rnd (manager s) (proj1 HI)) as Ho.
    pose proof (proj2 (enrol_roster ws b data rnd (manager s) (proj1 HI))) as Hr.
    cbn zeta in Hr. fold uid in Hr. unfold roster_of in Hr.
    destruct (board_data (enrol ws b data rnd (manager s)) !! b) as [bd'|] eqn:Hbd';
      [|done].
    exists bd'. split; [done|]. cbn in Ho. injection Ho as Ho. split_and!; try done.
    subst init uid. unfold init_message, identity. rewrite Hbd'.
    by destruct (resolve_identity data rnd) as [[? ?] ?].
  - intros Hok. apply elem_of_delivered. exists uid, ws. split_and!; try done.
    apply od_get_elem_of. subst members. by rewrite od_get_set, decide_True.
Qed.

Lemma join_sends_snapshot_then_announces_witness :
  wire (join all_ok 2 "b1" (join_as "bb") rnd0 st_a).2
  = wire st_a ++
    Sent 2 (init_message 2 "b1" (join_as "bb") rnd0 (manager st_a))
    :: delivered all_ok (joined_message "b1" (join_as "bb") rnd0 (manager st_a))
         (od_set "bb" 2 (conns_of (manager st_a) "b1")).
Proof.
  exact (proj1 (proj2 (proj2 (join_sends_snapshot_then_announces all_ok 2 "b1"
                                (join_as "bb") rnd0 st_a reachable_st_a eq_refl)))).
Defined.

(** X17.  Registration without a usable [userId] (absent or empty).  The
    user gets the freshly drawn id and the freshly drawn session id,
    whatever [sessionId] the envelope carried, and a non-empty name: the
    envelope's [userName] when that is non-empty, otherwise one adjective
    and one noun of the two lists joined by a space.  The identity record
    is filed under the drawn id with these values and no cursor, and the
    connection map binds the drawn id to the socket. *)
Theorem anonymous_registration ws b data rnd s :
  reachable s →
  str_truthy (d_userId data) = false →
  let r := register_user ws b data rnd s in
  ∃ name color,
    r.1 = Ok (uuid_a rnd, Some name, color, Some (uuid_b rnd)) ∧
    name ≠ EmptyString ∧
    (d_userName data = Some name ∨
     (str_truthy (d_userName data) = false ∧
      ∃ a n, a ∈ adjectives ∧ n ∈ nouns ∧
             name = String.append a (String.append " " n))) ∧
    color ∈ colors ∧
    od_get (uuid_a rnd) (infos_of (manager r.2) b)
    = Some {| ui_id := uuid_a rnd; ui_name := Some name; ui_color := color;
              ui_session_id := Some (uuid_b rnd); ui_joined_at := now rnd;
              ui_cursor := VNone |} ∧
    od_get (uuid_a rnd) (conns_of (manager r.2) b) = Some ws.
Proof.
  intros Hs Hid r. pose proof (reachable_Inv s Hs) as [Hwf _].
  subst r. rewrite register_user_run by done. cbn [fst snd manager st_manager].
  rewrite enrol_infos, enrol_conns, !od_get_set by done.
  unfold identity, resolve_identity. rewrite Hid. cbn [fst snd].
  rewrite !decide_True by done.
  destruct (str_truthy (d_userName data)) eqn:Hn.
  - destruct (str_truthy_Some _ Hn) as (name & Hname & Hne). rewrite Hname.
    exists name, (assign_color (infos_of (manager s) b)).
    split_and!; try done; [by left | apply assign_color_palette].
  - eexists _, (assign_color (infos_of (manager s) b)).
    split_and!; try done; [| |apply assign_color_palette].
    + apply append_nonempty. intros Hempty.
      pose proof (choice_elem adjectives (adjective_ix rnd) ltac:(done)) as Hin.
      rewrite Hempty in Hin. revert Hin. apply (bool_decide_unpack _). by vm_compute.
    + right. split; [done|]. eexists _, _. split_and!; [| |done];
        by apply choice_elem.
Qed.

Lemma anonymous_registration_witness :
  (register_user 5 "b1" (with_type "user_join" blank) rnd0 st_a).1
  = Ok ("7d0a", Some "Creative Artist", "#4ECDC4", Some "51c2").
Proof.
  destruct (anonymous_registration 5 "b1" (with_type "user_join" blank) rnd0 st_a
              reachable_st_a eq_refl) as (name & color & _).
  reflexivity.
Defined.

(** X18.  Events for a board that is gone.  A coroutine whose board has
    been deleted under it (its connection, the last one, pruned by the
    broadcast of another coroutine) goes on serving frames: an
    event that carries the fields its branch subscripts leaves the
    dictionaries untouched, does not re-create the board, and, unless it
    is a [ping], returns normally without sending anything. *)
Theorem events_on_vanished_board send_ok ws b data rnd s :
  reachable s →
  board_data (manager s) !! b = None →
  missing_required data = None →
  let r := handle_event send_ok ws b data rnd s in
  manager r.2 = manager s ∧
  (d_type data ≠ Some "ping" → r.1 = Ok () ∧ wire r.2 = wire s).
Proof.
  intros Hs Hbd Hreq r. pose proof (reachable_Inv s Hs) as [Hwf _].
  destruct (wf_absent_board b (manager s) Hwf Hbd) as [Hac Hui].
  subst r. unfold handle_event, require, missing_required in *.
  destruct (d_type data) as [ty|]; [|done]. mrun.
  repeat case_bool_decide; cbn [orb] in Hreq;
    repeat (mrun; try case_match; simplify_eq);
    rewrite ?broadcast_absent by done; try done.
  unfold send_to_user, send_json. case_match; mrun; by split.
Qed.

Lemma events_on_vanished_board_witness :
  manager (handle_event all_ok 1 "b1" (with_type "clear_board" blank) rnd0 st0).2
  = manager st0.
Proof.
  exact (proj1 (events_on_vanished_board all_ok 1 "b1" (with_type "clear_board" blank)
                  rnd0 st0 (reachable_start _ _ _) eq_refl eq_refl)).
Defined.

(** X19.  A session that loses its binding is never torn down.  An
    [update_user] event without a usable [userId] (absent or empty)
    leaves the coroutine bound to no id; when no later frame is an
    [update_user], the [finally] block finds nothing to do once the loop
    ends: no [disconnect], no [user_left], so the session ends in the
    very state the loop left, and returns normally when the loop ended
    on the peer's disconnect. *)
Theorem unbound_session_skips_teardown send_ok ws b data rnd rest s :
  reachable s →
  d_type data = Some "update_user" →
  str_truthy (d_userId data) = false →
  no_update_user rest →
  let l := event_loop send_ok ws b (Json data rnd :: rest) s in
  let r := session send_ok ws b (Json data rnd :: rest) s in
  r.2 = l.2 ∧ (l.1 = Raise WebSocketDisconnect → r.1 = Ok ()).
Proof.
  intros Hs Hty Hid Hno l r. pose proof (reachable_Inv s Hs) as HI.
  assert (str_truthy (var_user_id l.2) = false) as Hunbound.
  { subst l. cbn [event_loop]. unfold mbind, M_bind.
    pose proof (handle_update_user_binds send_ok ws b data rnd s HI Hty) as Hb.
    pose proof (handle_event_Inv send_ok ws b data rnd s HI) as HI'.
    destruct (handle_event send_ok ws b data rnd s) as [[[]|e] s1]; cbn [snd] in *.
    - destruct (event_loop_keeps_binding send_ok ws b rest s1 HI' Hno) as [-> _].
      by rewrite Hb.
    - by rewrite Hb. }
  subst r. unfold session, try_finally, except_disconnect, try_except. fold l.
  destruct l as [[[]|e] s2]; cbn [fst snd] in *.
  - rewrite teardown_unbound by done. by split.
  - destruct e; unfold mret, M_ret, raise; rewrite teardown_unbound by done;
      by split.
Qed.

Lemma unbound_session_skips_teardown_witness :
  od_keys (conns_of (manager (session all_ok 1 "b1"
                                [Json (with_type "update_user" blank) rnd0] st_ab).2) "b1")
  = ["a"; "bb"].
Proof.
  rewrite (proj1 (unbound_session_skips_teardown all_ok 1 "b1"
                    (with_type "update_user" blank) rnd0 [] st_ab reachable_st_ab
                    eq_refl eq_refl (Forall_nil_2 _))).
  reflexivity.
Defined.
